(** * Two web-API templates (NestJS + TypeORM, Express + Sequelize)

A shallow embedding of the user store, the authentication and
authorization flow, pagination, the error translators and the response
envelopes of both templates, followed by the properties established
about them.

Conventions of the embedding:
- a database table is the list of its rows, soft-deleted rows included;
- an [async] method that reads or writes the table is a function from the
  table to a result and the table afterwards (a state and error monad);
- a thrown exception is the [Throw] result;
- values that only the libraries produce (the clock, generated UUIDs,
  bcrypt, the JWT signer, PostgreSQL's ILIKE, ORDER BY and reading of
  uuid text) are inputs;
- a JavaScript number that holds an integer is that integer, rounded to
  the nearest double where the code computes it;
- a response is the status and the value handed to [json] as the body,
  which is sent unless the status is one that carries no body (what is
  [undefined] in it is dropped by the serialisation); a status that Node
  does not send makes [json] throw instead;
- requests are taken to use the method of their route: the answer to a
  [HEAD] request, which Express serves with the [GET] route and Node
  strips of its body, is not described. *)

From Stdlib Require Import List String Ascii ZArith Bool Lia DecimalString.
Import ListNotations.

Local Open Scope string_scope.
Local Open Scope Z_scope.

Set Warnings "-register-all".

(** ** JavaScript values, as far as the response code inspects them *)

Module Js.

Inductive value : Type :=
| Undefined
| Null
| Bool (b : bool)
| Num (n : Z)
| Str (s : string)
| Date (t : Z)
| Arr (items : list value)
| Obj (fields : list (string * value)).

(** Truthiness, as [if (x)], [x && y] and [x || y] test it. *)
Definition truthy (v : value) : bool :=
  match v with
  | Undefined | Null => false
  | Bool b => b
  | Num n => negb (n =? 0)
  | Str s => negb (String.eqb s "")
  | Date _ | Arr _ | Obj _ => true
  end.

Fixpoint lookup (k : string) (fields : list (string * value)) : option value :=
  match fields with
  | [] => None
  | (k', v) :: rest => if String.eqb k' k then Some v else lookup k rest
  end.

(** [v?.k]: property read that yields [undefined] where there is none. *)
Definition get (v : value) (k : string) : value :=
  match v with
  | Obj fields => match lookup k fields with Some x => x | None => Undefined end
  | _ => Undefined
  end.

Definition hasOwnProperty (v : value) (k : string) : bool :=
  match v with
  | Obj fields => match lookup k fields with Some _ => true | None => false end
  | _ => false
  end.

Definition keys (fields : list (string * value)) : list string := map fst fields.

(** [delete obj.k] *)
Definition delete (k : string) (fields : list (string * value))
  : list (string * value) :=
  filter (fun kv => negb (String.eqb (fst kv) k)) fields.

(** [Object.values(v)] of a value that is neither [null] nor [undefined];
    a string gives its characters. *)
Definition values (v : value) : list value :=
  match v with
  | Obj fields => map snd fields
  | Arr items => items
  | Str s => map (fun c => Str (String c EmptyString)) (list_ascii_of_string s)
  | _ => []
  end.

(** Does the key [k] occur as a property name anywhere inside [v]? *)
Fixpoint mentions (k : string) (v : value) : bool :=
  match v with
  | Arr items =>
      (fix any (l : list value) : bool :=
         match l with
         | [] => false
         | x :: rest => mentions k x || any rest
         end) items
  | Obj fields =>
      (fix any (l : list (string * value)) : bool :=
         match l with
         | [] => false
         | (k', x) :: rest => String.eqb k' k || mentions k x || any rest
         end) fields
  | _ => false
  end.

Definition ofOptDate (d : option Z) : value :=
  match d with Some t => Date t | None => Null end.

(** A string is truthy unless it is empty; an absent one is [undefined]. *)
Definition truthyStr (s : option string) : bool :=
  match s with Some x => negb (String.eqb x "") | None => false end.

(** The double nearest to an integer, ties to the even mantissa: every
    integer below 2^53 in magnitude is a double, a larger one keeps its 53
    leading bits. (Beyond the largest double the result would be
    [Infinity]; the model keeps the rounded integer, which is as far beyond
    what the database accepts.) *)
Definition toDouble (n : Z) : Z :=
  let a := Z.abs n in
  if a <? 2 ^ 53 then n
  else
    let k := Z.log2 a - 52 in
    let q := Z.shiftr a k in
    let r := a - Z.shiftl q k in
    let half := Z.shiftl 1 (k - 1) in
    let q' := if r <? half then q
              else if half <? r then q + 1
              else if Z.even q then q else q + 1 in
    Z.sgn n * Z.shiftl q' k.

(** [a - b] and [a * b] on numbers that hold integers. *)
Definition sub (a b : Z) : Z := toDouble (a - b).
Definition mul (a b : Z) : Z := toDouble (a * b).

(** Node sends no body with an informational status, 204 or 304, and
    refuses to send a status outside 100..999. *)
Definition bodyless (status : Z) : bool :=
  ((100 <=? status) && (status <=? 199)) || (status =? 204) || (status =? 304).

Definition validStatus (status : Z) : bool :=
  (100 <=? status) && (status <=? 999).

End Js.

(** [str.charAt(0).toUpperCase() + str.slice(1)], on ASCII letters. *)
Definition upperAscii (c : ascii) : ascii :=
  let n := nat_of_ascii c in
  if (Nat.leb 97 n && Nat.leb n 122)%bool then ascii_of_nat (n - 32) else c.

Definition toUpperCase (s : string) : string :=
  string_of_list_ascii (map upperAscii (list_ascii_of_string s)).

Definition capitalize (s : string) : string :=
  match s with
  | EmptyString => EmptyString
  | String c rest => String (upperAscii c) rest
  end.

(** [Math.ceil(a / b)] on integers. JavaScript divides in floating point;
    for integers below 2^53 and [b > 0] the rounded quotient has the same
    ceiling as the exact one, which is what is computed here. *)
Definition ceilDiv (a b : Z) : Z := - ((- a) / b).

(** ** The NestJS + TypeORM template *)

Module Nest.

(** *** Exceptions (common/filters, @nestjs/common) *)

(** [HttpException.getResponse()] is a string, an object, [null] (an
    object to [typeof], but without properties to read), or anything else,
    which is neither to [typeof]. *)
Inductive ExceptionResponse : Type :=
| RString (s : string)
| RObject (fields : list (string * Js.value))
| RNull
| ROther.

Inductive Exception : Type :=
| HttpException (status : Z) (response : ExceptionResponse)
| QueryFailedError (detail : option string) (message : string)
| Error (message : string) (stack : option string)
| Thrown (v : Js.value).

(** [new XException(message)]: Nest builds
    [{ message, error: description, statusCode }]. *)
Definition httpError (status : Z) (description message : string) : Exception :=
  HttpException status
    (RObject [("message", Js.Str message);
              ("error", Js.Str description);
              ("statusCode", Js.Num status)]).

Definition BadRequestException := httpError 400 "Bad Request".
Definition UnauthorizedException := httpError 401 "Unauthorized".
Definition ForbiddenException := httpError 403 "Forbidden".
Definition NotFoundException := httpError 404 "Not Found".
Definition ConflictException := httpError 409 "Conflict".

Inductive Result (A : Type) : Type :=
| Ok (a : A)
| Throw (e : Exception).
Arguments Ok {A} a.
Arguments Throw {A} e.

(** *** The entity (users/entities/user.entity.ts, common/entities/base.entity.ts) *)

Inductive UserRole : Type := ADMIN | USER | MANAGER.

Definition roleValue (r : UserRole) : string :=
  match r with
  | ADMIN => "admin"
  | USER => "user"
  | MANAGER => "manager"
  end.

Definition UserRole_values : list string :=
  [roleValue ADMIN; roleValue USER; roleValue MANAGER].

(** The columns of the [users] table; [role] holds the enum's string
    value. The record serves for a stored row and for an entity object in
    memory, which differ in what they hold for [password]. *)
Record UserOf (Password : Type) : Type := mkUser {
  id : string;
  createdAt : Z;
  updatedAt : Z;
  deletedAt : option Z;
  version : Z;
  firstName : string;
  lastName : string;
  email : string;
  password : Password;
  role : string;
  isActive : bool;
  lastLoginAt : option Z
}.
Arguments mkUser {Password}.
Arguments id {Password} u.
Arguments createdAt {Password} u.
Arguments updatedAt {Password} u.
Arguments deletedAt {Password} u.
Arguments version {Password} u.
Arguments firstName {Password} u.
Arguments lastName {Password} u.
Arguments email {Password} u.
Arguments password {Password} u.
Arguments role {Password} u.
Arguments isActive {Password} u.
Arguments lastLoginAt {Password} u.

(** A stored row, and an entity whose query selected every column: the
    [password] column is not nullable. *)
Abbreviation User := (UserOf string).

(** An entity as a finder hands it out. The column is declared
    [select: false]: the object has a [password] only where the query
    added it or the code assigned one. *)
Abbreviation Entity := (UserOf (option string)).

(** The entity of a row under the default selection. *)
Definition loaded (row : User) : Entity :=
  mkUser (id row) (createdAt row) (updatedAt row) (deletedAt row) (version row)
         (firstName row) (lastName row) (email row) None (role row)
         (isActive row) (lastLoginAt row).

Definition Table : Type := list User.

(** What the database and the runtime supply for one request: the
    database's clock when the request's statement runs ([now]) and, where a
    second statement follows, when that one runs ([later]); the runtime's
    clock where the service reads it with [new Date()] ([clock]); the UUID
    the insert would generate; and the clock of the JWT signer. *)
Record Env : Type := mkEnv {
  now : Z; later : Z; clock : Z; uuid : string; issuedAt : Z
}.

(** *** TypeORM's repository over the table

Reads skip rows whose [@DeleteDateColumn] is set. Writes are checked
against the table's constraints, [PK_users_id] and [UQ_users_email],
over all rows. Every UPDATE statement the ORM issues refreshes the
[@UpdateDateColumn] and increments the [@VersionColumn]. *)

Definition live {Password} (u : UserOf Password) : bool :=
  match deletedAt u with None => true | Some _ => false end.

Definition findOneBy (p : User -> bool) (t : Table) : option User :=
  find (fun u => live u && p u)%bool t.

Definition findOneByEmail (e : string) : Table -> option User :=
  findOneBy (fun u => String.eqb (email u) e).

Definition findOneById (i : string) : Table -> option User :=
  findOneBy (fun u => String.eqb (id u) i).

Definition constraintError : Exception :=
  QueryFailedError None "duplicate key value violates unique constraint".

(** The [id] column has type [uuid]: a text that is no uuid cannot be
    compared with it. *)
Definition invalidUuid (text : string) : Exception :=
  QueryFailedError None ("invalid input syntax for type uuid: '" ++ text ++ "'").

(** [LIMIT] and [OFFSET] are [bigint]s that must not be negative. *)
Definition BIGINT_MAX : Z := 9223372036854775807.

Definition rangeError : Exception :=
  QueryFailedError None "LIMIT or OFFSET is negative or out of range for bigint".

(** INSERT *)
Definition insertRow (u : User) (t : Table) : Result User * Table :=
  if existsb (fun v => String.eqb (id v) (id u) || String.eqb (email v) (email u))%bool t
  then (Throw constraintError, t)
  else (Ok u, (t ++ [u])%list).

(** The entity after its UPDATE: the ORM merges the refreshed
    [updatedAt] and [version] into it. *)
Definition touch (at_ : Z) (u : Entity) : Entity :=
  mkUser (id u) (createdAt u) at_ (deletedAt u) (version u + 1)
         (firstName u) (lastName u) (email u) (password u) (role u)
         (isActive u) (lastLoginAt u).

(** The row after the UPDATE of an entity: the entity's columns, and its
    [password] where it has one; an entity without one leaves the stored
    value alone. *)
Definition written (at_ : Z) (u : Entity) (row : User) : User :=
  mkUser (id u) (createdAt u) at_ (deletedAt u) (version u + 1)
         (firstName u) (lastName u) (email u)
         (match password u with Some p => p | None => password row end)
         (role u) (isActive u) (lastLoginAt u).

Definition optZ_eqb (a b : option Z) : bool :=
  match a, b with
  | Some x, Some y => x =? y
  | None, None => true
  | _, _ => false
  end.

Definition optString_eqb (a b : option string) : bool :=
  match a, b with
  | Some x, Some y => String.eqb x y
  | None, None => true
  | _, _ => false
  end.

Definition Entity_eqb (u v : Entity) : bool :=
  String.eqb (id u) (id v) && (createdAt u =? createdAt v)
  && (updatedAt u =? updatedAt v) && optZ_eqb (deletedAt u) (deletedAt v)
  && (version u =? version v)
  && String.eqb (firstName u) (firstName v) && String.eqb (lastName u) (lastName v)
  && String.eqb (email u) (email v) && optString_eqb (password u) (password v)
  && String.eqb (role u) (role v) && Bool.eqb (isActive u) (isActive v)
  && optZ_eqb (lastLoginAt u) (lastLoginAt v).

(** UPDATE ... WHERE id, for an entity that was loaded *)
Definition updateRow (at_ : Z) (u : Entity) (t : Table) : Result Entity * Table :=
  if existsb (fun v => negb (String.eqb (id v) (id u)) && String.eqb (email v) (email u))%bool t
  then (Throw constraintError, t)
  else (Ok (touch at_ u),
        map (fun v => if String.eqb (id v) (id u) then written at_ u v else v) t).

(** [save(entity)] for an entity that was loaded as [asLoaded]: no
    statement is issued when no property changed. *)
Definition save (at_ : Z) (asLoaded entity : Entity) (t : Table)
  : Result Entity * Table :=
  if Entity_eqb asLoaded entity then (Ok entity, t) else updateRow at_ entity t.

Definition markDeleted (at_ : Z) (u : User) : User :=
  mkUser (id u) (createdAt u) at_ (Some at_) (version u + 1)
         (firstName u) (lastName u) (email u) (password u) (role u)
         (isActive u) (lastLoginAt u).

(** [softRemove(entity)]:
    UPDATE users SET deletedAt = now, version = version + 1,
    updatedAt = now WHERE id = entity.id *)
Definition softRemove {Password} (at_ : Z) (u : UserOf Password) (t : Table) : Table :=
  map (fun v => if String.eqb (id v) (id u) then markDeleted at_ v else v) t.

Definition setLastLogin (at_ lastLoginAt_ : Z) (u : User) : User :=
  mkUser (id u) (createdAt u) at_ (deletedAt u) (version u + 1)
         (firstName u) (lastName u) (email u) (password u) (role u)
         (isActive u) (Some lastLoginAt_).

(** [update(id, { lastLoginAt })]:
    UPDATE users SET lastLoginAt = $2, version = version + 1,
    updatedAt = now WHERE id = $1 *)
Definition updateLastLoginAt (at_ lastLoginAt_ : Z) (i : string) (t : Table) : Table :=
  map (fun v => if String.eqb (id v) i then setLastLogin at_ lastLoginAt_ v else v) t.

(** *** The request monad: the table threaded through, exceptions short-circuit *)

Definition M (A : Type) : Type := Table -> Result A * Table.

Definition ret {A} (a : A) : M A := fun t => (Ok a, t).
Definition throw {A} (e : Exception) : M A := fun t => (Throw e, t).
Definition bind {A B} (m : M A) (k : A -> M B) : M B :=
  fun t => match m t with
           | (Ok a, t') => k a t'
           | (Throw e, t') => (Throw e, t')
           end.
Definition query {A} (q : Table -> A) : M A := fun t => (Ok (q t), t).
Definition exec (w : Table -> Table) : M unit := fun t => (Ok tt, w t).

Declare Scope nest_scope.
Delimit Scope nest_scope with nest.
Notation "x <- m ;; k" := (bind m (fun x => k))
  (at level 61, m at next level, right associativity) : nest_scope.
Notation "m ;; k" := (bind m (fun _ => k))
  (at level 61, right associativity) : nest_scope.
Local Open Scope nest_scope.

(** *** bcrypt and the JWT signer, as the services receive them *)

Class Bcrypt : Type := {
  hash : string -> string;            (* bcrypt.hash(password, 10) *)
  compare : string -> string -> bool  (* bcrypt.compare(plain, hashed) *)
}.

Record JwtPayload : Type := mkPayload {
  sub : string;
  payloadEmail : string;
  payloadRole : string
}.

(** [jwtService.sign(payload)] stamps the token with the time of signing
    ([iat], and [exp] after it): the signature depends on the payload and
    on that time. *)
Class JwtService : Type := { sign : JwtPayload -> Z -> string }.

(** PostgreSQL behind the query builder: [ILIKE]; [ORDER BY], which fails
    for a sort expression that names no column or an order that is neither
    [ASC] nor [DESC]; and the reading of a text as a [uuid], which gives
    the uuid in the form the database prints it, or nothing for a text that
    is no uuid. Stored ids are in the printed form. *)
Class Postgres : Type := {
  ilike : string -> string -> bool;   (* column ILIKE pattern *)
  orderBy : string -> string -> list User -> Result (list User);
  uuid_in : string -> option string
}.

(** *** DTOs (users/dto, auth/dto) *)

Record CreateUserDto : Type := mkCreate {
  c_firstName : string;
  c_lastName : string;
  c_email : string;
  c_password : string;
  c_role : option string
}.

(** [@IsEnum(UserRole) @IsOptional() role] *)
Definition IsEnum_UserRole (r : string) : bool :=
  existsb (String.eqb r) UserRole_values.

Definition roleValid (r : option string) : bool :=
  match r with None => true | Some x => IsEnum_UserRole x end.

Record UpdateUserDto : Type := mkUpdate {
  u_firstName : option string;
  u_lastName : option string;
  u_email : option string;
  u_password : option string;
  u_role : option string;
  u_isActive : option bool
}.

Record RegisterDto : Type := mkRegister {
  r_firstName : string;
  r_lastName : string;
  r_email : string;
  r_password : string
}.

Record LoginDto : Type := mkLogin { l_email : string; l_password : string }.

(** [sortBy] and [sortOrder] are validated as strings only. *)
Record QueryUserDto : Type := mkQuery {
  q_page : option Z;
  q_limit : option Z;
  q_sortBy : option string;
  q_sortOrder : option string;
  q_role : option string;
  q_search : option string
}.

Record PaginationMeta : Type := mkMeta {
  page : Z;
  limit : Z;
  total : Z;
  totalPages : Z;
  hasNextPage : bool;
  hasPreviousPage : bool
}.

(** *** UsersService (users/users.service.ts) *)

Section UsersService.
Context {bcrypt : Bcrypt} {pg : Postgres}.

Definition orElse {A} (o : option A) (d : A) : A :=
  match o with Some a => a | None => d end.

(** [usersRepository.create({ ...dto, password })] then the INSERT,
    where the column defaults fill what the DTO leaves out. *)
Definition newUser (env : Env) (dto : CreateUserDto) (hashed : string) : User :=
  mkUser (uuid env) (now env) (now env) None 1
         (c_firstName dto) (c_lastName dto) (c_email dto) hashed
         (orElse (c_role dto) (roleValue USER)) true None.

Definition create (env : Env) (dto : CreateUserDto) : M User :=
  existingUser <- query (findOneByEmail (c_email dto)) ;;
  match existingUser with
  | Some _ => throw (ConflictException "Email already exists")
  | None =>
      let hashedPassword := hash (c_password dto) in
      insertRow (newUser env dto hashedPassword)
  end.

(** [usersRepository.findOne({ where: { id } })]: the text is read as a
    uuid first; the entity comes without [password]. *)
Definition repositoryFindOneById (i : string) : M (option Entity) :=
  fun t => match uuid_in i with
           | None => (Throw (invalidUuid i), t)
           | Some key => (Ok (option_map loaded (findOneById key t)), t)
           end.

Definition findOne (i : string) : M Entity :=
  user <- repositoryFindOneById i ;;
  match user with
  | None => throw (NotFoundException ("User with ID " ++ i ++ " not found"))
  | Some u => ret u
  end.

(** The query adds [user.password] to the selection: the entity holds
    every column of the row. *)
Definition findByEmail (e : string) : M (option User) :=
  query (findOneByEmail e).

(** [Object.assign(user, updateUserDto)] *)
Definition assign (u : Entity) (dto : UpdateUserDto) : Entity :=
  mkUser (id u) (createdAt u) (updatedAt u) (deletedAt u) (version u)
         (orElse (u_firstName dto) (firstName u))
         (orElse (u_lastName dto) (lastName u))
         (orElse (u_email dto) (email u))
         (match u_password dto with Some p => Some p | None => password u end)
         (orElse (u_role dto) (role u))
         (orElse (u_isActive dto) (isActive u))
         (lastLoginAt u).

Definition hashPassword (dto : UpdateUserDto) : UpdateUserDto :=
  if Js.truthyStr (u_password dto)
  then mkUpdate (u_firstName dto) (u_lastName dto) (u_email dto)
                (option_map hash (u_password dto)) (u_role dto) (u_isActive dto)
  else dto.

Definition emailChanges (dto : UpdateUserDto) (u : Entity) : bool :=
  match u_email dto with
  | Some e => negb (String.eqb e "") && negb (String.eqb e (email u))
  | None => false
  end.

Definition update (env : Env) (i : string) (dto : UpdateUserDto) : M Entity :=
  user <- findOne i ;;
  (if emailChanges dto user
   then existingUser <- query (findOneByEmail (orElse (u_email dto) "")) ;;
        match existingUser with
        | Some _ => throw (ConflictException "Email already exists")
        | None => ret tt
        end
   else ret tt) ;;
  save (now env) user (assign user (hashPassword dto)).

Definition remove (env : Env) (i : string) : M unit :=
  user <- findOne i ;;
  exec (softRemove (now env) user).

(** [lastLoginAt] is [new Date()], the runtime's clock; [at_] is the
    database's clock when the statement runs. The services call it with the
    id of an entity they have just inserted or loaded, a uuid as the
    database prints it. *)
Definition updateLastLogin (at_ : Z) (env : Env) (i : string) : M unit :=
  exec (updateLastLoginAt at_ (clock env) i).

(** The list query. *)
Definition matches (r s : option string) (u : User) : bool :=
  live u
  && (if Js.truthyStr r then String.eqb (role u) (orElse r "") else true)
  && (if Js.truthyStr s
      then let pat := "%" ++ orElse s "" ++ "%" in
           ilike (firstName u) pat || ilike (lastName u) pat || ilike (email u) pat
      else true).

(** [(page - 1) * limit], in doubles. *)
Definition skipOf (page limit : Z) : Z := Js.mul (Js.sub page 1) limit.

(** The database refuses a [LIMIT] or [OFFSET] that is negative or beyond
    [bigint]. *)
Definition refused (limit skip : Z) : bool :=
  (limit <? 0) || (skip <? 0) || (BIGINT_MAX <? limit) || (BIGINT_MAX <? skip).

(** The entities come from [getManyAndCount] under the default selection,
    so without [password]. *)
Definition findAll (dto : QueryUserDto) : M (list Entity * PaginationMeta) :=
  let page := orElse (q_page dto) 1 in
  let limit := orElse (q_limit dto) 10 in
  let sortBy := orElse (q_sortBy dto) "createdAt" in
  let sortOrder := orElse (q_sortOrder dto) "DESC" in
  let skip := skipOf page limit in
  fun t =>
    match orderBy sortBy sortOrder (filter (matches (q_role dto) (q_search dto)) t) with
    | Throw e => (Throw e, t)
    | Ok selected =>
        if refused limit skip then (Throw rangeError, t)
        else
          let data := map loaded (firstn (Z.to_nat limit) (skipn (Z.to_nat skip) selected)) in
          let total := Z.of_nat (List.length selected) in
          let totalPages := ceilDiv total limit in
          (Ok (data,
               mkMeta page limit total totalPages (page <? totalPages) (1 <? page)),
           t)
    end.

End UsersService.

(** *** UserResponseDto (users/dto/user-response.dto.ts)

[plainToInstance(UserResponseDto, user, { excludeExtraneousValues: true })]
keeps the properties marked [@Expose()], in the order they are declared. *)

(** The [password] property of an entity object, where it has one. *)
Class PasswordProperty (Password : Type) : Type :=
  passwordEntry : Password -> list (string * Js.value).

#[global] Instance PasswordProperty_selected : PasswordProperty string :=
  fun p => [("password", Js.Str p)].

#[global] Instance PasswordProperty_optional : PasswordProperty (option string) :=
  fun p => match p with
           | Some hashed => [("password", Js.Str hashed)]
           | None => []
           end.

(** The entity's own properties; [password], listed last here, is looked
    up by name like the others. *)
Definition entityPlain {Password} {pp : PasswordProperty Password}
           (u : UserOf Password) : list (string * Js.value) :=
  ([("id", Js.Str (id u));
    ("createdAt", Js.Date (createdAt u));
    ("updatedAt", Js.Date (updatedAt u));
    ("deletedAt", Js.ofOptDate (deletedAt u));
    ("version", Js.Num (version u));
    ("firstName", Js.Str (firstName u));
    ("lastName", Js.Str (lastName u));
    ("email", Js.Str (email u));
    ("role", Js.Str (role u));
    ("isActive", Js.Bool (isActive u));
    ("lastLoginAt", Js.ofOptDate (lastLoginAt u))]
   ++ passwordEntry (password u))%list.

Definition exposed : list string :=
  ["id"; "firstName"; "lastName"; "email"; "role"; "isActive";
   "lastLoginAt"; "createdAt"; "updatedAt"].

Definition plainToInstance (expose : list string) (plain : list (string * Js.value))
  : Js.value :=
  Js.Obj (map (fun k => (k, Js.get (Js.Obj plain) k)) expose).

Definition UserResponseDto {Password} {pp : PasswordProperty Password}
           (u : UserOf Password) : Js.value :=
  plainToInstance exposed (entityPlain u).

(** *** AuthService (auth/auth.service.ts) *)

Record AuthResponseDto : Type := mkAuth {
  accessToken : string;
  tokenType : string;
  expiresIn : string;
  user : Js.value
}.

Section AuthService.
Context {bcrypt : Bcrypt} {jwt : JwtService}.
(** [configService.get('jwt.expirationTime')] *)
Variable expirationTime : option string.

Definition generateAuthResponse (env : Env) (u : User) : AuthResponseDto :=
  let payload := mkPayload (id u) (email u) (role u) in
  mkAuth (sign payload (issuedAt env))
         "Bearer"
         (if Js.truthyStr expirationTime then orElse expirationTime "" else "1d")
         (UserResponseDto u).

Definition register (env : Env) (dto : RegisterDto) : M AuthResponseDto :=
  user <- create env (mkCreate (r_firstName dto) (r_lastName dto)
                               (r_email dto) (r_password dto) None) ;;
  updateLastLogin (later env) env (id user) ;;
  ret (generateAuthResponse env user).

Definition login (env : Env) (dto : LoginDto) : M AuthResponseDto :=
  user <- findByEmail (l_email dto) ;;
  match user with
  | None => throw (UnauthorizedException "Invalid credentials")
  | Some u =>
      if negb (isActive u)
      then throw (UnauthorizedException "Account is deactivated")
      else if negb (compare (l_password dto) (password u))
      then throw (UnauthorizedException "Invalid credentials")
      else updateLastLogin (now env) env (id u) ;;
           ret (generateAuthResponse env u)
  end.

End AuthService.

(** *** RolesGuard (common/guards/roles.guard.ts) *)

Definition join (sep : string) (l : list string) : string :=
  match l with
  | [] => ""
  | x :: rest => fold_left (fun acc y => acc ++ sep ++ y) rest x
  end.

(** [requiredRoles] is what the reflector finds under [ROLES_KEY] ([None]
    where no [@Roles] decorates the handler or its class), [user] is
    [request.user], the entity [JwtStrategy.validate] returned. *)
Definition canActivate (requiredRoles : option (list string)) (user : option Entity)
  : Result bool :=
  match requiredRoles with
  | None => Ok true
  | Some roles =>
      if (List.length roles =? 0)%nat then Ok true
      else match user with
           | None => Throw (ForbiddenException "User not authenticated")
           | Some u =>
               let hasRole := existsb (fun r => String.eqb (role u) r) roles in
               if negb hasRole
               then Throw (ForbiddenException
                             ("Access denied. Required roles: " ++ join ", " roles))
               else Ok true
           end
  end.

(** Nest runs the handler only after the guard returned [true]; a guard
    that returns [false] is answered with [ForbiddenException]. *)
Definition guardedBy {A} (requiredRoles : option (list string)) (user : option Entity)
           (handler : M A) : M A :=
  match canActivate requiredRoles user with
  | Ok true => handler
  | Ok false => throw (ForbiddenException "Forbidden resource")
  | Throw e => throw e
  end.

(** *** HttpExceptionFilter (common/filters/http-exception.filter.ts) *)

Definition getUserFriendlyMessage (status : Z) : string :=
  if (400 <=? status) && (status <? 500)
  then (if status =? 400 then "The request data is invalid"
        else if status =? 401 then "You are not authenticated. Please log in to continue"
        else if status =? 403 then "You don't have permission to access this resource"
        else if status =? 404 then "The requested resource was not found"
        else if status =? 409 then "This resource already exists"
        else if status =? 422 then "The provided data could not be processed"
        else if status =? 429 then "Too many requests. Please try again later"
        else "Invalid request")
  else "Something went wrong. Please try again later".

(** The [TypeError] of reading a property of [null]; its stack is not
    recorded. *)
Definition nullRead (property : string) : Exception :=
  Error ("Cannot read properties of null (reading '" ++ property ++ "')") None.

(** The function mapped over the array: [typeof null] is ['object'] too,
    and reading [null.constraints] throws. *)
Definition formatValidationError (err : Js.value) : Result Js.value :=
  match err with
  | Js.Null => Throw (nullRead "constraints")
  | Js.Obj _ =>
      Ok (if Js.truthy (Js.get err "constraints")
          then Js.Obj [("field", Js.get err "property");
                       ("errors", Js.Arr (Js.values (Js.get err "constraints")))]
          else err)
  | _ => Ok err
  end.

Fixpoint formatValidationErrors (errs : list Js.value) : Result (list Js.value) :=
  match errs with
  | [] => Ok []
  | err :: rest =>
      match formatValidationError err with
      | Throw e => Throw e
      | Ok formatted =>
          match formatValidationErrors rest with
          | Throw e => Throw e
          | Ok others => Ok (formatted :: others)
          end
      end
  end.

Definition INTERNAL_SERVER_ERROR : Z := 500.

(** The local variables of [catch] once the exception has been classified:
    [status], [message] and [errors] ([undefined] where there are none);
    or what the classification itself throws. *)
Definition classify (isDebugMode : bool) (exception : Exception)
  : Result (Z * Js.value * Js.value) :=
  let default := Js.Str "Something went wrong. Please try again later" in
  match exception with
  | HttpException status (RString s) => Ok (status, Js.Str s, Js.Undefined)
  | HttpException status (RObject fields) =>
      let responseObj := Js.Obj fields in
      match Js.get responseObj "message" with
      | Js.Arr msgs =>
          match formatValidationErrors msgs with
          | Throw e => Throw e
          | Ok formatted =>
              Ok (status, Js.Str (getUserFriendlyMessage status), Js.Arr formatted)
          end
      | m =>
          Ok (status,
              (if Js.truthy m then m else Js.Str (getUserFriendlyMessage status)),
              Js.get responseObj "errors")
      end
  | HttpException status RNull => Throw (nullRead "message")
  | HttpException status ROther => Ok (status, default, Js.Undefined)
  | QueryFailedError detail message =>
      let detailedError := if Js.truthyStr detail then orElse detail "" else message in
      Ok (INTERNAL_SERVER_ERROR,
          Js.Str (getUserFriendlyMessage INTERNAL_SERVER_ERROR),
          if isDebugMode then Js.Arr [Js.Str detailedError] else Js.Undefined)
  | Error message stack =>
      Ok (INTERNAL_SERVER_ERROR,
          Js.Str (getUserFriendlyMessage INTERNAL_SERVER_ERROR),
          if isDebugMode && Js.truthyStr stack
          then Js.Arr [Js.Str (orElse stack "")] else Js.Undefined)
  | Thrown _ => Ok (INTERNAL_SERVER_ERROR, default, Js.Undefined)
  end.

(** A response: the status and the body that is sent, if any. *)
Record HttpResponse : Type := mkResponse { statusCode : Z; body : option Js.value }.

(** The [RangeError] with which a status outside 100..999 is refused,
    worded as Node words it. *)
Definition invalidStatusCode (status : Z) : Exception :=
  Error ("Invalid status code: " ++ NilZero.string_of_int (Z.to_int status)) None.

(** [response.status(status).json(value)] *)
Definition json (status : Z) (value : Js.value) : Result HttpResponse :=
  if Js.validStatus status
  then Ok (mkResponse status (if Js.bodyless status then None else Some value))
  else Throw (invalidStatusCode status).

(** [catch(exception, host)]: the status and the JSON body it sends, or
    what the filter throws instead of sending. *)
Definition catch (isDebugMode : bool) (exception : Exception) : Result HttpResponse :=
  match classify isDebugMode exception with
  | Throw e => Throw e
  | Ok (status, message, errors) =>
      let hide := (500 <=? status) && negb isDebugMode in
      let message := if hide then Js.Str (getUserFriendlyMessage status) else message in
      let errors := if hide then Js.Undefined else errors in
      json status
        (Js.Obj ([("success", Js.Bool false); ("message", message)]
                 ++ (if Js.truthy errors then [("errors", errors)] else []))%list)
  end.

(** *** ResponseTransformInterceptor (common/interceptors) *)

Record Request : Type := mkRequest { method : string; path : string }.

Section Interceptor.
(** The last path segment with UUIDs and digits removed
    ([split], [filter(Boolean)] and the two [replace] calls). *)
Variable cleanResource : string -> string.

Definition generateSuccessMessage (method path : string) : string :=
  let m := toUpperCase method in
  if String.eqb m "GET" then capitalize (cleanResource path) ++ " retrieved successfully"
  else if String.eqb m "POST" then capitalize (cleanResource path) ++ " created successfully"
  else if String.eqb m "PUT" || String.eqb m "PATCH"
  then capitalize (cleanResource path) ++ " updated successfully"
  else if String.eqb m "DELETE" then capitalize (cleanResource path) ++ " deleted successfully"
  else "Operation completed successfully".

(** The function mapped over the handler's result. *)
Definition intercept (request : Request) (data : Js.value) : Js.value :=
  if Js.truthy data && Js.hasOwnProperty data "success" && Js.hasOwnProperty data "message"
  then data
  else
    let defaultMessage := generateSuccessMessage (method request) (path request) in
    Js.Obj [("success", Js.Bool true);
            ("message", if Js.truthy (Js.get data "message")
                        then Js.get data "message" else Js.Str defaultMessage);
            ("data", if Js.truthy (Js.get data "message")
                     then Js.get data "data" else data)].

(** What the client gets once the handler has returned [data]: the
    interceptor's object, sent with the status of the route. *)
Definition reply (httpCode : Z) (request : Request) (data : Js.value)
  : Result HttpResponse :=
  json httpCode (intercept request data).

End Interceptor.

(** *** Controllers (users/users.controller.ts, auth/auth.controller.ts):
    what each handler returns to the interceptor *)

Definition PaginationMeta_json (p : PaginationMeta) : Js.value :=
  Js.Obj [("page", Js.Num (page p)); ("limit", Js.Num (limit p));
          ("total", Js.Num (total p)); ("totalPages", Js.Num (totalPages p));
          ("hasNextPage", Js.Bool (hasNextPage p));
          ("hasPreviousPage", Js.Bool (hasPreviousPage p))].

Definition AuthResponseDto_json (a : AuthResponseDto) : Js.value :=
  Js.Obj [("accessToken", Js.Str (accessToken a));
          ("tokenType", Js.Str (tokenType a));
          ("expiresIn", Js.Str (expiresIn a));
          ("user", user a)].

Module UsersController.
Section Handlers.
Context {bcrypt : Bcrypt} {pg : Postgres}.

Definition create (env : Env) (dto : CreateUserDto) : M Js.value :=
  user <- Nest.create env dto ;; ret (UserResponseDto user).

Definition findAll (dto : QueryUserDto) : M Js.value :=
  r <- Nest.findAll dto ;;
  let '(data, pagination) := r in
  ret (Js.Obj [("data", Js.Arr (map UserResponseDto data));
               ("pagination", PaginationMeta_json pagination)]).

Definition getProfile (user : Entity) : Js.value := UserResponseDto user.

Definition findOne (i : string) : M Js.value :=
  user <- Nest.findOne i ;; ret (UserResponseDto user).

Definition update (env : Env) (i : string) (dto : UpdateUserDto) : M Js.value :=
  user <- Nest.update env i dto ;; ret (UserResponseDto user).

Definition remove (env : Env) (i : string) : M Js.value :=
  Nest.remove env i ;; ret Js.Undefined.
End Handlers.
End UsersController.

Module AuthController.
Section Handlers.
Context {bcrypt : Bcrypt} {jwt : JwtService}.
Variable expirationTime : option string.

Definition register (env : Env) (dto : RegisterDto) : M Js.value :=
  a <- Nest.register expirationTime env dto ;; ret (AuthResponseDto_json a).

Definition login (env : Env) (dto : LoginDto) : M Js.value :=
  a <- Nest.login expirationTime env dto ;; ret (AuthResponseDto_json a).
End Handlers.

(** [@Post('register')], and [@Post('login') @HttpCode(HttpStatus.OK)] *)
Inductive AuthHandler : Type := HRegister | HLogin.

Definition httpCodeOf (h : AuthHandler) : Z :=
  match h with
  | HRegister => 201
  | HLogin => 200
  end.
End AuthController.

(** *** JwtStrategy (auth/strategies/jwt.strategy.ts) *)

(** [validate(payload)], called once the token's signature and expiry
    have been checked: what it returns becomes [request.user]. *)
Definition validate {pg : Postgres} (payload : JwtPayload) : M Entity :=
  user <- findOne (sub payload) ;;
  if negb (isActive user)
  then throw (UnauthorizedException "User account is deactivated")
  else ret user.

(** *** The [@Roles] metadata of the users controller
    (users/users.controller.ts): what the reflector finds for each handler,
    the controller class itself carrying none. *)

Inductive UsersHandler : Type :=
| HCreate | HFindAll | HGetProfile | HFindOne | HUpdate | HRemove.

Definition rolesOf (h : UsersHandler) : option (list string) :=
  match h with
  | HCreate => Some [roleValue ADMIN]
  | HRemove => Some [roleValue ADMIN]
  | HFindAll | HGetProfile | HFindOne | HUpdate => None
  end.

(** The status of the answer when the handler returns: 201 for [@Post],
    200 otherwise, and what [@HttpCode] says where there is one
    ([HttpStatus.NO_CONTENT] on [remove]). *)
Definition httpCodeOf (h : UsersHandler) : Z :=
  match h with
  | HCreate => 201
  | HRemove => 204
  | HFindAll | HGetProfile | HFindOne | HUpdate => 200
  end.

(** *** ValidationPipe (common/pipes/validation.pipe.ts) *)

(** What [ArgumentMetadata.metatype] can be: nothing, one of the native
    constructors the pipe lets through, or a DTO class. *)
Inductive Metatype : Type :=
| NativeString | NativeBoolean | NativeNumber | NativeArray | NativeObject
| DtoClass.

Definition toValidate (metatype : Metatype) : bool :=
  match metatype with
  | DtoClass => true
  | _ => false
  end.

(** A [ValidationError] of class-validator, as far as the pipe reads it. *)
Record PipeValidationError : Type := mkPipeError {
  pe_property : string;
  pe_constraints : Js.value;
  pe_value : Js.value
}.

Definition formatErrors (errors : list PipeValidationError) : list Js.value :=
  map (fun error =>
         Js.Obj [("field", Js.Str (pe_property error));
                 ("constraints", pe_constraints error);
                 ("value", pe_value error)]) errors.

Section ValidationPipe.
(** [plainToInstance(metatype, value)] and class-validator's [validate]
    for the DTO class at hand. *)
Variable toInstance : Js.value -> Js.value.
Variable classValidate : Js.value -> list PipeValidationError.

Definition transform (value : Js.value) (metatype : option Metatype)
  : Result Js.value :=
  match metatype with
  | None => Ok value
  | Some m =>
      if negb (toValidate m) then Ok value
      else
        let object := toInstance value in
        let errors := classValidate object in
        if (0 <? List.length errors)%nat
        then Throw (HttpException 400
                      (RObject [("message", Js.Str "Validation failed");
                                ("errors", Js.Arr (formatErrors errors))]))
        else Ok object
  end.
End ValidationPipe.

(** *** DatabaseSeeder (database/seeders/database.seeder.ts) *)

Record SeedUser : Type := mkSeed {
  s_firstName : string;
  s_lastName : string;
  s_email : string;
  s_plainPassword : string;
  s_role : UserRole;
  s_isActive : bool
}.

Definition seedData : list SeedUser :=
  [mkSeed "Admin" "User" "admin@example.com" "Admin@123" ADMIN true;
   mkSeed "Manager" "User" "manager@example.com" "Manager@123" MANAGER true;
   mkSeed "John" "Doe" "john.doe@example.com" "User@123" USER true;
   mkSeed "Jane" "Smith" "jane.smith@example.com" "User@123" USER true].

Section DatabaseSeeder.
Context {bcrypt : Bcrypt}.

Definition seedRow (env : Env) (d : SeedUser) : User :=
  mkUser (uuid env) (now env) (now env) None 1
         (s_firstName d) (s_lastName d) (s_email d) (hash (s_plainPassword d))
         (roleValue (s_role d)) (s_isActive d) None.

(** One turn of the [for] loop of [seedUsers]. *)
Definition seedOne (env : Env) (d : SeedUser) : M unit :=
  existingUser <- query (findOneByEmail (s_email d)) ;;
  match existingUser with
  | Some _ => ret tt
  | None => insertRow (seedRow env d) ;; ret tt
  end.

(** The loop, the k-th turn with what the clock and the UUID generator
    give at that turn. *)
Fixpoint seedFrom (envs : nat -> Env) (k : nat) (users : list SeedUser) : M unit :=
  match users with
  | [] => ret tt
  | d :: rest => seedOne (envs k) d ;; seedFrom envs (S k) rest
  end.

Definition seedUsers (envs : nat -> Env) : M unit := seedFrom envs 0 seedData.

Definition seed (envs : nat -> Env) : M unit := seedUsers envs.

(** [userRepository.clear()] *)
Definition clear : M unit := exec (fun _ => []).
End DatabaseSeeder.

End Nest.

(** [@Type(() => Number) @IsInt() @Min(1)] on an optional query parameter
    (users/dto/query-user.dto.ts): what arrives is absent, an integer, or a
    number that is no integer. *)
Module QueryParam.
Inductive t : Type := Absent | Int (n : Z) | NotInt.

Definition isIntMin1 (p : t) : bool :=
  match p with
  | Absent => true
  | Int n => 1 <=? n
  | NotInt => false
  end.

(** The validated [page] and [limit] of [QueryUserDto]. *)
Definition validatePaging (page limit : t) : bool :=
  isIntMin1 page && isIntMin1 limit.

Definition toOption (p : t) : option Z :=
  match p with Int n => Some n | _ => None end.
End QueryParam.

(** ** The Express + Sequelize template *)

Module Express.

(** *** Errors (common/errors) *)

Inductive ErrorClass : Type :=
| AppErrorClass
| NotFoundErrorClass
| DatabaseErrorClass
| ValidationErrorClass (errors : list Js.value).

(** What can be thrown: an [AppError] of the template, or another [Error],
    which may carry a [status] property of its own (the errors of
    [express.json()] do, as every http-errors object). *)
Inductive Exception : Type :=
| AppError (cls : ErrorClass) (message : string) (statusCode : Z) (stack : string)
| Error (name message stack : string) (status : option Z).

Definition mkAppError (message : string) (statusCode : Z) : Exception :=
  AppError AppErrorClass message statusCode "".

Definition NotFoundError (resource identifier : string) : Exception :=
  AppError NotFoundErrorClass
    (if String.eqb identifier ""
     then resource ++ " not found"
     else resource ++ " with identifier '" ++ identifier ++ "' not found")
    404 "".

Definition DatabaseError (message : string) : Exception :=
  AppError DatabaseErrorClass message 500 "".

Definition ValidationError (message : string) (errors : list Js.value) : Exception :=
  AppError (ValidationErrorClass errors) message 400 "".

Inductive Result (A : Type) : Type :=
| Ok (a : A)
| Throw (e : Exception).
Arguments Ok {A} a.
Arguments Throw {A} e.

(** *** The model (modules/user/user.model.ts, database/models/BaseModel.ts) *)

Record User : Type := mkUser {
  id : string;
  createdAt : Z;
  updatedAt : Z;
  deletedAt : option Z;
  email : string;
  password : string;
  firstName : string;
  lastName : string;
  isActive : bool;
  role : string
}.

(** [DataType.ENUM('admin', 'user')] *)
Definition role_values : list string := ["admin"; "user"].

Definition Table : Type := list User.

(** What the runtime supplies for one request: the clock when the model
    is written ([now]), the clock when [destroy()] saves what it has set
    ([later]), the clock when the response is formatted ([sentAt]), and the
    UUID an insert would generate. *)
Record Env : Type := mkEnv { now : Z; later : Z; sentAt : Z; uuid : string }.

(** [BaseModel.toJSON] then [User.toJSON] *)
Definition dataValues (u : User) : list (string * Js.value) :=
  [("id", Js.Str (id u));
   ("createdAt", Js.Date (createdAt u));
   ("updatedAt", Js.Date (updatedAt u));
   ("deletedAt", Js.ofOptDate (deletedAt u));
   ("email", Js.Str (email u));
   ("password", Js.Str (password u));
   ("firstName", Js.Str (firstName u));
   ("lastName", Js.Str (lastName u));
   ("isActive", Js.Bool (isActive u));
   ("role", Js.Str (role u))].

Definition BaseModel_toJSON (u : User) : list (string * Js.value) :=
  let values := dataValues u in
  match deletedAt u with
  | None => Js.delete "deletedAt" values
  | Some _ => values
  end.

Definition toJSON (u : User) : Js.value :=
  let values := BaseModel_toJSON u in
  Js.Obj (Js.delete "password" values).

(** *** Sequelize over the table

The model is [paranoid]: finders skip rows whose [deletedAt] is set and
[destroy()] sets it. The [email] column is [unique] and validated with
[isEmail]; the primary key is [id]. Saving an instance refreshes
[updatedAt]. *)

Class Database : Type := {
  isEmail : string -> bool;
  iLike : string -> string -> bool;
  orderByCreatedAtDesc : list User -> list User;
  (* the uuid a text denotes, in the form the database prints it *)
  uuid_in : string -> option string
}.

Definition live (u : User) : bool :=
  match deletedAt u with None => true | Some _ => false end.

Definition findByPk (i : string) (t : Table) : option User :=
  find (fun u => live u && String.eqb (id u) i)%bool t.

Definition findOneByEmail (e : string) (t : Table) : option User :=
  find (fun u => live u && String.eqb (email u) e)%bool t.

Definition uniqueError : Exception :=
  Error "SequelizeUniqueConstraintError" "Validation error" "" None.

Definition validationError : Exception :=
  Error "SequelizeValidationError"
        "Validation error: Validation isEmail on email failed" "" None.

(** The [id] column has type [uuid]: a text that is no uuid cannot be
    compared with it. *)
Definition invalidUuid (text : string) : Exception :=
  Error "SequelizeDatabaseError"
        ("invalid input syntax for type uuid: '" ++ text ++ "'") "" None.

(** [LIMIT] and [OFFSET] are [bigint]s that must not be negative. *)
Definition BIGINT_MAX : Z := 9223372036854775807.

Definition rangeError : Exception :=
  Error "SequelizeDatabaseError"
        "LIMIT or OFFSET is negative or out of range for bigint" "" None.

Definition M (A : Type) : Type := Table -> Result A * Table.

Definition ret {A} (a : A) : M A := fun t => (Ok a, t).
Definition throw {A} (e : Exception) : M A := fun t => (Throw e, t).
Definition bind {A B} (m : M A) (k : A -> M B) : M B :=
  fun t => match m t with
           | (Ok a, t') => k a t'
           | (Throw e, t') => (Throw e, t')
           end.
Definition query {A} (q : Table -> A) : M A := fun t => (Ok (q t), t).
(** [try { m } catch (error) { h(error) }] *)
Definition tryCatch {A} (m : M A) (h : Exception -> M A) : M A :=
  fun t => match m t with
           | (Ok a, t') => (Ok a, t')
           | (Throw e, t') => h e t'
           end.

Declare Scope express_scope.
Delimit Scope express_scope with express.
Notation "x <- m ;; k" := (bind m (fun x => k))
  (at level 61, m at next level, right associativity) : express_scope.
Notation "m ;; k" := (bind m (fun _ => k))
  (at level 61, right associativity) : express_scope.
Local Open Scope express_scope.

Record CreateUserDto : Type := mkCreate {
  c_email : string;
  c_password : string;
  c_firstName : string;
  c_lastName : string
}.

Record UpdateUserDto : Type := mkUpdate {
  u_email : option string;
  u_password : option string;
  u_firstName : option string;
  u_lastName : option string;
  u_isActive : option bool
}.

Definition orElse {A} (o : option A) (d : A) : A :=
  match o with Some a => a | None => d end.

Definition optZ_eqb (a b : option Z) : bool :=
  match a, b with
  | Some x, Some y => x =? y
  | None, None => true
  | _, _ => false
  end.

Definition User_eqb (u v : User) : bool :=
  String.eqb (id u) (id v) && (createdAt u =? createdAt v)
  && (updatedAt u =? updatedAt v) && optZ_eqb (deletedAt u) (deletedAt v)
  && String.eqb (email u) (email v) && String.eqb (password u) (password v)
  && String.eqb (firstName u) (firstName v) && String.eqb (lastName u) (lastName v)
  && Bool.eqb (isActive u) (isActive v) && String.eqb (role u) (role v).

Section Sequelize.
Context {db : Database}.

(** [User.create({ email, password, firstName, lastName })] *)
Definition Model_create (env : Env) (e p f l : string) : M User :=
  fun t =>
    let u := mkUser (uuid env) (now env) (now env) None e p f l true "user" in
    if negb (isEmail e) then (Throw validationError, t)
    else if existsb (fun v => String.eqb (id v) (id u) || String.eqb (email v) e)%bool t
    then (Throw uniqueError, t)
    else (Ok u, (t ++ [u])%list).

Definition set (u : User) (data : UpdateUserDto) : User :=
  mkUser (id u) (createdAt u) (updatedAt u) (deletedAt u)
         (orElse (u_email data) (email u))
         (orElse (u_password data) (password u))
         (orElse (u_firstName data) (firstName u))
         (orElse (u_lastName data) (lastName u))
         (orElse (u_isActive data) (isActive u))
         (role u).

Definition saved (at_ : Z) (u : User) : User :=
  mkUser (id u) (createdAt u) at_ (deletedAt u) (email u) (password u)
         (firstName u) (lastName u) (isActive u) (role u).

(** [user.update(data)]: nothing is written when no attribute changed. *)
Definition instance_update (env : Env) (u : User) (data : UpdateUserDto) : M User :=
  fun t =>
    let u' := saved (now env) (set u data) in
    if User_eqb u (set u data) then (Ok u, t)
    else if negb (isEmail (email u')) then (Throw validationError, t)
    else if existsb (fun v => negb (String.eqb (id v) (id u))
                              && String.eqb (email v) (email u'))%bool t
    then (Throw uniqueError, t)
    else (Ok u', map (fun v => if String.eqb (id v) (id u) then u' else v) t).

Definition destroyed (deletedAt_ updatedAt_ : Z) (u : User) : User :=
  mkUser (id u) (createdAt u) updatedAt_ (Some deletedAt_) (email u) (password u)
         (firstName u) (lastName u) (isActive u) (role u).

(** [user.destroy()] on the paranoid model: it sets [deletedAt] to
    [new Date()] and saves, and the save reads the clock again for
    [updatedAt]. *)
Definition instance_destroy (env : Env) (u : User) : M unit :=
  fun t => (Ok tt,
            map (fun v => if String.eqb (id v) (id u)
                          then destroyed (now env) (later env) v else v) t).

(** [user.destroy({ force: true })] *)
Definition instance_destroy_force (u : User) : M unit :=
  fun t => (Ok tt, filter (fun v => negb (String.eqb (id v) (id u))) t).
End Sequelize.

(** *** Numbers that come out of [parseInt] *)

Inductive number : Type := Int (n : Z) | NaN.

(** [a < b]: false as soon as one side is [NaN]. *)
Definition lt (a b : number) : bool :=
  match a, b with
  | Int x, Int y => x <? y
  | _, _ => false
  end.

Definition digit (c : ascii) : option Z :=
  let n := nat_of_ascii c in
  if (Nat.leb 48 n && Nat.leb n 57)%bool then Some (Z.of_nat (n - 48)) else None.

Fixpoint digits (s : string) (acc : option Z) : option Z :=
  match s with
  | EmptyString => acc
  | String c rest =>
      match digit c with
      | Some d => digits rest (Some (10 * orElse acc 0 + d))
      | None => acc
      end
  end.

Definition isWhiteSpace (c : ascii) : bool :=
  let n := nat_of_ascii c in
  (Nat.eqb n 32 || (Nat.leb 9 n && Nat.leb n 13))%bool.

Fixpoint trimStart (s : string) : string :=
  match s with
  | String c rest => if isWhiteSpace c then trimStart rest else s
  | EmptyString => s
  end.

(** [parseInt(s, 10)]: the number is the double nearest to what the
    digits say. *)
Definition parseInt (s : string) : number :=
  match trimStart s with
  | String "-" rest =>
      match digits rest None with Some n => Int (Js.toDouble (- n)) | None => NaN end
  | String "+" rest =>
      match digits rest None with Some n => Int (Js.toDouble n) | None => NaN end
  | rest =>
      match digits rest None with Some n => Int (Js.toDouble n) | None => NaN end
  end.

(** *** UserRepository (modules/user/user.repository.ts) *)

Module UserRepository.
Section Methods.
Context {db : Database}.

Definition isUniqueConstraintError (e : Exception) : bool :=
  match e with
  | Error name _ _ _ => String.eqb name "SequelizeUniqueConstraintError"
  | AppError _ _ _ _ => false
  end.

Definition isNotFoundError (e : Exception) : bool :=
  match e with
  | AppError NotFoundErrorClass _ _ _ => true
  | _ => false
  end.

Definition create (env : Env) (data : CreateUserDto) : M User :=
  tryCatch
    (Model_create env (c_email data) (c_password data)
                  (c_firstName data) (c_lastName data))
    (fun error =>
       if isUniqueConstraintError error
       then throw (DatabaseError "Email already exists")
       else throw (DatabaseError "Failed to create user")).

(** [User.findByPk(id)]: the text is read as a uuid first. *)
Definition Model_findByPk (i : string) : M (option User) :=
  fun t => match uuid_in i with
           | None => (Throw (invalidUuid i), t)
           | Some key => (Ok (findByPk key t), t)
           end.

Definition findById (i : string) : M User :=
  user <- Model_findByPk i ;;
  match user with
  | None => throw (NotFoundError "User" i)
  | Some u => ret u
  end.

Definition findByEmail (e : string) : M (option User) :=
  query (findOneByEmail e).

(** [(page - 1) * pageSize], in doubles. *)
Definition offsetOf (page pageSize : Z) : Z := Js.mul (Js.sub page 1) pageSize.

Definition whereClause (search : option string) (u : User) : bool :=
  if Js.truthyStr search
  then let pat := "%" ++ orElse search "" ++ "%" in
       iLike (email u) pat || iLike (firstName u) pat || iLike (lastName u) pat
  else true.

(** [User.findAndCountAll({ where, limit, offset, order })]; the
    database refuses a [LIMIT] or [OFFSET] that is negative, beyond
    [bigint] or no number. *)
Definition findAndCountAll (search : option string) (limit offset : number)
  : M (list User * Z) :=
  match limit, offset with
  | Int l, Int o =>
      if (l <? 0) || (o <? 0) || (BIGINT_MAX <? l) || (BIGINT_MAX <? o)
      then throw rangeError
      else query (fun t =>
             let selected :=
               orderByCreatedAtDesc
                 (filter (fun u => live u && whereClause search u)%bool t) in
             (firstn (Z.to_nat l) (skipn (Z.to_nat o) selected),
              Z.of_nat (List.length selected)))
  | _, _ => throw (Error "SequelizeDatabaseError" "invalid input syntax" "" None)
  end.

Definition findAll (page pageSize : number) (search : option string)
  : M (list User * Z) :=
  tryCatch
    (let offset := match page, pageSize with
                   | Int p, Int ps => Int (offsetOf p ps)
                   | _, _ => NaN
                   end in
     findAndCountAll search pageSize offset)
    (fun error => throw (DatabaseError "Failed to fetch users")).

Definition update (env : Env) (i : string) (data : UpdateUserDto) : M User :=
  tryCatch
    (user <- findById i ;;
     instance_update env user data)
    (fun error =>
       if isNotFoundError error then throw error
       else if isUniqueConstraintError error
       then throw (DatabaseError "Email already exists")
       else throw (DatabaseError "Failed to update user")).

Definition delete (env : Env) (i : string) : M unit :=
  user <- findById i ;;
  instance_destroy env user.

Definition hardDelete (i : string) : M unit :=
  user <- findById i ;;
  instance_destroy_force user.
End Methods.
End UserRepository.

(** *** UserService (modules/user/user.service.ts) *)

Module UserService.
Section Methods.
Context {db : Database}.

Definition createUser (env : Env) (data : CreateUserDto) : M User :=
  existingUser <- UserRepository.findByEmail (c_email data) ;;
  match existingUser with
  | Some _ => throw (mkAppError "User with this email already exists" 409)
  | None => UserRepository.create env data
  end.

Definition getUserById (i : string) : M User := UserRepository.findById i.

Record UserPage : Type := mkPage {
  users : list User;
  total : Z;
  page : number;
  pageSize : number
}.

Definition getAllUsers (page pageSize : number) (search : option string)
  : M UserPage :=
  if lt page (Int 1)
  then throw (mkAppError "Page must be greater than 0" 400)
  else if lt pageSize (Int 1) || lt (Int 100) pageSize
  then throw (mkAppError "Page size must be between 1 and 100" 400)
  else r <- UserRepository.findAll page pageSize search ;;
       let '(users, total) := r in
       ret (mkPage users total page pageSize).

Definition updateUser (env : Env) (i : string) (data : UpdateUserDto) : M User :=
  (if Js.truthyStr (u_email data)
   then existingUser <- UserRepository.findByEmail (orElse (u_email data) "") ;;
        match existingUser with
        | Some other =>
            if negb (String.eqb (id other) i)
            then throw (mkAppError "Email already in use by another user" 409)
            else ret tt
        | None => ret tt
        end
   else ret tt) ;;
  UserRepository.update env i data.

Definition deleteUser (env : Env) (i : string) : M unit :=
  UserRepository.delete env i.
End Methods.
End UserService.

(** *** Response formatters (common/utils/response.ts) *)

(** A response: the status and the body that is sent, if any. *)
Record HttpResponse : Type := mkResponse { statusCode : Z; body : option Js.value }.

(** The [RangeError] with which a status outside 100..999 is refused,
    worded as Node words it. *)
Definition invalidStatusCode (status : Z) : Exception :=
  Error "RangeError"
        ("Invalid status code: " ++ NilZero.string_of_int (Z.to_int status)) "" None.

(** [res.status(status).json(value)] *)
Definition json (status : Z) (value : Js.value) : Result HttpResponse :=
  if Js.validStatus status
  then Ok (mkResponse status (if Js.bodyless status then None else Some value))
  else Throw (invalidStatusCode status).

(** A formatter's outcome as the outcome of the handler that returns it. *)
Definition respond (r : Result HttpResponse) : M HttpResponse := fun t => (r, t).

Definition successResponse (env : Env) (data : Js.value) (message : string)
           (statusCode : Z) : Result HttpResponse :=
  json statusCode
    (Js.Obj [("success", Js.Bool true);
             ("data", data);
             ("message", Js.Str message);
             ("timestamp", Js.Date (sentAt env))]).

Definition errorResponse (env : Env) (message : string) (statusCode : Z)
           (code : string) (details : Js.value) : Result HttpResponse :=
  json statusCode
    (Js.Obj [("success", Js.Bool false);
             ("error", Js.Obj [("message", Js.Str message);
                               ("code", Js.Str code);
                               ("details", details)]);
             ("timestamp", Js.Date (sentAt env))]).

Definition jsNumber (n : number) : Js.value :=
  match n with Int z => Js.Num z | NaN => Js.Null end.

Record PaginationMeta : Type := mkMeta {
  m_page : number;
  m_pageSize : number;
  m_totalItems : Z;
  m_totalPages : number
}.

Definition paginatedResponse (env : Env) (items : list Js.value)
           (pagination : PaginationMeta) (message : string) (statusCode : Z)
  : Result HttpResponse :=
  json statusCode
    (Js.Obj [("success", Js.Bool true);
             ("data", Js.Obj [("items", Js.Arr items);
                              ("pagination",
                               Js.Obj [("page", jsNumber (m_page pagination));
                                       ("pageSize", jsNumber (m_pageSize pagination));
                                       ("totalItems", Js.Num (m_totalItems pagination));
                                       ("totalPages", jsNumber (m_totalPages pagination))])]);
             ("message", Js.Str message);
             ("timestamp", Js.Date (sentAt env))]).

(** *** The global error handler (middleware/errorHandler.ts) *)

Definition errorHandler (env : Env) (development : bool) (err : Exception)
  : Result HttpResponse :=
  let '(statusCode, message, code, details) :=
    match err with
    | AppError (ValidationErrorClass errors) message statusCode _ =>
        (statusCode, message, "VALIDATION_ERROR", Js.Arr errors)
    | AppError _ message statusCode _ =>
        (statusCode, message, "INTERNAL_SERVER_ERROR", Js.Undefined)
    | Error _ _ _ _ =>
        (500, "Internal server error", "INTERNAL_SERVER_ERROR", Js.Undefined)
    end in
  let '(errMessage, errStack) :=
    match err with
    | AppError _ m _ s => (m, s)
    | Error _ m s _ => (m, s)
    end in
  let details :=
    if development
    then match details with
         | Js.Arr _ =>
             Js.Obj [("errors", details); ("stack", Js.Str errStack);
                     ("originalError", Js.Str errMessage)]
         | _ =>
             Js.Obj [("stack", Js.Str errStack); ("originalError", Js.Str errMessage)]
         end
    else details in
  errorResponse env message statusCode code details.

(** *** UserController (modules/user/user.controller.ts), each handler
    behind [asyncHandler] and the global error handler *)

Module UserController.
Section Handlers.
Context {db : Database}.

Definition createUser (env : Env) (dto : CreateUserDto) : M HttpResponse :=
  user <- UserService.createUser env dto ;;
  respond (successResponse env (toJSON user) "User created successfully" 201).

Record UserQueryDto : Type := mkQuery {
  q_page : option string;
  q_pageSize : option string;
  q_search : option string
}.

(** [Math.ceil(result.total / result.pageSize)]; a page size of 0 or [NaN]
    gives no finite number, which JSON writes as [null] like [NaN]. *)
Definition totalPagesOf (total : Z) (pageSize : number) : number :=
  match pageSize with
  | Int ps => if ps =? 0 then NaN else Int (ceilDiv total ps)
  | NaN => NaN
  end.

Definition getAllUsers (env : Env) (q : UserQueryDto) : M HttpResponse :=
  let pageNum :=
    parseInt (if Js.truthyStr (q_page q) then orElse (q_page q) "" else "1") in
  let pageSizeNum :=
    parseInt (if Js.truthyStr (q_pageSize q) then orElse (q_pageSize q) "" else "10") in
  result <- UserService.getAllUsers pageNum pageSizeNum (q_search q) ;;
  respond (paginatedResponse env
         (map toJSON (UserService.users result))
         (mkMeta (UserService.page result)
                 (UserService.pageSize result)
                 (UserService.total result)
                 (totalPagesOf (UserService.total result) (UserService.pageSize result)))
         "Users retrieved successfully" 200).

Definition getUserById (env : Env) (i : string) : M HttpResponse :=
  user <- UserService.getUserById i ;;
  respond (successResponse env (toJSON user) "User retrieved successfully" 200).

Definition updateUser (env : Env) (i : string) (dto : UpdateUserDto)
  : M HttpResponse :=
  user <- UserService.updateUser env i dto ;;
  respond (successResponse env (toJSON user) "User updated successfully" 200).

Definition deleteUser (env : Env) (i : string) : M HttpResponse :=
  UserService.deleteUser env i ;;
  respond (successResponse env Js.Null "User deleted successfully" 204).
End Handlers.
End UserController.

(** A route: what the handler, or the global error handler after it,
    sends (or throws instead of sending), and the table afterwards. *)
Definition serve (env : Env) (development : bool) (handler : M HttpResponse)
  : Table -> Result HttpResponse * Table :=
  fun t => match handler t with
           | (Ok r, t') => (Ok r, t')
           | (Throw e, t') => (errorHandler env development e, t')
           end.

(** [GET /health] (app.ts) *)
Definition health (env : Env) (NODE_ENV : string) : Result HttpResponse :=
  json 200
    (Js.Obj [("success", Js.Bool true);
             ("message", Js.Str "Server is running");
             ("timestamp", Js.Date (sentAt env));
             ("environment", Js.Str NODE_ENV)]).

(** *** The role middleware (middleware/jwtAuth.middleware.ts) *)

Record TokenPayload : Type := mkToken { tokenId : string; tokenRole : string }.

Class JWTService : Type := { validateUserToken : string -> option TokenPayload }.

(** What [await User.findByPk(id)] can do inside the middleware. *)
Inductive Lookup : Type :=
| Found (u : User)
| Missing
| Rejected (error : Exception).

Definition lookupIn {db : Database} (t : Table) (i : string) : Lookup :=
  match uuid_in i with
  | None => Rejected (invalidUuid i)
  | Some key => match findByPk key t with Some u => Found u | None => Missing end
  end.

(** Either [next()] was called, with [req.user] and [req.state.user] set,
    or the middleware answered itself. *)
Inductive Outcome : Type :=
| Next (reqUser : TokenPayload) (stateUser : User)
| Respond (r : HttpResponse).

Fixpoint splitOn (sep : ascii) (s : string) (cur : string) : list string :=
  match s with
  | EmptyString => [cur]
  | String c rest =>
      if Ascii.eqb c sep then cur :: splitOn sep rest ""
      else splitOn sep rest (cur ++ String c "")
  end.

(** [res.status(status).json({ success: false, message })] with one of
    the two statuses the middleware answers with, 401 and 403, both sent
    with their body. *)
Definition deny (status : Z) (message : string) : Outcome :=
  Respond (mkResponse status
             (Some (Js.Obj [("success", Js.Bool false); ("message", Js.Str message)]))).

Definition unauthorized : Outcome := deny 401 "Auth Token is missing or invalid".
Definition forbidden : Outcome :=
  deny 403 "You are not authorized to perform this action.".

Section Middleware.
Context {jwtService : JWTService}.

Definition roleRequired (role : string) (authorization : option string)
           (User_findByPk : string -> Lookup) : Outcome :=
  if negb (Js.truthyStr authorization) then unauthorized
  else
    match splitOn " " (orElse authorization "") "" with
    | [scheme; token] =>
        if negb (String.eqb scheme "Bearer") then unauthorized
        else
          match validateUserToken token with
          | None => unauthorized
          | Some tokenData =>
              match User_findByPk (tokenId tokenData) with
              | Rejected error => forbidden        (* the [catch] block *)
              | Missing => forbidden
              | Found user =>
                  if negb (String.eqb (Express.role user) role) then forbidden
                  else Next tokenData user
              end
          end
    | _ => unauthorized
    end.

(** [app.get(path, roleRequired(role), handler)] *)
Definition protectedRoute (role : string) (authorization : option string)
           (User_findByPk : string -> Lookup)
           (handler : TokenPayload -> User -> HttpResponse) : HttpResponse :=
  match roleRequired role authorization User_findByPk with
  | Next reqUser stateUser => handler reqUser stateUser
  | Respond r => r
  end.
End Middleware.

(** *** The bearer middleware (middleware/jwtAuth.middleware.ts) *)

(** Either [next()] was called with [req.user] set, or the middleware
    answered itself. *)
Inductive BearerOutcome : Type :=
| BearerNext (reqUser : TokenPayload)
| BearerRespond (r : HttpResponse).

Definition bearerUnauthorized : BearerOutcome :=
  BearerRespond
    (mkResponse 401
       (Some (Js.Obj [("success", Js.Bool false);
                      ("message", Js.Str "Auth Token is missing or invalid")]))).

Section Bearer.
Context {jwtService : JWTService}.

Definition jwtBearer (authorization : option string) : BearerOutcome :=
  if negb (Js.truthyStr authorization) then bearerUnauthorized
  else
    match splitOn " " (orElse authorization "") "" with
    | [scheme; token] =>
        if negb (String.eqb scheme "Bearer") then bearerUnauthorized
        else
          match validateUserToken token with
          | None => bearerUnauthorized
          | Some tokenData => BearerNext tokenData
          end
    | _ => bearerUnauthorized
    end.
End Bearer.

(** *** The validation middleware (middleware/validation.ts,
    common/errors/ValidationError.ts) *)

(** A [ValidationError] of class-validator, as far as
    [fromClassValidator] reads it. *)
Record ClassValidatorError : Type := mkClassError {
  cv_property : string;
  cv_constraints : option (list (string * string));
  cv_value : Js.value
}.

Definition ValidationErrorDetail (error : ClassValidatorError) : Js.value :=
  Js.Obj [("field", Js.Str (cv_property error));
          ("constraints",
           Js.Arr (match cv_constraints error with
                   | Some cs => map (fun kv => Js.Str (snd kv)) cs
                   | None => []
                   end));
          ("value", cv_value error)].

Definition fromClassValidator (errors : list ClassValidatorError) : Exception :=
  ValidationError "Validation failed" (map ValidationErrorDetail errors).

Section Validate.
(** [plainToClass(dtoClass, data)] and class-validator's [validate] for the
    DTO class the middleware was built with. *)
Variable plainToClass : Js.value -> Js.value.
Variable validateObject : Js.value -> list ClassValidatorError.

(** [validate(dtoClass, source)]: [Ok dto] stands for [req[source] = dto;
    next()], [Throw error] for [next(error)]. *)
Definition validate (dataToValidate : Js.value) : Result Js.value :=
  let dtoInstance := plainToClass dataToValidate in
  let errors := validateObject dtoInstance in
  if (0 <? List.length errors)%nat
  then Throw (fromClassValidator errors)
  else Ok dtoInstance.

(** [router.post(path, validate(Dto), asyncHandler(handler))] under the
    global error handler. *)
Definition validatedRoute (env : Env) (development : bool)
           (handler : Js.value -> M HttpResponse) (body : Js.value)
  : Table -> Result HttpResponse * Table :=
  match validate body with
  | Ok dto => serve env development (handler dto)
  | Throw error => fun t => (errorHandler env development error, t)
  end.
End Validate.

(** [notFoundHandler] (middleware/notFound.ts); [code] and [details] as
    [errorResponse] gets them. *)
Definition notFoundHandler (env : Env) (method originalUrl : string)
  : Result HttpResponse :=
  errorResponse env ("Route " ++ method ++ " " ++ originalUrl ++ " not found") 404
                "ROUTE_NOT_FOUND" Js.Undefined.

End Express.

(** ** Vocabulary of the properties *)

(** The HTTP status an exception carries itself, 500 where it carries none. *)
Definition Nest_carriedStatus (e : Nest.Exception) : Z :=
  match e with
  | Nest.HttpException status _ => status
  | _ => 500
  end.

Definition Express_carriedStatus (e : Express.Exception) : Z :=
  match e with
  | Express.AppError _ _ statusCode _ => statusCode
  | Express.Error _ _ _ (Some status) => status
  | Express.Error _ _ _ None => 500
  end.

(** The status the Express error handler reads: that of an [AppError]. *)
Definition Express_appStatus (e : Express.Exception) : Z :=
  match e with
  | Express.AppError _ _ statusCode _ => statusCode
  | Express.Error _ _ _ _ => 500
  end.





(** The status of the answer, where the filter gives one. *)
Definition Nest_answerStatus (r : Nest.Result Nest.HttpResponse) : option Z :=
  match r with
  | Nest.Ok response => Some (Nest.statusCode response)
  | Nest.Throw _ => None
  end.

Definition isNull (v : Js.value) : bool :=
  match v with Js.Null => true | _ => false end.

(** What the filter itself throws while it classifies the exception, if
    anything: the [TypeError] of reading a property of [null], where the
    exception's response is [null] or its message array holds a [null]. *)
Definition Nest_classifyThrows (e : Nest.Exception) : option Nest.Exception :=
  match e with
  | Nest.HttpException _ Nest.RNull => Some (Nest.nullRead "message")
  | Nest.HttpException _ (Nest.RObject fields) =>
      match Js.get (Js.Obj fields) "message" with
      | Js.Arr msgs =>
          if existsb isNull msgs then Some (Nest.nullRead "constraints") else None
      | _ => None
      end
  | _ => None
  end.

Definition Express_answerStatus (r : Express.Result Express.HttpResponse) : option Z :=
  match r with
  | Express.Ok response => Some (Express.statusCode response)
  | Express.Throw _ => None
  end.

(** Does the key occur anywhere in what is sent? *)
Definition bodyMentions (k : string) (b : option Js.value) : bool :=
  match b with Some v => Js.mentions k v | None => false end.

(** The names of an object's own properties, in order. *)
Definition topLevelKeys (v : Js.value) : list string :=
  match v with Js.Obj fields => Js.keys fields | _ => [] end.

(** [GET /api/users] as the interceptor sees it. *)
Definition listUsersRequest : Nest.Request := Nest.mkRequest "GET" "/api/users".

(** Every stored role is a value of the role enum. *)
Definition Nest_rolesOk (t : Nest.Table) : Prop :=
  Forall (fun u => In (Nest.role u) Nest.UserRole_values) t.

Definition Express_rolesOk (t : Express.Table) : Prop :=
  Forall (fun u => In (Express.role u) Express.role_values) t.

(** Two NestJS rows agree on every column but the soft-delete marker and
    the two columns the ORM maintains on each write. *)
Definition Nest_sameData (u v : Nest.User) : Prop :=
  Nest.id u = Nest.id v /\ Nest.createdAt u = Nest.createdAt v
  /\ Nest.firstName u = Nest.firstName v /\ Nest.lastName u = Nest.lastName v
  /\ Nest.email u = Nest.email v /\ Nest.password u = Nest.password v
  /\ Nest.role u = Nest.role v /\ Nest.isActive u = Nest.isActive v
  /\ Nest.lastLoginAt u = Nest.lastLoginAt v.

Definition Express_sameData (u v : Express.User) : Prop :=
  Express.id u = Express.id v /\ Express.createdAt u = Express.createdAt v
  /\ Express.email u = Express.email v /\ Express.password u = Express.password v
  /\ Express.firstName u = Express.firstName v /\ Express.lastName u = Express.lastName v
  /\ Express.isActive u = Express.isActive v /\ Express.role u = Express.role v.

(** The entity shows the row: every column but [password] is the row's,
    and the password, where the entity has one, is the row's too. *)
Definition Nest_shows (e : Nest.Entity) (row : Nest.User) : Prop :=
  Nest.loaded row
  = Nest.mkUser (Nest.id e) (Nest.createdAt e) (Nest.updatedAt e) (Nest.deletedAt e)
                (Nest.version e) (Nest.firstName e) (Nest.lastName e) (Nest.email e)
                None (Nest.role e) (Nest.isActive e) (Nest.lastLoginAt e)
  /\ (Nest.password e = None \/ Nest.password e = Some (Nest.password row)).

(** The payloads that carry users out of the NestJS handlers: a single
    user, a page of users, the profile, and the authentication response of
    register and login. *)
Inductive Nest_userPayload {bcrypt : Nest.Bcrypt} {jwt : Nest.JwtService}
          {pg : Nest.Postgres} (expirationTime : option string)
  : Js.value -> Prop :=
| PayloadCreate env dto t t' p :
    Nest.UsersController.create env dto t = (Nest.Ok p, t') ->
    Nest_userPayload expirationTime p
| PayloadFindAll dto t t' p :
    Nest.UsersController.findAll dto t = (Nest.Ok p, t') ->
    Nest_userPayload expirationTime p
| PayloadProfile u :
    Nest_userPayload expirationTime (Nest.UsersController.getProfile u)
| PayloadFindOne i t t' p :
    Nest.UsersController.findOne i t = (Nest.Ok p, t') ->
    Nest_userPayload expirationTime p
| PayloadUpdate env i dto t t' p :
    Nest.UsersController.update env i dto t = (Nest.Ok p, t') ->
    Nest_userPayload expirationTime p
| PayloadRegister env dto t t' p :
    Nest.AuthController.register expirationTime env dto t = (Nest.Ok p, t') ->
    Nest_userPayload expirationTime p
| PayloadLogin env dto t t' p :
    Nest.AuthController.login expirationTime env dto t = (Nest.Ok p, t') ->
    Nest_userPayload expirationTime p.

(** The successful responses of the Express user endpoints that carry users. *)
Inductive Express_userResponse {db : Express.Database}
  : Express.HttpResponse -> Prop :=
| ResponseCreate env dto t t' r :
    Express.UserController.createUser env dto t = (Express.Ok r, t') ->
    Express_userResponse r
| ResponseGetAll env q t t' r :
    Express.UserController.getAllUsers env q t = (Express.Ok r, t') ->
    Express_userResponse r
| ResponseGetById env i t t' r :
    Express.UserController.getUserById env i t = (Express.Ok r, t') ->
    Express_userResponse r
| ResponseUpdate env i dto t t' r :
    Express.UserController.updateUser env i dto t = (Express.Ok r, t') ->
    Express_userResponse r.

(** An operation raised an exception that carries the given status. *)
Definition Nest_raises {A} (status : Z) (r : Nest.Result A) : Prop :=
  exists e, r = Nest.Throw e /\ Nest_carriedStatus e = status.

Definition Express_raises {A} (status : Z) (r : Express.Result A) : Prop :=
  exists e, r = Express.Throw e /\ Express_carriedStatus e = status.

(** The table's two constraints: primary key and unique email, over every
    stored row, soft-deleted ones included. *)
Definition Nest_constraints (t : Nest.Table) : Prop :=
  NoDup (map Nest.id t) /\ NoDup (map Nest.email t).

Definition Express_constraints (t : Express.Table) : Prop :=
  NoDup (map Express.id t) /\ NoDup (map Express.email t).

(** Sequences of create, update and delete requests against the services. *)
Inductive Nest_Op : Type :=
| NestCreate (env : Nest.Env) (dto : Nest.CreateUserDto)
| NestUpdate (env : Nest.Env) (i : string) (dto : Nest.UpdateUserDto)
| NestRemove (env : Nest.Env) (i : string).

Definition Nest_step {bcrypt : Nest.Bcrypt} {pg : Nest.Postgres}
           (t : Nest.Table) (op : Nest_Op) : Nest.Table :=
  match op with
  | NestCreate env dto => snd (Nest.create env dto t)
  | NestUpdate env i dto => snd (Nest.update env i dto t)
  | NestRemove env i => snd (Nest.remove env i t)
  end.

Definition Nest_run {bcrypt : Nest.Bcrypt} {pg : Nest.Postgres}
           (ops : list Nest_Op) (t : Nest.Table) : Nest.Table :=
  fold_left Nest_step ops t.

Inductive Express_Op : Type :=
| ExpressCreate (env : Express.Env) (dto : Express.CreateUserDto)
| ExpressUpdate (env : Express.Env) (i : string) (dto : Express.UpdateUserDto)
| ExpressDelete (env : Express.Env) (i : string).

Definition Express_step {db : Express.Database} (t : Express.Table) (op : Express_Op)
  : Express.Table :=
  match op with
  | ExpressCreate env dto => snd (Express.UserService.createUser env dto t)
  | ExpressUpdate env i dto => snd (Express.UserService.updateUser env i dto t)
  | ExpressDelete env i => snd (Express.UserService.deleteUser env i t)
  end.

Definition Express_run {db : Express.Database} (ops : list Express_Op)
           (t : Express.Table) : Express.Table :=
  fold_left Express_step ops t.

(** The request's DTO passed [@IsEnum(UserRole) @IsOptional()] on [role]. *)
Definition Nest_opValid (op : Nest_Op) : bool :=
  match op with
  | NestCreate _ dto => Nest.roleValid (Nest.c_role dto)
  | NestUpdate _ _ dto => Nest.roleValid (Nest.u_role dto)
  | NestRemove _ _ => true
  end.

(** [UPDATE ... WHERE key = i]: the row with key [i] becomes [r]. *)
Definition replaceRow {Row : Type} (key : Row -> string) (i : string) (r : Row)
           (t : list Row) : list Row :=
  map (fun v => if String.eqb (key v) i then r else v) t.

(** Does the character occur in the string? *)
Fixpoint occursIn (c : ascii) (s : string) : bool :=
  match s with
  | EmptyString => false
  | String c' rest => (Ascii.eqb c' c || occursIn c rest)%bool
  end.

(** Two outcomes of the role middleware are the same decision: the same
    answer, or [next()] with the same stored user. *)
Definition sameDecision (a b : Express.Outcome) : Prop :=
  match a, b with
  | Express.Next _ u1, Express.Next _ u2 => u1 = u2
  | Express.Respond r1, Express.Respond r2 => r1 = r2
  | _, _ => False
  end.

(** ** Sample data for the worked examples *)

(** A stand-in for bcrypt: the "hash" is the password behind a prefix. *)
Definition sampleBcrypt : Nest.Bcrypt :=
  {| Nest.hash := fun p => "$2b$10$" ++ p;
     Nest.compare := fun p h => String.eqb ("$2b$10$" ++ p) h |}.

(** A stand-in for the signer: subject, role and time of signing. *)
Definition sampleJwt : Nest.JwtService :=
  {| Nest.sign := fun p iat =>
       "jwt:" ++ Nest.sub p ++ ":" ++ Nest.payloadRole p ++ ":"
       ++ NilZero.string_of_int (Z.to_int iat) |}.

(** [LIKE] on characters, letters compared without case: [%] stands for
    any run of characters, [_] for any one, a backslash makes the next
    character literal. *)
Definition lowerAscii (c : ascii) : ascii :=
  let n := nat_of_ascii c in
  if (Nat.leb 65 n && Nat.leb n 90)%bool then ascii_of_nat (n + 32) else c.

Fixpoint likeChars (pat text : list ascii) {struct pat} : bool :=
  match pat with
  | [] => match text with [] => true | _ :: _ => false end
  | "%"%char :: rest =>
      (fix anyRun (l : list ascii) : bool :=
         (likeChars rest l
          || match l with [] => false | _ :: l' => anyRun l' end)%bool) text
  | "\"%char :: c :: rest =>
      match text with
      | [] => false
      | d :: text' => (Ascii.eqb (lowerAscii c) (lowerAscii d) && likeChars rest text')%bool
      end
  | c :: rest =>
      match text with
      | [] => false
      | d :: text' =>
          ((Ascii.eqb c "_" || Ascii.eqb (lowerAscii c) (lowerAscii d))
           && likeChars rest text')%bool
      end
  end.

Definition sampleILike (text pat : string) : bool :=
  likeChars (list_ascii_of_string pat) (list_ascii_of_string text).

(** A uuid in its hyphenated form, printed in lower case. *)
Definition isHex (c : ascii) : bool :=
  let n := nat_of_ascii c in
  ((Nat.leb 48 n && Nat.leb n 57) || (Nat.leb 65 n && Nat.leb n 70)
   || (Nat.leb 97 n && Nat.leb n 102))%bool.

Fixpoint uuidChars (k : nat) (l : list ascii) : bool :=
  match l with
  | [] => Nat.eqb k 36
  | c :: rest =>
      ((if (Nat.eqb k 8 || Nat.eqb k 13 || Nat.eqb k 18 || Nat.eqb k 23)%bool
        then Ascii.eqb c "-" else isHex c)
       && uuidChars (S k) rest)%bool
  end.

Definition sampleUuidIn (text : string) : option string :=
  if uuidChars 0 (list_ascii_of_string text)
  then Some (string_of_list_ascii (map lowerAscii (list_ascii_of_string text)))
  else None.

(** [ORDER BY] as a stable insertion sort. *)
Fixpoint insertBy {Row : Type} (before : Row -> Row -> bool) (x : Row) (l : list Row)
  : list Row :=
  match l with
  | [] => [x]
  | y :: rest => if before x y then x :: l else y :: insertBy before x rest
  end.

Definition sortRows {Row : Type} (before : Row -> Row -> bool) (l : list Row) : list Row :=
  fold_right (insertBy before) [] l.

(** [NULL] sorts after every value. *)
Definition compareOptZ (a b : option Z) : comparison :=
  match a, b with
  | Some x, Some y => x ?= y
  | Some _, None => Lt
  | None, Some _ => Gt
  | None, None => Eq
  end.

Definition compareBool (a b : bool) : comparison :=
  match a, b with
  | false, true => Lt
  | true, false => Gt
  | _, _ => Eq
  end.

(** The comparison behind [ORDER BY user.<property>]; none for a name
    that is no property of the entity. *)
Definition sampleColumn (sortBy : string)
  : option (Nest.User -> Nest.User -> comparison) :=
  if String.eqb sortBy "id" then Some (fun u v => String.compare (Nest.id u) (Nest.id v))
  else if String.eqb sortBy "createdAt"
  then Some (fun u v => Nest.createdAt u ?= Nest.createdAt v)
  else if String.eqb sortBy "updatedAt"
  then Some (fun u v => Nest.updatedAt u ?= Nest.updatedAt v)
  else if String.eqb sortBy "deletedAt"
  then Some (fun u v => compareOptZ (Nest.deletedAt u) (Nest.deletedAt v))
  else if String.eqb sortBy "version"
  then Some (fun u v => Nest.version u ?= Nest.version v)
  else if String.eqb sortBy "firstName"
  then Some (fun u v => String.compare (Nest.firstName u) (Nest.firstName v))
  else if String.eqb sortBy "lastName"
  then Some (fun u v => String.compare (Nest.lastName u) (Nest.lastName v))
  else if String.eqb sortBy "email"
  then Some (fun u v => String.compare (Nest.email u) (Nest.email v))
  else if String.eqb sortBy "password"
  then Some (fun u v => String.compare (Nest.password u) (Nest.password v))
  else if String.eqb sortBy "role"
  then Some (fun u v => String.compare (Nest.role u) (Nest.role v))
  else if String.eqb sortBy "isActive"
  then Some (fun u v => compareBool (Nest.isActive u) (Nest.isActive v))
  else if String.eqb sortBy "lastLoginAt"
  then Some (fun u v => compareOptZ (Nest.lastLoginAt u) (Nest.lastLoginAt v))
  else None.

Definition notAfter (c : comparison) : bool :=
  match c with Gt => false | _ => true end.

Definition notBefore (c : comparison) : bool :=
  match c with Lt => false | _ => true end.

Definition sampleOrderBy (sortBy sortOrder : string) (rows : list Nest.User)
  : Nest.Result (list Nest.User) :=
  if negb (String.eqb sortOrder "ASC" || String.eqb sortOrder "DESC")
  then Nest.Throw (Nest.Error "order can accept only ASC and DESC values" None)
  else
    match sampleColumn sortBy with
    | None =>
        Nest.Throw (Nest.QueryFailedError None ("column " ++ sortBy ++ " does not exist"))
    | Some cmp =>
        Nest.Ok (sortRows (fun u v => if String.eqb sortOrder "ASC"
                                      then notAfter (cmp u v) else notBefore (cmp u v))
                          rows)
    end.

Definition samplePostgres : Nest.Postgres :=
  {| Nest.ilike := sampleILike;
     Nest.orderBy := sampleOrderBy;
     Nest.uuid_in := sampleUuidIn |}.

(** An address is taken for an email when it has an [@]. *)
Fixpoint hasAt (s : string) : bool :=
  match s with
  | EmptyString => false
  | String c rest => (Ascii.eqb c "@" || hasAt rest)%bool
  end.

Definition sampleDatabase : Express.Database :=
  {| Express.isEmail := hasAt;
     Express.iLike := sampleILike;
     Express.orderByCreatedAtDesc :=
       sortRows (fun u v => notBefore (Express.createdAt u ?= Express.createdAt v));
     Express.uuid_in := sampleUuidIn |}.

(** The ids of the examples. *)
Definition annId : string := "0a000000-0000-4000-8000-00000000000a".
Definition bobId : string := "0b000000-0000-4000-8000-00000000000b".
Definition newId : string := "0c000000-0000-4000-8000-00000000000c".
Definition otherId : string := "0d000000-0000-4000-8000-00000000000d".

Definition sampleJWTService : Express.JWTService :=
  {| Express.validateUserToken :=
       fun token => if String.eqb token "t-ann"
                    then Some (Express.mkToken annId "user") else None |}.

(** The same tokens, but carrying the role claim [admin]. *)
Definition sampleJWTServiceAdminClaim : Express.JWTService :=
  {| Express.validateUserToken :=
       fun token => if String.eqb token "t-ann"
                    then Some (Express.mkToken annId "admin") else None |}.


(** Ann, an active user of the NestJS template, and the same row after a
    soft delete at time 50. *)
Definition ann : Nest.User :=
  Nest.mkUser annId 10 10 None 1 "Ann" "Lee" "ann@example.com"
              "$2b$10$secret" "user" true None.

Definition annDeleted : Nest.User :=
  Nest.mkUser annId 10 50 (Some 50) 2 "Ann" "Lee" "ann@example.com"
              "$2b$10$secret" "user" true None.

Definition bob : Nest.User :=
  Nest.mkUser bobId 20 20 None 1 "Bob" "Ray" "bob@example.com"
              "$2b$10$hunter2" "admin" true None.

Definition annDto : Nest.CreateUserDto :=
  Nest.mkCreate "Ann" "Lee" "ann@example.com" "secret" None.

(** Ann's request to change her password and become an admin, what it
    returns when served at time 60, and the row it leaves. *)
Definition annUpdate : Nest.UpdateUserDto :=
  Nest.mkUpdate None None None (Some "newsecret") (Some "admin") None.

Definition annUpdated : Nest.Entity :=
  Nest.mkUser annId 10 60 None 2 "Ann" "Lee" "ann@example.com"
              (Some "$2b$10$newsecret") "admin" true None.

Definition annUpdatedRow : Nest.User :=
  Nest.mkUser annId 10 60 None 2 "Ann" "Lee" "ann@example.com"
              "$2b$10$newsecret" "admin" true None.

(** A request whose statements run at 60 and 62 on the database's clock,
    with the runtime's clock at 61 in between; its token is signed at 63. *)
Definition env60 : Nest.Env := Nest.mkEnv 60 62 61 newId 63.

Definition xann : Express.User :=
  Express.mkUser annId 10 10 None "ann@example.com" "secret" "Ann" "Lee" true "user".

Definition xannDeleted : Express.User :=
  Express.mkUser annId 10 51 (Some 50) "ann@example.com" "secret" "Ann" "Lee" true "user".

Definition xannDto : Express.CreateUserDto :=
  Express.mkCreate "ann@example.com" "secret" "Ann" "Lee".

(** A request whose clock reads 60, then 61, and 62 when the response is
    formatted. *)
Definition xenv60 : Express.Env := Express.mkEnv 60 61 62 newId.

(** * Properties *)

(** ** Shared facts about the embedding *)

Lemma existsb_eqb_In (x : string) (l : list string) :
  existsb (fun r => String.eqb x r) l = true <-> In x l.
Proof.
  rewrite existsb_exists. split.
  - intros [r [Hin Heq]]. apply String.eqb_eq in Heq. now subst.
  - intros Hin. exists x. split; [assumption | apply String.eqb_refl].
Qed.

Lemma length_zero_nil {A} (l : list A) : (List.length l =? 0)%nat = true <-> l = [].
Proof.
  destruct l; simpl; split; intros H; try reflexivity; discriminate.
Qed.

(** ** Role-gated access *)

Section RoleGate.

(** The guard lets a request through exactly when nothing is required or
    the user on the request holds one of the required roles. *)
Lemma canActivate_iff requiredRoles user :
  Nest.canActivate requiredRoles user = Nest.Ok true <->
  (requiredRoles = None \/ requiredRoles = Some []
   \/ exists roles u, requiredRoles = Some roles /\ user = Some u
                      /\ In (Nest.role u) roles).
Proof.
  unfold Nest.canActivate.
  destruct requiredRoles as [roles|]; [|split; auto].
  destruct (List.length roles =? 0)%nat eqn:Hlen.
  - apply length_zero_nil in Hlen. subst. split; auto.
  - assert (Hne : roles <> []).
    { intros ->. discriminate. }
    destruct user as [u|].
    + destruct (existsb (fun r => String.eqb (Nest.role u) r) roles) eqn:Hex; simpl.
      * apply existsb_eqb_In in Hex. split; [|reflexivity].
        intros _. right. right. exists roles, u. auto.
      * split; [discriminate|].
        intros [H | [H | (rs & u' & H1 & H2 & H3)]]; try discriminate.
        -- injection H as ->. contradiction.
        -- injection H1 as <-. injection H2 as <-.
           apply existsb_eqb_In in H3. congruence.
    + split; [discriminate|].
      intros [H | [H | (rs & u' & H1 & H2 & H3)]]; try discriminate.
      injection H as ->. contradiction.
Qed.

Lemma canActivate_denies roles u :
  roles <> [] -> ~ In (Nest.role u) roles ->
  Nest.canActivate (Some roles) (Some u)
  = Nest.Throw (Nest.ForbiddenException
                  ("Access denied. Required roles: " ++ Nest.join ", " roles)).
Proof.
  intros Hne Hnot. unfold Nest.canActivate.
  destruct (List.length roles =? 0)%nat eqn:Hlen.
  - apply length_zero_nil in Hlen. contradiction.
  - destruct (existsb (fun r => String.eqb (Nest.role u) r) roles) eqn:Hex.
    + apply existsb_eqb_In in Hex. contradiction.
    + reflexivity.
Qed.

Lemma formatValidationErrors_cases msgs :
  (existsb isNull msgs = false /\ exists l, Nest.formatValidationErrors msgs = Nest.Ok l)
  \/ (existsb isNull msgs = true
      /\ Nest.formatValidationErrors msgs = Nest.Throw (Nest.nullRead "constraints")).
Proof.
  induction msgs as [|m rest IH]; [left; split; [reflexivity | eexists; reflexivity]|].
  cbn [existsb Nest.formatValidationErrors].
  destruct m; cbn [isNull Nest.formatValidationError orb];
    try (right; split; reflexivity);
    (destruct IH as [[Hn [l Hl]] | [Hn Hl]]; rewrite Hl;
     [left; split; [exact Hn | eexists; reflexivity] | right; split; [exact Hn | reflexivity]]).
Qed.

Lemma classify_status debug e r :
  Nest.classify debug e = Nest.Ok r -> fst (fst r) = Nest_carriedStatus e.
Proof.
  destruct e as [status [s|fields| |]| | |]; cbn [Nest.classify];
    try (intros H; injection H as <-; reflexivity); try discriminate.
  destruct (Js.get (Js.Obj fields) "message");
    try (intros H; injection H as <-; reflexivity).
  destruct (Nest.formatValidationErrors items); [|discriminate].
  intros H; injection H as <-; reflexivity.
Qed.

(** The classification succeeds unless it reads a property of [null]. *)
Lemma classify_cases debug e :
  (Nest_classifyThrows e = None /\ exists r, Nest.classify debug e = Nest.Ok r)
  \/ (exists err, Nest_classifyThrows e = Some err
                  /\ Nest.classify debug e = Nest.Throw err).
Proof.
  destruct e as [status [s|fields| |]| | |]; cbn [Nest.classify Nest_classifyThrows];
    try (left; split; [reflexivity | eexists; reflexivity]);
    try (right; eexists; split; reflexivity).
  destruct (Js.get (Js.Obj fields) "message");
    try (left; split; [reflexivity | eexists; reflexivity]).
  destruct (formatValidationErrors_cases items) as [[Hn [l Hl]] | [Hn Hl]];
    rewrite Hn, Hl.
  - left. split; [reflexivity | eexists; reflexivity].
  - right. eexists. split; reflexivity.
Qed.

Lemma catch_throws debug e err :
  Nest_classifyThrows e = Some err -> Nest.catch debug e = Nest.Throw err.
Proof.
  intros He. unfold Nest.catch.
  destruct (classify_cases debug e) as [[Hn _] | (err' & Hn & Hr)]; [congruence|].
  rewrite Hr. congruence.
Qed.

(** The exceptions the services and the guard build carry a string as
    their message and a status Node sends: the filter answers them with
    that status. *)
Lemma catch_httpError debug status description message :
  Js.validStatus status = true ->
  Nest_answerStatus (Nest.catch debug (Nest.httpError status description message))
  = Some status.
Proof.
  intros Hv. unfold Nest.catch, Nest.httpError. cbn [Nest.classify Js.get Js.lookup].
  change (String.eqb "message" "message") with true. cbv iota.
  unfold Nest.json. rewrite Hv. reflexivity.
Qed.

Context {jwtService : Express.JWTService}.

(** Once the bearer token has been verified, the Express middleware calls
    [next()] exactly when the stored user exists and holds the role. *)
Lemma roleRequired_iff role header scheme_token tokenData lookup :
  header <> "" ->
  Express.splitOn " " header "" = ["Bearer"; scheme_token] ->
  Express.validateUserToken scheme_token = Some tokenData ->
  forall reqUser stateUser,
    Express.roleRequired role (Some header) lookup = Express.Next reqUser stateUser
    <-> (reqUser = tokenData
         /\ lookup (Express.tokenId tokenData) = Express.Found stateUser
         /\ Express.role stateUser = role).
Proof.
  intros Hne Hsplit Htok reqUser stateUser.
  unfold Express.roleRequired. simpl.
  destruct (String.eqb header "") eqn:He.
  { apply String.eqb_eq in He. contradiction. }
  simpl. rewrite Hsplit. simpl. rewrite Htok.
  destruct (lookup (Express.tokenId tokenData)) as [u| |e].
  - destruct (String.eqb (Express.role u) role) eqn:Hr; simpl.
    + apply String.eqb_eq in Hr. split.
      * intros H. injection H as <- <-. auto.
      * intros (-> & Hf & _). injection Hf as <-. reflexivity.
    + apply String.eqb_neq in Hr. split.
      * unfold Express.forbidden, Express.deny. discriminate.
      * intros (_ & Hf & Hrole). injection Hf as <-. contradiction.
  - split; [unfold Express.forbidden, Express.deny; discriminate|].
    intros (_ & Hf & _). discriminate.
  - split; [unfold Express.forbidden, Express.deny; discriminate|].
    intros (_ & Hf & _). discriminate.
Qed.

Lemma roleRequired_denies role header scheme_token tokenData lookup u :
  header <> "" ->
  Express.splitOn " " header "" = ["Bearer"; scheme_token] ->
  Express.validateUserToken scheme_token = Some tokenData ->
  lookup (Express.tokenId tokenData) = Express.Found u ->
  Express.role u <> role ->
  Express.roleRequired role (Some header) lookup = Express.forbidden.
Proof.
  intros Hne Hsplit Htok Hfound Hrole.
  unfold Express.roleRequired. simpl.
  destruct (String.eqb header "") eqn:He.
  { apply String.eqb_eq in He. contradiction. }
  simpl. rewrite Hsplit. simpl. rewrite Htok, Hfound.
  apply String.eqb_neq in Hrole. now rewrite Hrole.
Qed.

End RoleGate.

(** The guard never answers anything but "go on" or a 403. *)
Lemma canActivate_total requiredRoles user :
  Nest.canActivate requiredRoles user = Nest.Ok true
  \/ exists message,
      Nest.canActivate requiredRoles user
      = Nest.Throw (Nest.ForbiddenException message).
Proof.
  unfold Nest.canActivate.
  destruct requiredRoles as [roles|]; [|now left].
  destruct (List.length roles =? 0)%nat; [now left|].
  destruct user as [u|]; [|right; eauto].
  destruct (existsb _ roles); simpl; [now left | right; eauto].
Qed.

(** C1. Role-gated access. In the NestJS template [RolesGuard.canActivate]
    lets a request through if and only if the list of required roles is
    absent or empty, or the user on the request holds a role of the list;
    any other request is answered with [ForbiddenException], which the
    exception filter sends as status 403, and whatever the handler is, it
    is not run: the outcome is that exception and the table is untouched.
    In the Express template [roleRequired(role)], once the bearer token is
    verified, calls [next()] if and only if the stored user is found and its
    role is the required one; a user with another role gets the 403 body and
    the route's handler contributes nothing to the response. *)
Theorem role_gated_access {jwtService : Express.JWTService} :
  (forall requiredRoles user,
      Nest.canActivate requiredRoles user = Nest.Ok true <->
      (requiredRoles = None \/ requiredRoles = Some []
       \/ exists roles u, requiredRoles = Some roles /\ user = Some u
                          /\ In (Nest.role u) roles))
  /\ (forall requiredRoles user,
         Nest.canActivate requiredRoles user <> Nest.Ok true ->
         forall debug (A : Type) (handler : Nest.M A) (t : Nest.Table),
         exists message,
           Nest.guardedBy requiredRoles user handler t
           = (Nest.Throw (Nest.ForbiddenException message), t)
           /\ Nest_answerStatus (Nest.catch debug (Nest.ForbiddenException message))
              = Some 403)
  /\ (forall role header token tokenData lookup,
         header <> "" ->
         Express.splitOn " " header "" = ["Bearer"; token] ->
         Express.validateUserToken token = Some tokenData ->
         (forall reqUser stateUser,
             Express.roleRequired role (Some header) lookup
             = Express.Next reqUser stateUser
             <-> (reqUser = tokenData
                  /\ lookup (Express.tokenId tokenData) = Express.Found stateUser
                  /\ Express.role stateUser = role))
         /\ (forall u,
                lookup (Express.tokenId tokenData) = Express.Found u ->
                Express.role u <> role ->
                forall handler,
                  Express.statusCode
                    (Express.protectedRoute role (Some header) lookup handler) = 403
                  /\ Express.protectedRoute role (Some header) lookup handler
                     = Express.mkResponse 403
                         (Some
                            (Js.Obj [("success", Js.Bool false);
                                     ("message",
                                      Js.Str "You are not authorized to perform this action.")])))).
Proof.
  split; [exact canActivate_iff|]. split.
  - intros requiredRoles user Hno debug A handler t.
    destruct (canActivate_total requiredRoles user) as [Hok | [message Hthrow]];
      [contradiction|].
    exists message. split.
    + unfold Nest.guardedBy. rewrite Hthrow. reflexivity.
    + now apply catch_httpError.
  - intros role header token tokenData lookup Hne Hsplit Htok. split.
    + intros reqUser stateUser.
      now apply roleRequired_iff with (scheme_token := token).
    + intros u Hfound Hrole handler.
      unfold Express.protectedRoute.
      rewrite (roleRequired_denies role header token tokenData lookup u
                 Hne Hsplit Htok Hfound Hrole).
      split; reflexivity.
Qed.

(** The theorem at work: Bob, an admin, may use an admin-only handler; Ann,
    a user, is refused with 403, by the guard and by the Express
    middleware alike. *)
Lemma role_gated_access_witness :
  Nest.canActivate (Some ["admin"; "manager"]) (Some (Nest.loaded bob)) = Nest.Ok true
  /\ (exists message,
         Nest.guardedBy (Some ["admin"; "manager"]) (Some (Nest.loaded ann))
                        (Nest.remove (pg := samplePostgres) env60 bobId) [ann; bob]
         = (Nest.Throw (Nest.ForbiddenException message), [ann; bob])
         /\ Nest_answerStatus (Nest.catch false (Nest.ForbiddenException message))
            = Some 403)
  /\ Express.statusCode
       (Express.protectedRoute (jwtService := sampleJWTService) "admin"
          (Some "Bearer t-ann") (Express.lookupIn (db := sampleDatabase) [xann])
          (fun _ _ => Express.mkResponse 200 (Some (Js.Obj [])))) = 403.
Proof.
  destruct (@role_gated_access sampleJWTService) as [Hiff [Hdeny Hx]].
  split; [|split].
  - apply Hiff. right. right. exists ["admin"; "manager"], (Nest.loaded bob).
    repeat split. simpl. now left.
  - apply Hdeny. discriminate.
  - assert (Hne : "Bearer t-ann" <> "") by discriminate.
    destruct (Hx "admin" "Bearer t-ann" "t-ann" (Express.mkToken annId "user")
                (Express.lookupIn (db := sampleDatabase) [xann]) Hne eq_refl eq_refl)
      as [_ Hforbid].
    assert (Hrole : Express.role xann <> "admin") by discriminate.
    exact (proj1 (Hforbid xann eq_refl Hrole _)).
Defined.

(** ** Rows, keys and replacement in a table *)

Section Rows.
Variable Row : Type.
Variables key email_ : Row -> string.

Abbreviation replace := (replaceRow key).

Lemma find_some_in (p : Row -> bool) (t : list Row) (u : Row) :
  find p t = Some u -> In u t /\ p u = true.
Proof. apply find_some. Qed.

Lemma find_none_iff (p : Row -> bool) (t : list Row) :
  find p t = None <-> forall u, In u t -> p u = false.
Proof.
  split.
  - intros H u Hin. now apply (find_none p t H).
  - induction t as [|v rest IH]; simpl; intros H; [reflexivity|].
    rewrite (H v (or_introl eq_refl)). apply IH. intros u Hin. apply H. now right.
Qed.

Lemma find_is_some_iff (p : Row -> bool) (t : list Row) :
  (exists u, find p t = Some u) <-> exists u, In u t /\ p u = true.
Proof.
  split.
  - intros [u H]. exists u. now apply find_some.
  - intros [u [Hin Hp]]. destruct (find p t) as [v|] eqn:Hf; [eauto|].
    rewrite (find_none p t Hf u Hin) in Hp. discriminate.
Qed.

(** A row-wise rewrite that keeps a column keeps the whole column. *)
Lemma map_col_preserved (col : Row -> string) (f : Row -> Row) (t : list Row) :
  (forall v, col (f v) = col v) -> map col (map f t) = map col t.
Proof.
  intros H. rewrite map_map. apply map_ext. exact H.
Qed.

Lemma replace_absent i r t :
  ~ In i (map key t) -> replace i r t = t.
Proof.
  induction t as [|v rest IH]; simpl; intros H; [reflexivity|].
  destruct (String.eqb (key v) i) eqn:E.
  - apply String.eqb_eq in E. exfalso. apply H. now left.
  - f_equal. apply IH. intros Hin. apply H. now right.
Qed.

Lemma replace_keys i r t :
  key r = i -> map key (replace i r t) = map key t.
Proof.
  intros Hk. unfold replaceRow. rewrite map_map. apply map_ext.
  intros v. destruct (String.eqb (key v) i) eqn:E; [|reflexivity].
  apply String.eqb_eq in E. congruence.
Qed.

Lemma in_replace_email i r t e :
  In e (map email_ (replace i r t)) -> e = email_ r \/ In e (map email_ t).
Proof.
  induction t as [|v rest IH]; simpl; [tauto|].
  destruct (String.eqb (key v) i); simpl; intros [H | H]; auto;
    destruct (IH H); auto.
Qed.

(** Replacing the row with key [i] keeps emails distinct as long as no
    other row already holds the new row's email. *)
Lemma replace_emails_NoDup i r t :
  NoDup (map key t) -> NoDup (map email_ t) ->
  (forall v, In v t -> key v <> i -> email_ v <> email_ r) ->
  NoDup (map email_ (replace i r t)).
Proof.
  induction t as [|v rest IH]; simpl; intros Hk He Hfree; [constructor|].
  inversion Hk as [|? ? Hk1 Hk2]; subst. inversion He as [|? ? He1 He2]; subst.
  destruct (String.eqb (key v) i) eqn:E.
  - apply String.eqb_eq in E. subst i.
    fold (replace (key v) r rest). rewrite (replace_absent _ _ _ Hk1).
    constructor; [|assumption].
    intros Hin. apply in_map_iff in Hin. destruct Hin as [w [Hw Hinw]].
    apply (Hfree w); [now right | | assumption].
    intros Hkw. apply Hk1. rewrite <- Hkw. now apply in_map.
  - apply String.eqb_neq in E. fold (replace i r rest).
    constructor.
    + intros Hin. apply in_replace_email in Hin. destruct Hin as [Hin | Hin].
      * exact (Hfree v (or_introl eq_refl) E Hin).
      * contradiction.
    + apply IH; [assumption | assumption |].
      intros w Hw. apply Hfree. now right.
Qed.

(** A rewrite of the rows with key [i] that fixes a column's value puts
    there what a replacement by one such row puts. *)
Lemma rewrite_column (col : Row -> string) i (f : Row -> Row) r t :
  (forall v, col (f v) = col r) ->
  map col (map (fun v => if String.eqb (key v) i then f v else v) t)
  = map col (replace i r t).
Proof.
  intros H. unfold replaceRow. rewrite !map_map. apply map_ext.
  intros v. destruct (String.eqb (key v) i); [apply H | reflexivity].
Qed.

Lemma existsb_false_forall (p : Row -> bool) (t : list Row) :
  existsb p t = false <-> forall v, In v t -> p v = false.
Proof.
  split.
  - intros H v Hin. destruct (p v) eqn:E; [|reflexivity].
    assert (existsb p t = true) by (apply existsb_exists; eauto). congruence.
  - intros H. destruct (existsb p t) eqn:E; [|reflexivity].
    apply existsb_exists in E. destruct E as [v [Hin Hp]].
    rewrite (H v Hin) in Hp. discriminate.
Qed.

(** Two stored rows with one email are one row. *)
Lemma NoDup_email_inj (t : list Row) (u v : Row) :
  NoDup (map email_ t) -> In u t -> In v t -> email_ u = email_ v -> u = v.
Proof.
  induction t as [|w rest IH]; simpl; intros Hnd Hu Hv Heq; [contradiction|].
  inversion Hnd as [|? ? H1 H2]; subst.
  destruct Hu as [-> | Hu], Hv as [-> | Hv]; auto.
  - exfalso. apply H1. rewrite Heq. now apply in_map.
  - exfalso. apply H1. rewrite <- Heq. now apply in_map.
Qed.
End Rows.

Lemma NoDup_snoc {A} (l : list A) (x : A) :
  NoDup l -> ~ In x l -> NoDup (l ++ [x]).
Proof.
  induction l as [|y rest IH]; simpl; intros Hnd Hnot.
  - constructor; [intros [] | constructor].
  - inversion Hnd as [|? ? H1 H2]; subst. constructor.
    + rewrite in_app_iff. simpl. intros [H | [H | []]]; [contradiction|].
      apply Hnot. now left.
    + apply IH; [assumption|]. intros H. apply Hnot. now right.
Qed.

(** ** The NestJS user store *)

Section NestStore.
Context {bcrypt : Nest.Bcrypt} {pg : Nest.Postgres}.

Lemma Nest_findOneByEmail_Some e t u :
  Nest.findOneByEmail e t = Some u ->
  In u t /\ Nest.live u = true /\ Nest.email u = e.
Proof.
  unfold Nest.findOneByEmail, Nest.findOneBy. intros H.
  apply find_some in H. destruct H as [Hin Hp].
  apply andb_true_iff in Hp. destruct Hp as [Hl He].
  apply String.eqb_eq in He. auto.
Qed.

Lemma Nest_findOneByEmail_found e t :
  (exists u, Nest.findOneByEmail e t = Some u)
  <-> exists u, In u t /\ Nest.live u = true /\ Nest.email u = e.
Proof.
  unfold Nest.findOneByEmail, Nest.findOneBy. rewrite find_is_some_iff.
  split; intros [u [Hin H]]; exists u; split; try assumption.
  - apply andb_true_iff in H. destruct H as [Hl He].
    apply String.eqb_eq in He. auto.
  - destruct H as [Hl He]. rewrite Hl, He. simpl. apply String.eqb_refl.
Qed.

Lemma Nest_findOneById_Some i t u :
  Nest.findOneById i t = Some u ->
  In u t /\ Nest.live u = true /\ Nest.id u = i.
Proof.
  unfold Nest.findOneById, Nest.findOneBy. intros H.
  apply find_some in H. destruct H as [Hin Hp].
  apply andb_true_iff in Hp. destruct Hp as [Hl He].
  apply String.eqb_eq in He. auto.
Qed.

(** The three ways [create] can end. *)
Lemma Nest_create_cases env dto t :
  ((exists u, Nest.findOneByEmail (Nest.c_email dto) t = Some u)
   /\ Nest.create env dto t
      = (Nest.Throw (Nest.ConflictException "Email already exists"), t))
  \/ (Nest.findOneByEmail (Nest.c_email dto) t = None
      /\ Nest.create env dto t = (Nest.Throw Nest.constraintError, t))
  \/ (Nest.findOneByEmail (Nest.c_email dto) t = None
      /\ (forall v, In v t ->
                    Nest.id v <> Nest.uuid env /\ Nest.email v <> Nest.c_email dto)
      /\ Nest.create env dto t
         = (Nest.Ok (Nest.newUser env dto (Nest.hash (Nest.c_password dto))),
            (t ++ [Nest.newUser env dto (Nest.hash (Nest.c_password dto))])%list)).
Proof.
  unfold Nest.create, Nest.bind, Nest.query.
  destruct (Nest.findOneByEmail (Nest.c_email dto) t) as [u|] eqn:Hf.
  - left. split; [eauto | reflexivity].
  - right. unfold Nest.insertRow.
    match goal with |- context [existsb ?p t] => destruct (existsb p t) eqn:Hex end.
    + left. auto.
    + right. split; [reflexivity|]. split; [|reflexivity].
      intros v Hin.
      rewrite existsb_false_forall in Hex. specialize (Hex v Hin). simpl in Hex.
      apply orb_false_iff in Hex. destruct Hex as [H1 H2].
      apply String.eqb_neq in H1. apply String.eqb_neq in H2. auto.
Qed.

Lemma Nest_create_conflict_iff env dto t :
  Nest_raises 409 (fst (Nest.create env dto t))
  <-> exists u, In u t /\ Nest.live u = true /\ Nest.email u = Nest.c_email dto.
Proof.
  rewrite <- Nest_findOneByEmail_found.
  destruct (Nest_create_cases env dto t) as [[Hex H] | [[Hn H] | [Hn [_ H]]]];
    rewrite H; simpl.
  - split; [intros _; assumption|]. intros _. eexists. split; reflexivity.
  - rewrite Hn. split.
    + intros [e [He Hs]]. injection He as <-. discriminate.
    + intros [u Hu]. discriminate.
  - rewrite Hn. split.
    + intros [e [He Hs]]. discriminate.
    + intros [u Hu]. discriminate.
Qed.

Lemma Nest_create_throw_unchanged env dto t e :
  fst (Nest.create env dto t) = Nest.Throw e -> snd (Nest.create env dto t) = t.
Proof.
  destruct (Nest_create_cases env dto t) as [[_ H] | [[_ H] | [_ [_ H]]]];
    rewrite H; simpl; [reflexivity | reflexivity | discriminate].
Qed.

Lemma Nest_create_constraints env dto t :
  Nest_constraints t -> Nest_constraints (snd (Nest.create env dto t)).
Proof.
  intros [Hid Hem].
  destruct (Nest_create_cases env dto t) as [[_ H] | [[_ H] | [_ [Hfresh H]]]];
    rewrite H; simpl; try (split; assumption).
  split; rewrite map_app; simpl; apply NoDup_snoc; try assumption.
  - intros Hin. apply in_map_iff in Hin. destruct Hin as [v [Hv Hin]].
    destruct (Hfresh v Hin) as [H1 _]. contradiction.
  - intros Hin. apply in_map_iff in Hin. destruct Hin as [v [Hv Hin]].
    destruct (Hfresh v Hin) as [_ H2]. contradiction.
Qed.

Lemma Nest_updateRow_constraints at_ u t :
  Nest_constraints t -> Nest_constraints (snd (Nest.updateRow at_ u t)).
Proof.
  intros [Hid Hem]. unfold Nest.updateRow.
  match goal with |- context [existsb ?p t] => destruct (existsb p t) eqn:Hex end;
    simpl; [split; assumption|].
  destruct t as [|w rest] eqn:Et; [split; assumption|]. rewrite <- Et in *.
  unfold Nest_constraints.
  rewrite (rewrite_column _ Nest.id Nest.id (Nest.id u) (Nest.written at_ u)
             (Nest.written at_ u w) t) by reflexivity.
  rewrite (rewrite_column _ Nest.id Nest.email (Nest.id u) (Nest.written at_ u)
             (Nest.written at_ u w) t) by reflexivity.
  split.
  - rewrite replace_keys; [assumption | reflexivity].
  - apply replace_emails_NoDup; try assumption.
    intros v Hin Hne. rewrite existsb_false_forall in Hex.
    specialize (Hex v Hin). simpl in Hex.
    apply String.eqb_neq in Hne. rewrite Hne in Hex. simpl in Hex.
    now apply String.eqb_neq in Hex.
Qed.

(** The three ways [findOne] can end: the entity of the live row the text
    names, 404 for a uuid that names none, the database's refusal of a text
    that is no uuid. *)
Lemma Nest_findOne_cases i t :
  (exists key u, Nest.uuid_in i = Some key /\ Nest.findOneById key t = Some u
                 /\ Nest.findOne i t = (Nest.Ok (Nest.loaded u), t))
  \/ (exists key, Nest.uuid_in i = Some key /\ Nest.findOneById key t = None
                  /\ Nest.findOne i t
                     = (Nest.Throw (Nest.NotFoundException
                                      ("User with ID " ++ i ++ " not found")), t))
  \/ (Nest.uuid_in i = None
      /\ Nest.findOne i t = (Nest.Throw (Nest.invalidUuid i), t)).
Proof.
  unfold Nest.findOne, Nest.bind, Nest.repositoryFindOneById.
  destruct (Nest.uuid_in i) as [key|]; [|right; right; auto].
  destruct (Nest.findOneById key t) as [u|] eqn:Hf;
    [left; exists key, u; auto | right; left; exists key; auto].
Qed.

Lemma Nest_update_constraints env i dto t :
  Nest_constraints t -> Nest_constraints (snd (Nest.update env i dto t)).
Proof.
  intros Hc. unfold Nest.update. unfold Nest.bind at 1.
  destruct (Nest_findOne_cases i t) as [(key & u & _ & _ & H) | [(key & _ & _ & H) | [_ H]]];
    rewrite H; try exact Hc.
  assert (Hsave : forall v, Nest_constraints
                              (snd (Nest.save (Nest.now env) (Nest.loaded u) v t))).
  { intros v. unfold Nest.save. destruct (Nest.Entity_eqb (Nest.loaded u) v); [exact Hc|].
    now apply Nest_updateRow_constraints. }
  unfold Nest.bind at 1.
  destruct (Nest.emailChanges dto (Nest.loaded u)).
  - unfold Nest.bind, Nest.query.
    destruct (Nest.findOneByEmail _ t); simpl; [exact Hc | apply Hsave].
  - simpl. apply Hsave.
Qed.

Lemma Nest_softRemove_columns {Password} at_ (u : Nest.UserOf Password) t :
  map Nest.id (Nest.softRemove at_ u t) = map Nest.id t
  /\ map Nest.email (Nest.softRemove at_ u t) = map Nest.email t.
Proof.
  unfold Nest.softRemove. split; apply map_col_preserved; intros v;
    destruct (String.eqb (Nest.id v) (Nest.id u)); reflexivity.
Qed.

Lemma Nest_remove_constraints env i t :
  Nest_constraints t -> Nest_constraints (snd (Nest.remove env i t)).
Proof.
  intros Hc. unfold Nest.remove, Nest.bind.
  destruct (Nest_findOne_cases i t) as [(key & u & _ & _ & H) | [(key & _ & _ & H) | [_ H]]];
    rewrite H; try exact Hc.
  unfold Nest.exec. simpl. destruct Hc as [Hid Hem].
  destruct (Nest_softRemove_columns (Nest.now env) (Nest.loaded u) t) as [E1 E2].
  unfold Nest_constraints. now rewrite E1, E2.
Qed.

Lemma Nest_step_constraints t op :
  Nest_constraints t -> Nest_constraints (Nest_step t op).
Proof.
  destruct op; simpl.
  - apply Nest_create_constraints.
  - apply Nest_update_constraints.
  - apply Nest_remove_constraints.
Qed.

Lemma Nest_run_constraints ops : forall t,
  Nest_constraints t -> Nest_constraints (Nest_run ops t).
Proof.
  unfold Nest_run. induction ops as [|op rest IH]; simpl; intros t Hc; [exact Hc|].
  apply IH. now apply Nest_step_constraints.
Qed.

(** Changing the email to one that another, not deleted, user holds. *)
Lemma Nest_update_conflict env i key dto t user other e :
  NoDup (map Nest.email t) ->
  Nest.uuid_in i = Some key ->
  Nest.findOneById key t = Some user ->
  Nest.u_email dto = Some e -> e <> "" ->
  In other t -> Nest.live other = true -> Nest.email other = e ->
  other <> user ->
  Nest.update env i dto t
  = (Nest.Throw (Nest.ConflictException "Email already exists"), t).
Proof.
  intros Hnd Hkey Hfind Hdto Hne Hin Hlive Hem Hdiff.
  unfold Nest.update. unfold Nest.bind at 1.
  destruct (Nest_findOne_cases i t) as [(k & u & Hk & Hu & H) | [(k & Hk & Hu & H) | [Hk H]]];
    try congruence.
  rewrite H. assert (k = key) by congruence. subst k.
  rewrite Hu in Hfind. injection Hfind as ->.
  destruct (Nest_findOneById_Some _ _ _ Hu) as [Hinu _].
  assert (Hchg : Nest.emailChanges dto (Nest.loaded user) = true).
  { unfold Nest.emailChanges. cbn [Nest.loaded Nest.email]. rewrite Hdto.
    apply String.eqb_neq in Hne. rewrite Hne. simpl.
    apply negb_true_iff. apply String.eqb_neq. intros Heq.
    apply Hdiff. apply (NoDup_email_inj _ Nest.email t); auto. congruence. }
  unfold Nest.bind at 1. rewrite Hchg. unfold Nest.bind, Nest.query.
  rewrite Hdto. simpl.
  destruct (Nest.findOneByEmail e t) as [w|] eqn:Hf; [reflexivity|].
  exfalso.
  assert (Hex : exists u, Nest.findOneByEmail e t = Some u).
  { apply Nest_findOneByEmail_found. eauto. }
  destruct Hex as [w Hw]. congruence.
Qed.

End NestStore.

(** ** The Express user store *)

Section ExpressStore.
Context {db : Express.Database}.

Lemma Express_findOneByEmail_found e t :
  (exists u, Express.findOneByEmail e t = Some u)
  <-> exists u, In u t /\ Express.live u = true /\ Express.email u = e.
Proof.
  unfold Express.findOneByEmail. rewrite find_is_some_iff.
  split; intros [u [Hin H]]; exists u; split; try assumption.
  - apply andb_true_iff in H. destruct H as [Hl He].
    apply String.eqb_eq in He. auto.
  - destruct H as [Hl He]. rewrite Hl, He. simpl. apply String.eqb_refl.
Qed.

Lemma Express_findByPk_Some i t u :
  Express.findByPk i t = Some u ->
  In u t /\ Express.live u = true /\ Express.id u = i.
Proof.
  unfold Express.findByPk. intros H.
  apply find_some in H. destruct H as [Hin Hp].
  apply andb_true_iff in Hp. destruct Hp as [Hl He].
  apply String.eqb_eq in He. auto.
Qed.

(** [User.create] either throws and writes nothing, or appends a row whose
    id and email no stored row has. *)
Lemma Express_Model_create_cases env e p f l t :
  (exists err, Express.Model_create env e p f l t = (Express.Throw err, t))
  \/ (exists u,
         Express.Model_create env e p f l t = (Express.Ok u, (t ++ [u])%list)
         /\ Express.email u = e /\ Express.role u = "user"
         /\ forall v, In v t -> Express.id v <> Express.id u /\ Express.email v <> e).
Proof.
  unfold Express.Model_create.
  destruct (Express.isEmail e); simpl; [|left; eauto].
  match goal with |- context [existsb ?q t] => destruct (existsb q t) eqn:Hex end.
  - left. eauto.
  - right. eexists. split; [reflexivity|]. split; [reflexivity|].
    split; [reflexivity|].
    intros v Hin. rewrite existsb_false_forall in Hex.
    specialize (Hex v Hin). simpl in Hex.
    apply orb_false_iff in Hex. destruct Hex as [H1 H2].
    apply String.eqb_neq in H1. apply String.eqb_neq in H2. auto.
Qed.

(** The repository turns every failure of the insert into a
    [DatabaseError], which carries status 500. *)
Lemma Express_repository_create_cases env data t :
  (exists message,
      Express.UserRepository.create env data t
      = (Express.Throw (Express.DatabaseError message), t))
  \/ (exists u,
         Express.UserRepository.create env data t = (Express.Ok u, (t ++ [u])%list)
         /\ Express.email u = Express.c_email data /\ Express.role u = "user"
         /\ forall v, In v t ->
                      Express.id v <> Express.id u
                      /\ Express.email v <> Express.c_email data).
Proof.
  unfold Express.UserRepository.create, Express.tryCatch.
  destruct (Express_Model_create_cases env (Express.c_email data)
              (Express.c_password data) (Express.c_firstName data)
              (Express.c_lastName data) t) as [[err H] | [u [H Hu]]]; rewrite H.
  - left. destruct (Express.UserRepository.isUniqueConstraintError err);
      unfold Express.throw; eauto.
  - right. eauto.
Qed.

Lemma Express_createUser_conflict_iff env data t :
  Express_raises 409 (fst (Express.UserService.createUser env data t))
  <-> exists u, In u t /\ Express.live u = true
                /\ Express.email u = Express.c_email data.
Proof.
  rewrite <- Express_findOneByEmail_found.
  unfold Express.UserService.createUser, Express.UserRepository.findByEmail,
    Express.bind, Express.query.
  destruct (Express.findOneByEmail (Express.c_email data) t) as [u|] eqn:Hf.
  - simpl. split; [eauto|]. intros _. eexists. split; reflexivity.
  - split; [|intros [u Hu]; discriminate].
    intros [e [He Hs]]. exfalso.
    destruct (Express_repository_create_cases env data t) as [[m H] | [u [H _]]];
      rewrite H in He; simpl in He; [|discriminate].
    injection He as <-. discriminate.
Qed.

Lemma Express_createUser_throw_unchanged env data t e :
  fst (Express.UserService.createUser env data t) = Express.Throw e ->
  snd (Express.UserService.createUser env data t) = t.
Proof.
  unfold Express.UserService.createUser, Express.UserRepository.findByEmail,
    Express.bind, Express.query.
  destruct (Express.findOneByEmail (Express.c_email data) t); [reflexivity|].
  destruct (Express_repository_create_cases env data t) as [[m H] | [u [H _]]];
    rewrite H; simpl; [reflexivity | discriminate].
Qed.

Lemma Express_createUser_constraints env data t :
  Express_constraints t ->
  Express_constraints (snd (Express.UserService.createUser env data t)).
Proof.
  intros [Hid Hem].
  unfold Express.UserService.createUser, Express.UserRepository.findByEmail,
    Express.bind, Express.query.
  destruct (Express.findOneByEmail (Express.c_email data) t); [split; assumption|].
  destruct (Express_repository_create_cases env data t)
    as [[m H] | [u [H [He [_ Hfresh]]]]]; rewrite H; simpl; [split; assumption|].
  split; rewrite map_app; simpl; apply NoDup_snoc; try assumption.
  - intros Hin. apply in_map_iff in Hin. destruct Hin as [v [Hv Hin]].
    destruct (Hfresh v Hin) as [H1 _]. contradiction.
  - intros Hin. apply in_map_iff in Hin. destruct Hin as [v [Hv Hin]].
    destruct (Hfresh v Hin) as [_ H2]. congruence.
Qed.

Lemma Express_instance_update_constraints env u data t :
  Express_constraints t ->
  Express_constraints (snd (Express.instance_update env u data t)).
Proof.
  intros [Hid Hem]. unfold Express.instance_update.
  destruct (Express.User_eqb u _); [split; assumption|].
  destruct (Express.isEmail _); simpl; [|split; assumption].
  match goal with |- context [existsb ?q t] => destruct (existsb q t) eqn:Hex end;
    simpl; [split; assumption|].
  match goal with
  | |- Express_constraints (map (fun v => if _ then ?r else v) t) =>
      change (map _ t) with (replaceRow Express.id (Express.id u) r t)
  end.
  split.
  - rewrite replace_keys; [assumption | reflexivity].
  - apply replace_emails_NoDup; try assumption.
    intros v Hin Hne. rewrite existsb_false_forall in Hex.
    specialize (Hex v Hin). simpl in Hex.
    apply String.eqb_neq in Hne. rewrite Hne in Hex. simpl in Hex.
    now apply String.eqb_neq in Hex.
Qed.

(** The three ways [findById] can end: the live row the text names, 404
    for a uuid that names none, the database's refusal of a text that is no
    uuid. *)
Lemma Express_findById_cases i t :
  (exists key u, Express.uuid_in i = Some key /\ Express.findByPk key t = Some u
                 /\ Express.UserRepository.findById i t = (Express.Ok u, t))
  \/ (exists key, Express.uuid_in i = Some key /\ Express.findByPk key t = None
                  /\ Express.UserRepository.findById i t
                     = (Express.Throw (Express.NotFoundError "User" i), t))
  \/ (Express.uuid_in i = None
      /\ Express.UserRepository.findById i t
         = (Express.Throw (Express.invalidUuid i), t)).
Proof.
  unfold Express.UserRepository.findById, Express.bind,
    Express.UserRepository.Model_findByPk.
  destruct (Express.uuid_in i) as [key|]; [|right; right; auto].
  destruct (Express.findByPk key t) as [u|] eqn:Hf;
    [left; exists key, u; auto | right; left; exists key; auto].
Qed.

Lemma Express_repository_update_constraints env i data t :
  Express_constraints t ->
  Express_constraints (snd (Express.UserRepository.update env i data t)).
Proof.
  intros Hc. unfold Express.UserRepository.update, Express.tryCatch, Express.bind.
  destruct (Express_findById_cases i t)
    as [(key & u & _ & _ & H) | [(key & _ & _ & H) | [_ H]]]; rewrite H.
  - pose proof (Express_instance_update_constraints env u data t Hc) as Hi.
    destruct (Express.instance_update env u data t) as [[a|e] t']; simpl in *;
      [exact Hi|].
    destruct (Express.UserRepository.isNotFoundError e); [exact Hi|].
    destruct (Express.UserRepository.isUniqueConstraintError e); exact Hi.
  - simpl. exact Hc.
  - simpl. exact Hc.
Qed.

Lemma Express_updateUser_constraints env i data t :
  Express_constraints t ->
  Express_constraints (snd (Express.UserService.updateUser env i data t)).
Proof.
  intros Hc. unfold Express.UserService.updateUser. unfold Express.bind at 1.
  destruct (Js.truthyStr (Express.u_email data)).
  - unfold Express.bind at 1. unfold Express.UserRepository.findByEmail, Express.query.
    destruct (Express.findOneByEmail _ t) as [other|]; simpl.
    + destruct (negb (String.eqb (Express.id other) i)); simpl; [exact Hc|].
      now apply Express_repository_update_constraints.
    + now apply Express_repository_update_constraints.
  - simpl. now apply Express_repository_update_constraints.
Qed.

Lemma Express_deleteUser_constraints env i t :
  Express_constraints t ->
  Express_constraints (snd (Express.UserService.deleteUser env i t)).
Proof.
  intros Hc. unfold Express.UserService.deleteUser, Express.UserRepository.delete,
    Express.bind.
  destruct (Express_findById_cases i t)
    as [(key & u & _ & _ & H) | [(key & _ & _ & H) | [_ H]]]; rewrite H;
    try exact Hc.
  unfold Express.instance_destroy. simpl. destruct Hc as [Hid Hem].
  split.
  - rewrite map_col_preserved; [assumption|].
    intros v. destruct (String.eqb (Express.id v) (Express.id u)); reflexivity.
  - rewrite map_col_preserved; [assumption|].
    intros v. destruct (String.eqb (Express.id v) (Express.id u)); reflexivity.
Qed.

Lemma Express_step_constraints t op :
  Express_constraints t -> Express_constraints (Express_step t op).
Proof.
  destruct op; simpl.
  - apply Express_createUser_constraints.
  - apply Express_updateUser_constraints.
  - apply Express_deleteUser_constraints.
Qed.

Lemma Express_run_constraints ops : forall t,
  Express_constraints t -> Express_constraints (Express_run ops t).
Proof.
  unfold Express_run. induction ops as [|op rest IH]; simpl; intros t Hc; [exact Hc|].
  apply IH. now apply Express_step_constraints.
Qed.

(** Changing the email to one that another, not deleted, user holds. *)
Lemma Express_updateUser_conflict env i data t other e :
  Express.u_email data = Some e -> e <> "" ->
  Express.findOneByEmail e t = Some other -> Express.id other <> i ->
  Express.UserService.updateUser env i data t
  = (Express.Throw (Express.mkAppError "Email already in use by another user" 409), t).
Proof.
  intros Hdto Hne Hfind Hdiff.
  unfold Express.UserService.updateUser. unfold Express.bind at 1.
  unfold Js.truthyStr. rewrite Hdto.
  apply String.eqb_neq in Hne. rewrite Hne. simpl.
  unfold Express.bind, Express.UserRepository.findByEmail, Express.query.
  rewrite Hfind. apply String.eqb_neq in Hdiff. rewrite Hdiff. reflexivity.
Qed.

End ExpressStore.

(** ** Uniqueness of email *)

(** An email that no live user holds but a stored row does is refused by
    the unique constraint. *)
Lemma Nest_create_shadowed {bcrypt : Nest.Bcrypt} env dto t u :
  In u t -> Nest.email u = Nest.c_email dto ->
  (forall v, In v t -> Nest.live v = true -> Nest.email v <> Nest.c_email dto) ->
  Nest.create env dto t = (Nest.Throw Nest.constraintError, t).
Proof.
  intros Hin He Hnone.
  destruct (Nest_create_cases env dto t) as [[[w Hw] _] | [[_ H] | [_ [Hfresh _]]]].
  - destruct (Nest_findOneByEmail_Some _ _ _ Hw) as (Hinw & Hl & Hew).
    exfalso. exact (Hnone w Hinw Hl Hew).
  - exact H.
  - exfalso. exact (proj2 (Hfresh u Hin) He).
Qed.

Lemma Express_createUser_shadowed {db : Express.Database} env data t u :
  In u t -> Express.email u = Express.c_email data ->
  (forall v, In v t -> Express.live v = true
             -> Express.email v <> Express.c_email data) ->
  exists message,
    Express.UserService.createUser env data t
    = (Express.Throw (Express.DatabaseError message), t).
Proof.
  intros Hin He Hnone.
  unfold Express.UserService.createUser, Express.UserRepository.findByEmail,
    Express.bind, Express.query.
  destruct (Express.findOneByEmail (Express.c_email data) t) as [w|] eqn:Hf.
  - exfalso. unfold Express.findOneByEmail in Hf. apply find_some in Hf.
    destruct Hf as [Hinw Hp]. apply andb_true_iff in Hp. destruct Hp as [Hl Hew].
    apply String.eqb_eq in Hew. exact (Hnone w Hinw Hl Hew).
  - destruct (Express_repository_create_cases env data t)
      as [[m H] | [w [_ [_ [_ Hfresh]]]]]; [eauto|].
    exfalso. exact (proj2 (Hfresh u Hin) He).
Qed.

(** C2, as amended. Email uniqueness is an invariant of the user store,
    over all stored rows, soft-deleted ones included; the 409 conflict is
    about the users the lookups see, the rows that are not soft-deleted.
    Creating a user raises a 409 conflict if and only if a user that is not
    soft-deleted holds the requested email, and the table is unchanged after
    every failed create. When only a soft-deleted row holds the email, no
    409 is raised: the unique constraint refuses the insert, the table is
    unchanged and the answer is 500. Updating a user's email to one held
    by a different, not soft-deleted user raises a 409 and leaves the table
    unchanged. Whatever sequence of create, update and delete requests is
    served, a table that satisfies its primary-key and unique-email
    constraints still satisfies them: all stored users, soft-deleted ones
    included, have pairwise distinct emails. Both templates. *)
Theorem email_uniqueness {bcrypt : Nest.Bcrypt} {pg : Nest.Postgres}
        {db : Express.Database} :
  (forall env dto t,
      (Nest_raises 409 (fst (Nest.create env dto t))
       <-> exists u, In u t /\ Nest.live u = true
                     /\ Nest.email u = Nest.c_email dto)
      /\ (forall e, fst (Nest.create env dto t) = Nest.Throw e ->
                    snd (Nest.create env dto t) = t))
  /\ (forall env dto t u debug,
         In u t -> Nest.live u = false -> Nest.email u = Nest.c_email dto ->
         (forall v, In v t -> Nest.live v = true -> Nest.email v <> Nest.c_email dto) ->
         Nest.create env dto t = (Nest.Throw Nest.constraintError, t)
         /\ ~ Nest_raises 409 (fst (Nest.create env dto t))
         /\ Nest_answerStatus (Nest.catch debug Nest.constraintError) = Some 500)
  /\ (forall env i key dto t user other e,
         NoDup (map Nest.email t) ->
         Nest.uuid_in i = Some key ->
         Nest.findOneById key t = Some user ->
         Nest.u_email dto = Some e -> e <> "" ->
         In other t -> Nest.live other = true -> Nest.email other = e ->
         other <> user ->
         Nest_raises 409 (fst (Nest.update env i dto t))
         /\ snd (Nest.update env i dto t) = t)
  /\ (forall env data t,
         (Express_raises 409 (fst (Express.UserService.createUser env data t))
          <-> exists u, In u t /\ Express.live u = true
                        /\ Express.email u = Express.c_email data)
         /\ (forall e, fst (Express.UserService.createUser env data t) = Express.Throw e ->
                       snd (Express.UserService.createUser env data t) = t))
  /\ (forall env data t u development,
         In u t -> Express.live u = false -> Express.email u = Express.c_email data ->
         (forall v, In v t -> Express.live v = true
                    -> Express.email v <> Express.c_email data) ->
         (exists message,
             Express.UserService.createUser env data t
             = (Express.Throw (Express.DatabaseError message), t)
             /\ Express_answerStatus
                  (Express.errorHandler env development (Express.DatabaseError message))
                = Some 500)
         /\ ~ Express_raises 409 (fst (Express.UserService.createUser env data t)))
  /\ (forall env i data t other e,
         Express.u_email data = Some e -> e <> "" ->
         In other t -> Express.live other = true -> Express.email other = e ->
         Express.id other <> i ->
         NoDup (map Express.email t) ->
         Express_raises 409 (fst (Express.UserService.updateUser env i data t))
         /\ snd (Express.UserService.updateUser env i data t) = t)
  /\ (forall ops t, Nest_constraints t -> Nest_constraints (Nest_run ops t))
  /\ (forall ops, NoDup (map Nest.email (Nest_run ops [])))
  /\ (forall ops t, Express_constraints t -> Express_constraints (Express_run ops t))
  /\ (forall ops, NoDup (map Express.email (Express_run ops []))).
Proof.
  assert (Hx : forall t other e,
             In other t -> Express.live other = true -> Express.email other = e ->
             NoDup (map Express.email t) ->
             Express.findOneByEmail e t = Some other).
  { intros t other e Hin Hl He Hnd.
    assert (Hf : exists w, Express.findOneByEmail e t = Some w).
    { apply Express_findOneByEmail_found. eauto. }
    destruct Hf as [w Hw]. rewrite Hw. f_equal.
    unfold Express.findOneByEmail in Hw. apply find_some in Hw.
    destruct Hw as [Hinw Hp]. apply andb_true_iff in Hp. destruct Hp as [_ Hew].
    apply String.eqb_eq in Hew.
    apply (NoDup_email_inj _ Express.email t); auto. congruence. }
  split; [|split; [|split; [|split; [|split; [|split; [|split; [|split; [|split]]]]]]]].
  - intros env dto t. split.
    + apply Nest_create_conflict_iff.
    + apply Nest_create_throw_unchanged.
  - intros env dto t u debug Hin Hdel He Hnone.
    rewrite (Nest_create_shadowed env dto t u Hin He Hnone).
    split; [reflexivity|]. split.
    + intros [e [Hthrow Hs]]. injection Hthrow as <-. discriminate.
    + destruct debug; reflexivity.
  - intros env i key dto t user other e Hnd Hkey Hfind Hdto Hne Hin Hl He Hdiff.
    rewrite (Nest_update_conflict env i key dto t user other e); auto.
    split; [|reflexivity]. eexists. split; reflexivity.
  - intros env data t. split.
    + apply Express_createUser_conflict_iff.
    + apply Express_createUser_throw_unchanged.
  - intros env data t u development Hin Hdel He Hnone.
    destruct (Express_createUser_shadowed env data t u Hin He Hnone) as [message H].
    split.
    + exists message. split; [exact H|]. destruct development; reflexivity.
    + rewrite H. intros [e [Hthrow Hs]]. injection Hthrow as <-. discriminate.
  - intros env i data t other e Hdto Hne Hin Hl He Hdiff Hnd.
    rewrite (Express_updateUser_conflict env i data t other e); auto.
    split; [|reflexivity]. eexists. split; reflexivity.
  - intros ops t. apply Nest_run_constraints.
  - intros ops. apply (Nest_run_constraints ops []). split; constructor.
  - intros ops t. apply Express_run_constraints.
  - intros ops. apply (Express_run_constraints ops []). split; constructor.
Qed.

(** C2 as stated fails in both templates: a user with the requested email
    is stored, soft-deleted at time 50. Creating a user with that email
    raises no 409: the lookup does not see the row, the unique constraint
    refuses the insert, and the answer is 500. *)
Lemma create_with_email_of_deleted_user :
  Nest.email annDeleted = Nest.c_email annDto
  /\ Nest.create (bcrypt := sampleBcrypt) env60 annDto [annDeleted]
     = (Nest.Throw Nest.constraintError, [annDeleted])
  /\ Nest_carriedStatus Nest.constraintError = 500
  /\ Nest_answerStatus (Nest.catch false Nest.constraintError) = Some 500
  /\ Express.email xannDeleted = Express.c_email xannDto
  /\ Express.UserService.createUser (db := sampleDatabase) xenv60 xannDto [xannDeleted]
     = (Express.Throw (Express.DatabaseError "Email already exists"), [xannDeleted])
  /\ Express_answerStatus
       (Express.errorHandler xenv60 false (Express.DatabaseError "Email already exists"))
     = Some 500.
Proof. repeat split. Qed.

(** The same request against a live row is the conflict. *)
Example email_conflict_live :
  Nest.create (bcrypt := sampleBcrypt) env60 annDto [ann]
  = (Nest.Throw (Nest.ConflictException "Email already exists"), [ann])
  /\ Nest_answerStatus
       (Nest.catch false (Nest.ConflictException "Email already exists")) = Some 409.
Proof. split; reflexivity. Qed.

(** ** Login *)

Section Login.
Context {bcrypt : Nest.Bcrypt} {jwt : Nest.JwtService}.
Variable expirationTime : option string.

Lemma Nest_findOneByEmail_None e t :
  Nest.findOneByEmail e t = None
  <-> forall u, In u t -> Nest.live u = true -> Nest.email u <> e.
Proof.
  split.
  - intros Hn u Hin Hl He.
    assert (Hex : exists w, Nest.findOneByEmail e t = Some w).
    { apply Nest_findOneByEmail_found. eauto. }
    destruct Hex as [w Hw]. congruence.
  - intros H. destruct (Nest.findOneByEmail e t) as [u|] eqn:Hf; [|reflexivity].
    apply Nest_findOneByEmail_Some in Hf. destruct Hf as [Hin [Hl He]].
    exfalso. exact (H u Hin Hl He).
Qed.

(** The four ways [login] can end. *)
Lemma login_cases env dto t :
  (Nest.findOneByEmail (Nest.l_email dto) t = None
   /\ Nest.login expirationTime env dto t
      = (Nest.Throw (Nest.UnauthorizedException "Invalid credentials"), t))
  \/ (exists u,
         Nest.findOneByEmail (Nest.l_email dto) t = Some u
         /\ Nest.isActive u = false
         /\ Nest.login expirationTime env dto t
            = (Nest.Throw (Nest.UnauthorizedException "Account is deactivated"), t))
  \/ (exists u,
         Nest.findOneByEmail (Nest.l_email dto) t = Some u
         /\ Nest.isActive u = true
         /\ Nest.compare (Nest.l_password dto) (Nest.password u) = false
         /\ Nest.login expirationTime env dto t
            = (Nest.Throw (Nest.UnauthorizedException "Invalid credentials"), t))
  \/ (exists u,
         Nest.findOneByEmail (Nest.l_email dto) t = Some u
         /\ Nest.isActive u = true
         /\ Nest.compare (Nest.l_password dto) (Nest.password u) = true
         /\ Nest.login expirationTime env dto t
            = (Nest.Ok (Nest.generateAuthResponse expirationTime env u),
               Nest.updateLastLoginAt (Nest.now env) (Nest.clock env) (Nest.id u) t)).
Proof.
  unfold Nest.login, Nest.findByEmail, Nest.bind, Nest.query.
  destruct (Nest.findOneByEmail (Nest.l_email dto) t) as [u|]; [|left; auto].
  right. destruct (Nest.isActive u) eqn:Ha; simpl.
  - right. destruct (Nest.compare (Nest.l_password dto) (Nest.password u)) eqn:Hc; simpl.
    + right. exists u. auto.
    + left. exists u. auto.
  - left. exists u. auto.
Qed.

End Login.

(** C3. Login is hash-compare then sign. A user is a stored account that is
    not soft-deleted, which is what the lookup by email returns. [login]
    raises a 401 if and only if no user has the given email, or the user
    found is not active, or bcrypt's comparison of the submitted password
    with the stored hash fails; it raises nothing else, and a failed login
    leaves the table as it was. Otherwise it returns a response whose token
    type is Bearer and whose access token is the signature, made at the
    signer's clock, of a payload carrying the id, email and role of the
    authenticated user. *)
Theorem login_hash_compare_then_sign
        {bcrypt : Nest.Bcrypt} {jwt : Nest.JwtService}
        (expirationTime : option string) (env : Nest.Env) (dto : Nest.LoginDto)
        (t : Nest.Table) :
  (Nest_raises 401 (fst (Nest.login expirationTime env dto t))
   <-> ((forall u, In u t -> Nest.live u = true -> Nest.email u <> Nest.l_email dto)
        \/ (exists u, Nest.findOneByEmail (Nest.l_email dto) t = Some u
                      /\ Nest.isActive u = false)
        \/ (exists u, Nest.findOneByEmail (Nest.l_email dto) t = Some u
                      /\ Nest.compare (Nest.l_password dto) (Nest.password u) = false)))
  /\ (forall e, fst (Nest.login expirationTime env dto t) = Nest.Throw e ->
                Nest_carriedStatus e = 401
                /\ snd (Nest.login expirationTime env dto t) = t)
  /\ (Nest_raises 401 (fst (Nest.login expirationTime env dto t))
      \/ exists u response,
          In u t /\ Nest.live u = true /\ Nest.email u = Nest.l_email dto
          /\ fst (Nest.login expirationTime env dto t) = Nest.Ok response
          /\ Nest.tokenType response = "Bearer"
          /\ Nest.accessToken response
             = Nest.sign (Nest.mkPayload (Nest.id u) (Nest.email u) (Nest.role u))
                         (Nest.issuedAt env)).
Proof.
  rewrite <- Nest_findOneByEmail_None.
  destruct (login_cases expirationTime env dto t)
    as [[Hn H] | [(u & Hf & Ha & H) | [(u & Hf & Ha & Hc & H) | (u & Hf & Ha & Hc & H)]]];
    rewrite H; simpl.
  - split; [|split].
    + split; [auto|]. intros _. eexists. split; reflexivity.
    + intros e He. injection He as <-. auto.
    + left. eexists. split; reflexivity.
  - split; [|split].
    + split; [|intros _; eexists; split; reflexivity].
      intros _. right. left. eauto.
    + intros e He. injection He as <-. auto.
    + left. eexists. split; reflexivity.
  - split; [|split].
    + split; [|intros _; eexists; split; reflexivity].
      intros _. right. right. eauto.
    + intros e He. injection He as <-. auto.
    + left. eexists. split; reflexivity.
  - split; [|split].
    + split.
      * intros [e [He _]]. discriminate.
      * intros [Hn | [(w & Hw & Hia) | (w & Hw & Hcw)]]; exfalso; congruence.
    + intros e He. discriminate.
    + right. exists u, (Nest.generateAuthResponse expirationTime env u).
      destruct (Nest_findOneByEmail_Some _ _ _ Hf) as [Hin [Hl He]].
      repeat split; auto.
Qed.

(** A login that succeeds, on concrete data. *)
Example login_ann :
  fst (Nest.login (bcrypt := sampleBcrypt) (jwt := sampleJwt) None env60
                  (Nest.mkLogin "ann@example.com" "secret") [ann; bob])
  = Nest.Ok (Nest.mkAuth "jwt:0a000000-0000-4000-8000-00000000000a:user:63" "Bearer" "1d"
                         (Nest.UserResponseDto ann)).
Proof. reflexivity. Qed.

(** The account is soft-deleted: the lookup finds no user. *)
Example login_deleted_account :
  Nest.login (bcrypt := sampleBcrypt) (jwt := sampleJwt) None env60
             (Nest.mkLogin "ann@example.com" "secret") [annDeleted]
  = (Nest.Throw (Nest.UnauthorizedException "Invalid credentials"), [annDeleted]).
Proof. reflexivity. Qed.

(** ** Pagination *)








(** ** Exceptions to error bodies *)



Lemma Express_errorHandler_response env development err :
  exists message code details,
    Express.errorHandler env development err
    = Express.errorResponse env message (Express_appStatus err) code details.
Proof.
  unfold Express.errorHandler.
  destruct err as [[| | |errors] message statusCode stack | name message stack status];
    simpl; eauto.
Qed.



(** ** Response envelopes *)

Section Envelope.
Variable cleanResource : string -> string.

Lemma hasOwnProperty_false_get v k :
  Js.hasOwnProperty v k = false -> Js.get v k = Js.Undefined.
Proof.
  destruct v; simpl; try reflexivity.
  destruct (Js.lookup k fields); [discriminate | reflexivity].
Qed.

(** A payload without a [message] property is wrapped as it is. *)
Lemma intercept_wraps request data :
  Js.hasOwnProperty data "message" = false ->
  Nest.intercept cleanResource request data
  = Js.Obj [("success", Js.Bool true);
            ("message", Js.Str (Nest.generateSuccessMessage cleanResource
                                  (Nest.method request) (Nest.path request)));
            ("data", data)].
Proof.
  intros H. unfold Nest.intercept.
  rewrite H, andb_false_r. rewrite (hasOwnProperty_false_get _ _ H). reflexivity.
Qed.

Lemma UserResponseDto_no_message {Password} {pp : Nest.PasswordProperty Password}
      (u : Nest.UserOf Password) :
  Js.hasOwnProperty (Nest.UserResponseDto u) "message" = false.
Proof. reflexivity. Qed.

Lemma AuthResponseDto_no_message a :
  Js.hasOwnProperty (Nest.AuthResponseDto_json a) "message" = false.
Proof. reflexivity. Qed.

End Envelope.

Lemma Express_bind_Ok {A} (m : Express.M A)
      (f : A -> Express.Result Express.HttpResponse) t :
  Express.bind m (fun a => Express.respond (f a)) t
  = match m t with
    | (Express.Ok a, t') => (f a, t')
    | (Express.Throw e, t') => (Express.Throw e, t')
    end.
Proof. unfold Express.bind, Express.respond. destruct (m t) as [[a|e] t']; reflexivity. Qed.

(** What the list handler returns, when the query succeeds. *)
Lemma UsersController_findAll_payload {pg : Nest.Postgres} dto t payload t' :
  Nest.UsersController.findAll dto t = (Nest.Ok payload, t') ->
  exists users meta,
    payload = Js.Obj [("data", Js.Arr users);
                      ("pagination", Nest.PaginationMeta_json meta)].
Proof.
  unfold Nest.UsersController.findAll, Nest.bind.
  destruct (Nest.findAll dto t) as [[[data meta]|e] t1]; [|discriminate].
  unfold Nest.ret. intros H. injection H as <- _. eauto.
Qed.

(** C6, as amended. In the NestJS template the interceptor wraps every
    handler payload that has no [message] property of its own (the user,
    list and authentication payloads have none) into exactly
    [{ success: true, message, data }], with a message string and the
    payload as [data]; for the list endpoint the payload is
    [{ data, pagination }], so the pagination metadata sits inside [data]
    and is no top-level field. That object is the body of the response of
    every users and authentication route but the delete route, which
    answers 204 and sends no body. In the Express template the successful
    response of the create, get, update and list endpoints has a body with
    exactly [{ success: true, data, message, timestamp }], the list
    endpoint's [data] being [{ items, pagination }]; the successful response
    of the delete endpoint is 204 without a body; and the health endpoint
    answers [{ success, message, timestamp, environment }]. *)
Theorem response_envelope {pg : Nest.Postgres} {db : Express.Database}
        (cleanResource : string -> string) :
  (forall request data,
      Js.hasOwnProperty data "message" = false ->
      exists message,
        Nest.intercept cleanResource request data
        = Js.Obj [("success", Js.Bool true); ("message", Js.Str message); ("data", data)])
  /\ (forall Password (pp : Nest.PasswordProperty Password) (u : Nest.UserOf Password),
         Js.hasOwnProperty (Nest.UserResponseDto u) "message" = false)
  /\ (forall a, Js.hasOwnProperty (Nest.AuthResponseDto_json a) "message" = false)
  /\ (forall request dto t payload t',
         Nest.UsersController.findAll dto t = (Nest.Ok payload, t') ->
         exists users meta message,
           payload = Js.Obj [("data", Js.Arr users);
                             ("pagination", Nest.PaginationMeta_json meta)]
           /\ Nest.intercept cleanResource request payload
              = Js.Obj [("success", Js.Bool true);
                        ("message", Js.Str message);
                        ("data", Js.Obj [("data", Js.Arr users);
                                         ("pagination", Nest.PaginationMeta_json meta)])])
  /\ (forall request data,
         Js.hasOwnProperty data "message" = false ->
         exists message,
           (forall h, h <> Nest.HRemove ->
                      Nest.reply cleanResource (Nest.httpCodeOf h) request data
                      = Nest.Ok
                          (Nest.mkResponse (Nest.httpCodeOf h)
                             (Some (Js.Obj [("success", Js.Bool true);
                                            ("message", Js.Str message);
                                            ("data", data)]))))
           /\ (forall h, Nest.reply cleanResource (Nest.AuthController.httpCodeOf h)
                                    request data
                         = Nest.Ok
                             (Nest.mkResponse (Nest.AuthController.httpCodeOf h)
                                (Some (Js.Obj [("success", Js.Bool true);
                                               ("message", Js.Str message);
                                               ("data", data)])))))
  /\ (forall request data,
         Nest.reply cleanResource (Nest.httpCodeOf Nest.HRemove) request data
         = Nest.Ok (Nest.mkResponse 204 None))
  /\ (forall env t response t',
         (forall dto, Express.UserController.createUser env dto t = (Express.Ok response, t') ->
                      exists sent, Express.body response = Some sent
                                   /\ topLevelKeys sent
                                      = ["success"; "data"; "message"; "timestamp"])
         /\ (forall i, Express.UserController.getUserById env i t = (Express.Ok response, t') ->
                       exists sent, Express.body response = Some sent
                                    /\ topLevelKeys sent
                                       = ["success"; "data"; "message"; "timestamp"])
         /\ (forall i dto,
                Express.UserController.updateUser env i dto t = (Express.Ok response, t') ->
                exists sent, Express.body response = Some sent
                             /\ topLevelKeys sent
                                = ["success"; "data"; "message"; "timestamp"])
         /\ (forall i, Express.UserController.deleteUser env i t = (Express.Ok response, t') ->
                       response = Express.mkResponse 204 None)
         /\ (forall q, Express.UserController.getAllUsers env q t = (Express.Ok response, t') ->
                       exists sent, Express.body response = Some sent
                                    /\ topLevelKeys sent
                                       = ["success"; "data"; "message"; "timestamp"]
                                    /\ topLevelKeys (Js.get sent "data")
                                       = ["items"; "pagination"]))
  /\ (forall env NODE_ENV,
         exists sent,
           Express.health env NODE_ENV = Express.Ok (Express.mkResponse 200 (Some sent))
           /\ topLevelKeys sent = ["success"; "message"; "timestamp"; "environment"]).
Proof.
  split; [|split; [|split; [|split; [|split; [|split; [|split]]]]]].
  - intros request data H. eexists. now apply intercept_wraps.
  - reflexivity.
  - reflexivity.
  - intros request dto t payload t' H.
    destruct (UsersController_findAll_payload dto t payload t' H) as (users & meta & ->).
    exists users, meta. eexists. split; [reflexivity|].
    now apply intercept_wraps.
  - intros request data H. eexists. split.
    + intros h Hh. unfold Nest.reply. rewrite (intercept_wraps _ _ _ H).
      destruct h; try reflexivity. contradiction.
    + intros h. unfold Nest.reply. rewrite (intercept_wraps _ _ _ H).
      destruct h; reflexivity.
  - reflexivity.
  - intros env t response t'. split; [|split; [|split; [|split]]].
    + intros dto. unfold Express.UserController.createUser.
      rewrite Express_bind_Ok.
      destruct (Express.UserService.createUser env dto t) as [[u|e] t1];
        intros H; [|discriminate].
      injection H as <- _. eexists. split; reflexivity.
    + intros i. unfold Express.UserController.getUserById.
      rewrite Express_bind_Ok.
      destruct (Express.UserService.getUserById i t) as [[u|e] t1];
        intros H; [|discriminate].
      injection H as <- _. eexists. split; reflexivity.
    + intros i dto. unfold Express.UserController.updateUser.
      rewrite Express_bind_Ok.
      destruct (Express.UserService.updateUser env i dto t) as [[u|e] t1];
        intros H; [|discriminate].
      injection H as <- _. eexists. split; reflexivity.
    + intros i. unfold Express.UserController.deleteUser.
      rewrite Express_bind_Ok.
      destruct (Express.UserService.deleteUser env i t) as [[u|e] t1];
        intros H; [|discriminate].
      injection H as <- _. reflexivity.
    + intros q. unfold Express.UserController.getAllUsers.
      rewrite Express_bind_Ok.
      match goal with
      | |- context [Express.UserService.getAllUsers ?a ?b ?c t] =>
          destruct (Express.UserService.getAllUsers a b c t) as [[r|e] t1]
      end; intros H; [|discriminate].
      injection H as <- _. eexists. split; [reflexivity|]. split; reflexivity.
  - intros env NODE_ENV. eexists. split; reflexivity.
Qed.

(** C6 as stated fails: the envelope of the NestJS list endpoint has no
    top-level [pagination] field (the metadata is under [data]); every
    Express envelope carries a fourth field, [timestamp]; and the delete
    routes of both templates answer 204 with no body at all, whatever the
    interceptor or the formatter built. *)
Lemma envelope_counterexample :
  (exists payload,
      fst (Nest.UsersController.findAll (pg := samplePostgres)
             (Nest.mkQuery None None None None None None) [ann; bob])
      = Nest.Ok payload
      /\ topLevelKeys (Nest.intercept (fun _ => "users") listUsersRequest payload)
         = ["success"; "message"; "data"]
      /\ Js.hasOwnProperty
           (Nest.intercept (fun _ => "users") listUsersRequest payload) "pagination"
         = false
      /\ Js.hasOwnProperty
           (Js.get (Nest.intercept (fun _ => "users") listUsersRequest payload) "data")
           "pagination"
         = true)
  /\ Express.successResponse xenv60 (Express.toJSON xann)
       "User retrieved successfully" 200
     = Express.Ok
         (Express.mkResponse 200
            (Some (Js.Obj [("success", Js.Bool true);
                           ("data", Express.toJSON xann);
                           ("message", Js.Str "User retrieved successfully");
                           ("timestamp", Js.Date 62)])))
  /\ Express.UserController.deleteUser (db := sampleDatabase) xenv60 annId [xann]
     = (Express.Ok (Express.mkResponse 204 None), [Express.destroyed 60 61 xann])
  /\ Nest.UsersController.remove (pg := samplePostgres) env60 annId [ann; bob]
     = (Nest.Ok Js.Undefined, [Nest.markDeleted 60 ann; bob])
  /\ Nest.reply (fun _ => "users") (Nest.httpCodeOf Nest.HRemove)
       (Nest.mkRequest "DELETE" ("/api/users/" ++ annId)) Js.Undefined
     = Nest.Ok (Nest.mkResponse 204 None).
Proof.
  split; [|repeat split].
  eexists. split; [reflexivity|]. repeat split.
Qed.

(** ** Role membership *)

Lemma Forall_replaceRow {Row} (key : Row -> string) (P : Row -> Prop) i r t :
  Forall P t -> P r -> Forall P (replaceRow key i r t).
Proof.
  intros Ht Hr. unfold replaceRow. apply Forall_map.
  apply Forall_impl with (P := P); [|exact Ht].
  intros v Hv. destruct (String.eqb (key v) i); assumption.
Qed.

Lemma Forall_map_same {Row} (P : Row -> Prop) (f : Row -> Row) t :
  (forall v, P v -> P (f v)) -> Forall P t -> Forall P (map f t).
Proof.
  intros Hf Ht. apply Forall_map. apply Forall_impl with (P := P); assumption.
Qed.

Lemma IsEnum_UserRole_In r :
  Nest.IsEnum_UserRole r = true <-> In r Nest.UserRole_values.
Proof. unfold Nest.IsEnum_UserRole. apply existsb_eqb_In. Qed.

Section Roles.
Context {bcrypt : Nest.Bcrypt} {pg : Nest.Postgres} {db : Express.Database}.

Lemma Nest_newUser_role env dto hashed :
  Nest.roleValid (Nest.c_role dto) = true ->
  In (Nest.role (Nest.newUser env dto hashed)) Nest.UserRole_values.
Proof.
  unfold Nest.roleValid, Nest.newUser. simpl.
  destruct (Nest.c_role dto) as [r|]; simpl.
  - apply IsEnum_UserRole_In.
  - intros _. right. now left.
Qed.

Lemma Nest_create_rolesOk env dto t :
  Nest.roleValid (Nest.c_role dto) = true ->
  Nest_rolesOk t -> Nest_rolesOk (snd (Nest.create env dto t)).
Proof.
  intros Hv Ht.
  destruct (Nest_create_cases env dto t) as [[_ H] | [[_ H] | [_ [_ H]]]];
    rewrite H; simpl; try assumption.
  apply Forall_app. split; [assumption|].
  constructor; [|constructor]. now apply Nest_newUser_role.
Qed.

Lemma Nest_update_rolesOk env i dto t :
  Nest.roleValid (Nest.u_role dto) = true ->
  Nest_rolesOk t -> Nest_rolesOk (snd (Nest.update env i dto t)).
Proof.
  intros Hv Ht. unfold Nest.update. unfold Nest.bind at 1.
  destruct (Nest_findOne_cases i t) as [(key & u & _ & Hu & H) | [(key & _ & _ & H) | [_ H]]];
    rewrite H; try exact Ht.
  assert (Hrow : Nest_rolesOk
                   (snd (Nest.save (Nest.now env) (Nest.loaded u)
                           (Nest.assign (Nest.loaded u) (Nest.hashPassword dto)) t))).
  { unfold Nest.save. destruct (Nest.Entity_eqb (Nest.loaded u) _); [exact Ht|].
    unfold Nest.updateRow.
    match goal with |- context [existsb ?q t] => destruct (existsb q t) end;
      simpl; [exact Ht|].
    assert (Hrole : In (Nest.orElse (Nest.u_role (Nest.hashPassword dto)) (Nest.role u))
                       Nest.UserRole_values).
    { assert (Hr : Nest.u_role (Nest.hashPassword dto) = Nest.u_role dto).
      { unfold Nest.hashPassword.
        destruct (Js.truthyStr (Nest.u_password dto)); reflexivity. }
      rewrite Hr. unfold Nest.roleValid in Hv.
      destruct (Nest.u_role dto) as [r|]; simpl.
      - now apply IsEnum_UserRole_In.
      - destruct (Nest_findOneById_Some _ _ _ Hu) as [Hin _].
        unfold Nest_rolesOk in Ht. rewrite Forall_forall in Ht. now apply Ht. }
    apply Forall_map_same; [|exact Ht].
    intros v Hrv. destruct (String.eqb (Nest.id v) (Nest.id u)); [exact Hrole | exact Hrv]. }
  unfold Nest.bind at 1.
  destruct (Nest.emailChanges dto (Nest.loaded u)).
  - unfold Nest.bind, Nest.query.
    destruct (Nest.findOneByEmail _ t); simpl; [exact Ht | exact Hrow].
  - simpl. exact Hrow.
Qed.

Lemma Nest_remove_rolesOk env i t :
  Nest_rolesOk t -> Nest_rolesOk (snd (Nest.remove env i t)).
Proof.
  intros Ht. unfold Nest.remove, Nest.bind.
  destruct (Nest_findOne_cases i t) as [(key & u & _ & _ & H) | [(key & _ & _ & H) | [_ H]]];
    rewrite H; try exact Ht.
  unfold Nest.exec, Nest.softRemove. simpl.
  apply Forall_map_same; [|exact Ht].
  intros v Hv. destruct (String.eqb (Nest.id v) (Nest.id u)); assumption.
Qed.

Lemma Nest_run_rolesOk ops : forall t,
  forallb Nest_opValid ops = true ->
  Nest_rolesOk t -> Nest_rolesOk (Nest_run ops t).
Proof.
  unfold Nest_run. induction ops as [|op rest IH]; simpl; intros t Hv Ht; [exact Ht|].
  apply andb_true_iff in Hv. destruct Hv as [Hop Hrest].
  apply IH; [exact Hrest|].
  destruct op; simpl in *.
  - now apply Nest_create_rolesOk.
  - now apply Nest_update_rolesOk.
  - now apply Nest_remove_rolesOk.
Qed.

Lemma Express_set_role u data : Express.role (Express.set u data) = Express.role u.
Proof. reflexivity. Qed.

Lemma Express_createUser_rolesOk env data t :
  Express_rolesOk t -> Express_rolesOk (snd (Express.UserService.createUser env data t)).
Proof.
  intros Ht.
  unfold Express.UserService.createUser, Express.UserRepository.findByEmail,
    Express.bind, Express.query.
  destruct (Express.findOneByEmail (Express.c_email data) t); [exact Ht|].
  destruct (Express_repository_create_cases env data t)
    as [[m H] | [u [H [_ [Hr _]]]]]; rewrite H; simpl; [exact Ht|].
  apply Forall_app. split; [exact Ht|].
  constructor; [|constructor]. rewrite Hr. right. now left.
Qed.

Lemma Express_instance_update_rolesOk env u data t :
  In u t -> Express_rolesOk t ->
  Express_rolesOk (snd (Express.instance_update env u data t)).
Proof.
  intros Hin Ht. unfold Express.instance_update.
  destruct (Express.User_eqb u _); [exact Ht|].
  destruct (Express.isEmail _); simpl; [|exact Ht].
  match goal with |- context [existsb ?q t] => destruct (existsb q t) end;
    simpl; [exact Ht|].
  apply (Forall_replaceRow Express.id); [exact Ht|].
  simpl. unfold Express_rolesOk in Ht. rewrite Forall_forall in Ht. now apply Ht.
Qed.

Lemma Express_updateUser_rolesOk env i data t :
  Express_rolesOk t -> Express_rolesOk (snd (Express.UserService.updateUser env i data t)).
Proof.
  intros Ht.
  assert (Hrepo : Express_rolesOk (snd (Express.UserRepository.update env i data t))).
  { unfold Express.UserRepository.update, Express.tryCatch, Express.bind.
    destruct (Express_findById_cases i t)
      as [(key & u & _ & Hu & H) | [(key & _ & _ & H) | [_ H]]]; rewrite H.
    - destruct (Express_findByPk_Some _ _ _ Hu) as [Hin _].
      pose proof (Express_instance_update_rolesOk env u data t Hin Ht) as Hi.
      destruct (Express.instance_update env u data t) as [[a|e] t']; simpl in *;
        [exact Hi|].
      destruct (Express.UserRepository.isNotFoundError e); [exact Hi|].
      destruct (Express.UserRepository.isUniqueConstraintError e); exact Hi.
    - simpl. exact Ht.
    - simpl. exact Ht. }
  unfold Express.UserService.updateUser. unfold Express.bind at 1.
  destruct (Js.truthyStr (Express.u_email data)).
  - unfold Express.bind at 1. unfold Express.UserRepository.findByEmail, Express.query.
    destruct (Express.findOneByEmail _ t) as [other|]; simpl; [|exact Hrepo].
    destruct (negb (String.eqb (Express.id other) i)); simpl; [exact Ht | exact Hrepo].
  - simpl. exact Hrepo.
Qed.

Lemma Express_deleteUser_rolesOk env i t :
  Express_rolesOk t -> Express_rolesOk (snd (Express.UserService.deleteUser env i t)).
Proof.
  intros Ht. unfold Express.UserService.deleteUser, Express.UserRepository.delete,
    Express.bind.
  destruct (Express_findById_cases i t)
    as [(key & u & _ & _ & H) | [(key & _ & _ & H) | [_ H]]]; rewrite H; try exact Ht.
  unfold Express.instance_destroy. simpl.
  apply Forall_map_same; [|exact Ht].
  intros v Hv. destruct (String.eqb (Express.id v) (Express.id u)); assumption.
Qed.

Lemma Express_run_rolesOk ops : forall t,
  Express_rolesOk t -> Express_rolesOk (Express_run ops t).
Proof.
  unfold Express_run. induction ops as [|op rest IH]; simpl; intros t Ht; [exact Ht|].
  apply IH. destruct op; simpl.
  - now apply Express_createUser_rolesOk.
  - now apply Express_updateUser_rolesOk.
  - now apply Express_deleteUser_rolesOk.
Qed.

End Roles.

(** C7. Role enum membership. The NestJS role enum has the three values
    admin, user and manager; whenever the DTOs of the requests passed the
    enum validation of their optional [role], serving creates, updates and
    deletes keeps every stored role among these three; a user created
    without a role gets [user]. The Express model's enum is admin and user,
    both among the three; its requests cannot set a role, keep every stored
    role in the enum, and every user they create has the role [user]. *)
Theorem role_enum_membership {bcrypt : Nest.Bcrypt} {pg : Nest.Postgres}
        {db : Express.Database} :
  Nest.UserRole_values = ["admin"; "user"; "manager"]
  /\ (forall ops t,
         forallb Nest_opValid ops = true ->
         Nest_rolesOk t ->
         forall u, In u (Nest_run ops t) ->
                   In (Nest.role u) ["admin"; "user"; "manager"])
  /\ (forall env dto t u t',
         Nest.c_role dto = None ->
         Nest.create env dto t = (Nest.Ok u, t') ->
         Nest.role u = "user" /\ In u t')
  /\ (forall ops t,
         Express_rolesOk t ->
         forall u, In u (Express_run ops t) ->
                   In (Express.role u) ["admin"; "user"]
                   /\ In (Express.role u) ["admin"; "user"; "manager"])
  /\ (forall env data t u t',
         Express.UserService.createUser env data t = (Express.Ok u, t') ->
         Express.role u = "user" /\ In u t').
Proof.
  split; [reflexivity|]. split; [|split; [|split]].
  - intros ops t Hv Ht u Hin.
    pose proof (Nest_run_rolesOk ops t Hv Ht) as H.
    unfold Nest_rolesOk in H. rewrite Forall_forall in H. exact (H u Hin).
  - intros env dto t u t' Hrole Hc.
    destruct (Nest_create_cases env dto t) as [[_ H] | [[_ H] | [_ [_ H]]]];
      rewrite H in Hc; try discriminate.
    injection Hc as <- <-. split.
    + unfold Nest.newUser. simpl. now rewrite Hrole.
    + apply in_or_app. right. now left.
  - intros ops t Ht u Hin.
    pose proof (Express_run_rolesOk ops t Ht) as H.
    unfold Express_rolesOk in H. rewrite Forall_forall in H.
    specialize (H u Hin). split; [exact H|].
    unfold Express.role_values in H. simpl in *. tauto.
  - intros env data t u t' Hc.
    unfold Express.UserService.createUser, Express.UserRepository.findByEmail,
      Express.bind, Express.query in Hc.
    destruct (Express.findOneByEmail (Express.c_email data) t); [discriminate|].
    destruct (Express_repository_create_cases env data t)
      as [[m H] | [w [H [_ [Hr _]]]]]; rewrite H in Hc; [discriminate|].
    injection Hc as <- <-. split; [exact Hr|].
    apply in_or_app. right. now left.
Qed.

(** Registering Ann on an empty table, then promoting her to manager. *)
Example roles_after_two_requests :
  map Nest.role
      (Nest_run (bcrypt := sampleBcrypt) (pg := samplePostgres)
         [NestCreate env60 annDto;
          NestUpdate (Nest.mkEnv 70 72 71 otherId 73) newId
                     (Nest.mkUpdate None None None None (Some "manager") None)]
         [])
  = ["manager"].
Proof. reflexivity. Qed.

(** ** Soft delete *)

(** C8, as amended. Delete is a soft delete. The id of the request is a
    text that the database reads as a uuid. For a user the lookup by that
    uuid finds, the delete keeps every row of the table in place and
    rewrites only the rows with that id (one, under the primary key): such
    a row gets its soft-delete marker [deletedAt] set and, as with every
    write through the ORM, its [updatedAt] refreshed; all its other fields
    stay as they were, and every other row is unchanged. Under TypeORM both
    columns get the time of the one UPDATE statement and [version] is
    incremented; under Sequelize [deletedAt] is the clock when [destroy()]
    is called and [updatedAt] the clock when it saves, two readings.
    Deleting a uuid the lookup does not find raises a 404 and leaves the
    table unchanged. Deleting with a text that is no uuid raises no 404:
    the database refuses the comparison, the table is unchanged and the
    answer is 500. Both templates. *)
Theorem soft_delete {pg : Nest.Postgres} {db : Express.Database} :
  (forall env i key t user,
      Nest.uuid_in i = Some key ->
      Nest.findOneById key t = Some user ->
      exists t',
        Nest.remove env i t = (Nest.Ok tt, t')
        /\ List.length t' = List.length t
        /\ forall n v, nth_error t n = Some v ->
             exists v', nth_error t' n = Some v'
               /\ (Nest.id v <> key -> v' = v)
               /\ (Nest.id v = key ->
                   Nest.deletedAt v' = Some (Nest.now env)
                   /\ Nest.updatedAt v' = Nest.now env
                   /\ Nest.version v' = Nest.version v + 1
                   /\ Nest_sameData v' v))
  /\ (forall env i key t,
         Nest.uuid_in i = Some key ->
         Nest.findOneById key t = None ->
         Nest_raises 404 (fst (Nest.remove env i t))
         /\ snd (Nest.remove env i t) = t)
  /\ (forall env i t debug,
         Nest.uuid_in i = None ->
         Nest.remove env i t = (Nest.Throw (Nest.invalidUuid i), t)
         /\ ~ Nest_raises 404 (fst (Nest.remove env i t))
         /\ Nest_answerStatus (Nest.catch debug (Nest.invalidUuid i)) = Some 500)
  /\ (forall env i key t user,
         Express.uuid_in i = Some key ->
         Express.findByPk key t = Some user ->
         exists t',
           Express.UserService.deleteUser env i t = (Express.Ok tt, t')
           /\ List.length t' = List.length t
           /\ forall n v, nth_error t n = Some v ->
                exists v', nth_error t' n = Some v'
                  /\ (Express.id v <> key -> v' = v)
                  /\ (Express.id v = key ->
                      Express.deletedAt v' = Some (Express.now env)
                      /\ Express.updatedAt v' = Express.later env
                      /\ Express_sameData v' v))
  /\ (forall env i key t,
         Express.uuid_in i = Some key ->
         Express.findByPk key t = None ->
         Express_raises 404 (fst (Express.UserService.deleteUser env i t))
         /\ snd (Express.UserService.deleteUser env i t) = t)
  /\ (forall env i t development,
         Express.uuid_in i = None ->
         Express.UserService.deleteUser env i t = (Express.Throw (Express.invalidUuid i), t)
         /\ ~ Express_raises 404 (fst (Express.UserService.deleteUser env i t))
         /\ Express_answerStatus
              (Express.errorHandler env development (Express.invalidUuid i)) = Some 500).
Proof.
  split; [|split; [|split; [|split; [|split]]]].
  - intros env i key t user Hkey Hfind.
    unfold Nest.remove, Nest.bind.
    destruct (Nest_findOne_cases i t) as [(k & u & Hk & Hu & H) | [(k & Hk & Hu & H) | [Hk H]]];
      try congruence.
    rewrite H. assert (k = key) by congruence. subst k.
    rewrite Hu in Hfind. injection Hfind as ->.
    destruct (Nest_findOneById_Some _ _ _ Hu) as [_ [_ Hid]].
    unfold Nest.exec, Nest.softRemove. cbn [Nest.loaded Nest.id]. rewrite Hid.
    eexists. split; [reflexivity|]. split; [apply length_map|].
    intros n v Hn. rewrite nth_error_map, Hn. simpl.
    eexists. split; [reflexivity|]. split.
    + intros Hne. apply String.eqb_neq in Hne. now rewrite Hne.
    + intros He. apply String.eqb_eq in He. rewrite He.
      unfold Nest_sameData. simpl. repeat split.
  - intros env i key t Hkey Hfind.
    unfold Nest.remove, Nest.bind.
    destruct (Nest_findOne_cases i t) as [(k & u & Hk & Hu & H) | [(k & Hk & Hu & H) | [Hk H]]];
      try congruence.
    rewrite H. simpl. split; [|reflexivity]. eexists. split; reflexivity.
  - intros env i t debug Hkey.
    assert (H : Nest.remove env i t = (Nest.Throw (Nest.invalidUuid i), t)).
    { unfold Nest.remove, Nest.bind.
      destruct (Nest_findOne_cases i t)
        as [(k & u & Hk & Hu & H) | [(k & Hk & Hu & H) | [Hk H]]]; try congruence.
      now rewrite H. }
    rewrite H. split; [reflexivity|]. split.
    + intros [e [He Hs]]. injection He as <-. discriminate.
    + destruct debug; reflexivity.
  - intros env i key t user Hkey Hfind.
    unfold Express.UserService.deleteUser, Express.UserRepository.delete, Express.bind.
    destruct (Express_findById_cases i t)
      as [(k & u & Hk & Hu & H) | [(k & Hk & Hu & H) | [Hk H]]]; try congruence.
    rewrite H. assert (k = key) by congruence. subst k.
    rewrite Hu in Hfind. injection Hfind as ->.
    destruct (Express_findByPk_Some _ _ _ Hu) as [_ [_ Hid]].
    unfold Express.instance_destroy. rewrite Hid.
    eexists. split; [reflexivity|]. split; [apply length_map|].
    intros n v Hn. rewrite nth_error_map, Hn. simpl.
    eexists. split; [reflexivity|]. split.
    + intros Hne. apply String.eqb_neq in Hne. now rewrite Hne.
    + intros He. apply String.eqb_eq in He. rewrite He.
      unfold Express_sameData. simpl. repeat split.
  - intros env i key t Hkey Hfind.
    unfold Express.UserService.deleteUser, Express.UserRepository.delete, Express.bind.
    destruct (Express_findById_cases i t)
      as [(k & u & Hk & Hu & H) | [(k & Hk & Hu & H) | [Hk H]]]; try congruence.
    rewrite H. simpl. split; [|reflexivity]. eexists. split; reflexivity.
  - intros env i t development Hkey.
    assert (H : Express.UserService.deleteUser env i t
                = (Express.Throw (Express.invalidUuid i), t)).
    { unfold Express.UserService.deleteUser, Express.UserRepository.delete, Express.bind.
      destruct (Express_findById_cases i t)
        as [(k & u & Hk & Hu & H) | [(k & Hk & Hu & H) | [Hk H]]]; try congruence.
      now rewrite H. }
    rewrite H. split; [reflexivity|]. split.
    + intros [e [He Hs]]. injection He as <-. discriminate.
    + destruct development; reflexivity.
Qed.

(** C8 as stated fails. Deleting Ann at time 50 sets her [deletedAt], but
    her [updatedAt] moves from 10 to 50 and her [version] from 1 to 2 as
    well; the row with only the marker set is not what is stored. In the
    Express template, with the clock at 60 when [destroy()] is called and
    at 61 when it saves, [deletedAt] is 60 and [updatedAt] 61. And the id
    [42] names no stored user, yet deleting it raises no 404: it is no
    uuid, and the answer is 500 in both templates. *)
Lemma soft_delete_counterexample :
  Nest.remove (pg := samplePostgres) (Nest.mkEnv 50 50 50 otherId 50) annId [ann; bob]
  = (Nest.Ok tt, [annDeleted; bob])
  /\ Nest.deletedAt annDeleted = Some 50
  /\ (Nest.updatedAt ann = 10 /\ Nest.updatedAt annDeleted = 50)
  /\ (Nest.version ann = 1 /\ Nest.version annDeleted = 2)
  /\ (annDeleted
      = Nest.mkUser annId 10 10 (Some 50) 1 "Ann" "Lee" "ann@example.com"
                    "$2b$10$secret" "user" true None -> False)
  /\ Express.UserService.deleteUser (db := sampleDatabase) xenv60 annId [xann]
     = (Express.Ok tt,
        [Express.mkUser annId 10 61 (Some 60) "ann@example.com" "secret" "Ann" "Lee"
                        true "user"])
  /\ Nest.remove (pg := samplePostgres) env60 "42" [ann; bob]
     = (Nest.Throw (Nest.invalidUuid "42"), [ann; bob])
  /\ Nest_answerStatus (Nest.catch false (Nest.invalidUuid "42")) = Some 500
  /\ Express.UserService.deleteUser (db := sampleDatabase) xenv60 "42" [xann]
     = (Express.Throw (Express.invalidUuid "42"), [xann])
  /\ Express_answerStatus (Express.errorHandler xenv60 false (Express.invalidUuid "42"))
     = Some 500.
Proof.
  repeat split. discriminate.
Qed.

(** ** The password never leaves *)

Lemma UserResponseDto_no_password {Password} {pp : Nest.PasswordProperty Password}
      (u : Nest.UserOf Password) :
  Js.mentions "password" (Nest.UserResponseDto u) = false.
Proof.
  destruct u as [i c up d v f l e p r a ll]. destruct ll; reflexivity.
Qed.

Lemma UserResponseDto_list_no_password {Password} {pp : Nest.PasswordProperty Password}
      (rows : list (Nest.UserOf Password)) :
  Js.mentions "password" (Js.Arr (map Nest.UserResponseDto rows)) = false.
Proof.
  induction rows as [|u rest IH]; [reflexivity|].
  simpl map.
  change (Js.mentions "password" (Js.Arr (Nest.UserResponseDto u :: map Nest.UserResponseDto rest)))
    with (Js.mentions "password" (Nest.UserResponseDto u)
          || Js.mentions "password" (Js.Arr (map Nest.UserResponseDto rest)))%bool.
  now rewrite UserResponseDto_no_password, IH.
Qed.

Lemma toJSON_no_password u : Js.mentions "password" (Express.toJSON u) = false.
Proof.
  destruct u as [i c up d e p f l a r]. destruct d; reflexivity.
Qed.

Lemma toJSON_list_no_password (rows : list Express.User) :
  Js.mentions "password" (Js.Arr (map Express.toJSON rows)) = false.
Proof.
  induction rows as [|u rest IH]; [reflexivity|].
  simpl map.
  change (Js.mentions "password" (Js.Arr (Express.toJSON u :: map Express.toJSON rest)))
    with (Js.mentions "password" (Express.toJSON u)
          || Js.mentions "password" (Js.Arr (map Express.toJSON rest)))%bool.
  now rewrite toJSON_no_password, IH.
Qed.

Lemma mentions_field k name v rest :
  Js.mentions k (Js.Obj ((name, v) :: rest))
  = (String.eqb name k || Js.mentions k v || Js.mentions k (Js.Obj rest))%bool.
Proof. reflexivity. Qed.

Lemma mentions_jsNumber k n : Js.mentions k (Express.jsNumber n) = false.
Proof. destruct n; reflexivity. Qed.

Section Password.
Context {bcrypt : Nest.Bcrypt} {jwt : Nest.JwtService} {pg : Nest.Postgres}
        {db : Express.Database}.
Variable expirationTime : option string.

Lemma Nest_userPayload_shape p :
  Nest_userPayload expirationTime p ->
  (exists u : Nest.User, p = Nest.UserResponseDto u)
  \/ (exists u : Nest.Entity, p = Nest.UserResponseDto u)
  \/ (exists (rows : list Nest.Entity) meta,
         p = Js.Obj [("data", Js.Arr (map Nest.UserResponseDto rows));
                     ("pagination", Nest.PaginationMeta_json meta)])
  \/ (exists env u, p = Nest.AuthResponseDto_json
                          (Nest.generateAuthResponse expirationTime env u)).
Proof.
  intros Hp. destruct Hp as [env dto t t' p H | dto t t' p H | u | i t t' p H
                            | env i dto t t' p H | env dto t t' p H | env dto t t' p H].
  - left. unfold Nest.UsersController.create, Nest.bind, Nest.ret in H.
    destruct (Nest.create env dto t) as [[u|e] t1]; [|discriminate].
    injection H as <- _. eauto.
  - right. right. left. unfold Nest.UsersController.findAll, Nest.bind, Nest.ret in H.
    destruct (Nest.findAll dto t) as [[[rows meta]|e] t1]; [|discriminate].
    injection H as <- _. eauto.
  - right. left. eauto.
  - right. left. unfold Nest.UsersController.findOne, Nest.bind, Nest.ret in H.
    destruct (Nest.findOne i t) as [[u|e] t1]; [|discriminate].
    injection H as <- _. eauto.
  - right. left. unfold Nest.UsersController.update, Nest.bind at 1, Nest.ret in H.
    destruct (Nest.update env i dto t) as [[u|e] t1]; [|discriminate].
    injection H as <- _. eauto.
  - right. right. right.
    unfold Nest.AuthController.register, Nest.bind at 1, Nest.ret in H.
    destruct (Nest.register expirationTime env dto t) as [[a|e] t1] eqn:Hr;
      [|discriminate].
    injection H as <- _.
    unfold Nest.register, Nest.bind, Nest.updateLastLogin, Nest.exec, Nest.ret in Hr.
    destruct (Nest.create env _ t) as [[u|e] t2]; [|discriminate].
    injection Hr as <- _. eauto.
  - right. right. right.
    unfold Nest.AuthController.login, Nest.bind at 1, Nest.ret in H.
    destruct (login_cases expirationTime env dto t)
      as [[_ Hl] | [(u & _ & _ & Hl) | [(u & _ & _ & _ & Hl) | (u & _ & _ & _ & Hl)]]];
      rewrite Hl in H; try discriminate.
    injection H as <- _. eauto.
Qed.

Lemma Nest_userPayload_no_password p :
  Nest_userPayload expirationTime p ->
  Js.mentions "password" p = false /\ Js.hasOwnProperty p "message" = false.
Proof.
  intros Hp.
  destruct (Nest_userPayload_shape p Hp)
    as [[u ->] | [[u ->] | [(rows & meta & ->) | (env & u & ->)]]].
  - split; [apply UserResponseDto_no_password | reflexivity].
  - split; [apply UserResponseDto_no_password | reflexivity].
  - split; [|reflexivity].
    rewrite mentions_field, UserResponseDto_list_no_password. reflexivity.
  - split; [|reflexivity].
    unfold Nest.AuthResponseDto_json, Nest.generateAuthResponse. simpl Nest.user.
    rewrite !mentions_field, UserResponseDto_no_password. reflexivity.
Qed.

Lemma Express_userResponse_no_password r :
  Express_userResponse r -> bodyMentions "password" (Express.body r) = false.
Proof.
  intros Hr. destruct Hr as [env dto t t' r H | env q t t' r H | env i t t' r H
                            | env i dto t t' r H].
  - unfold Express.UserController.createUser in H. rewrite Express_bind_Ok in H.
    destruct (Express.UserService.createUser env dto t) as [[u|e] t1]; [|discriminate].
    injection H as <- _. unfold bodyMentions. cbn [Express.body].
    rewrite !mentions_field, toJSON_no_password. reflexivity.
  - unfold Express.UserController.getAllUsers in H. rewrite Express_bind_Ok in H.
    match type of H with
    | context [Express.UserService.getAllUsers ?a ?b ?c t] =>
        destruct (Express.UserService.getAllUsers a b c t) as [[res|e] t1]
    end; [|discriminate].
    injection H as <- _. unfold bodyMentions. cbn [Express.body].
    rewrite !mentions_field, toJSON_list_no_password, !mentions_jsNumber.
    reflexivity.
  - unfold Express.UserController.getUserById in H. rewrite Express_bind_Ok in H.
    destruct (Express.UserService.getUserById i t) as [[u|e] t1]; [|discriminate].
    injection H as <- _. unfold bodyMentions. cbn [Express.body].
    rewrite !mentions_field, toJSON_no_password. reflexivity.
  - unfold Express.UserController.updateUser in H. rewrite Express_bind_Ok in H.
    destruct (Express.UserService.updateUser env i dto t) as [[u|e] t1]; [|discriminate].
    injection H as <- _. unfold bodyMentions. cbn [Express.body].
    rewrite !mentions_field, toJSON_no_password. reflexivity.
Qed.

End Password.

(** C9. In every user object serialized into an API response body (a
    single user, an element of a list, the user inside a register or login
    response) there is no [password] field, at any depth of the body,
    although a password is stored with every user. That holds for an entity
    that has the property and for one loaded without it, for what the
    handlers return, for what the interceptor makes of it and for what is
    sent. In the NestJS template the stored value is the bcrypt hash of the
    submitted password. In the Express template [createUser] stores the
    submitted password as it was received: the hashing its comments call
    for is not done. *)
Theorem password_never_serialized
        {bcrypt : Nest.Bcrypt} {jwt : Nest.JwtService} {pg : Nest.Postgres}
        {db : Express.Database}
        (expirationTime : option string) (cleanResource : string -> string) :
  (forall u : Nest.User,
      In "password" (Js.keys (Nest.entityPlain u))
      /\ Js.mentions "password" (Nest.UserResponseDto u) = false)
  /\ (forall u : Nest.Entity,
         Js.mentions "password" (Nest.UserResponseDto u) = false)
  /\ (forall env dto t u t',
         Nest.create env dto t = (Nest.Ok u, t') ->
         In u t' /\ Nest.password u = Nest.hash (Nest.c_password dto))
  /\ (forall p,
         Nest_userPayload expirationTime p ->
         Js.mentions "password" p = false
         /\ forall request,
             Js.mentions "password" (Nest.intercept cleanResource request p) = false
             /\ forall httpCode response,
                 Nest.reply cleanResource httpCode request p = Nest.Ok response ->
                 bodyMentions "password" (Nest.body response) = false)
  /\ (forall u, In "password" (Js.keys (Express.dataValues u))
                /\ Js.mentions "password" (Express.toJSON u) = false)
  /\ (forall env data t u t',
         Express.UserService.createUser env data t = (Express.Ok u, t') ->
         In u t' /\ Express.password u = Express.c_password data)
  /\ (forall r, Express_userResponse r ->
                bodyMentions "password" (Express.body r) = false).
Proof.
  split; [|split; [|split; [|split; [|split; [|split]]]]].
  - intros u. split; [|apply UserResponseDto_no_password].
    simpl. do 11 right. now left.
  - intros u. apply UserResponseDto_no_password.
  - intros env dto t u t' Hc.
    destruct (Nest_create_cases env dto t) as [[_ H] | [[_ H] | [_ [_ H]]]];
      rewrite H in Hc; try discriminate.
    injection Hc as <- <-. split; [|reflexivity].
    apply in_or_app. right. now left.
  - intros p Hp.
    destruct (Nest_userPayload_no_password expirationTime p Hp) as [Hm Hown].
    split; [exact Hm|]. intros request.
    assert (Hi : Js.mentions "password" (Nest.intercept cleanResource request p) = false).
    { rewrite (intercept_wraps cleanResource request p Hown).
      rewrite !mentions_field, Hm. reflexivity. }
    split; [exact Hi|]. intros httpCode response.
    unfold Nest.reply, Nest.json.
    destruct (Js.validStatus httpCode); [|discriminate].
    intros Hsent. injection Hsent as <-. cbn [Nest.body].
    destruct (Js.bodyless httpCode); [reflexivity | exact Hi].
  - intros u. split; [|apply toJSON_no_password].
    simpl. do 5 right. now left.
  - intros env data t u t' Hc.
    unfold Express.UserService.createUser, Express.UserRepository.findByEmail,
      Express.bind, Express.query in Hc.
    destruct (Express.findOneByEmail (Express.c_email data) t); [discriminate|].
    unfold Express.UserRepository.create, Express.tryCatch, Express.Model_create in Hc.
    destruct (Express.isEmail (Express.c_email data)); simpl in Hc.
    + match type of Hc with
      | context [existsb ?q t] => destruct (existsb q t)
      end; simpl in Hc; [discriminate|].
      injection Hc as <- <-. split; [|reflexivity].
      apply in_or_app. right. now left.
    + discriminate.
  - apply Express_userResponse_no_password.
Qed.

(** Creating Cy in the Express template: the row holds the password that
    was submitted, and the serialized user has no [password] field. *)
Example express_stores_submitted_password :
  exists u,
    Express.UserService.createUser (db := sampleDatabase) xenv60
      (Express.mkCreate "cy@example.com" "correct horse" "Cy" "Young") [xann]
    = (Express.Ok u, [xann; u])
    /\ Express.password u = "correct horse"
    /\ Js.hasOwnProperty (Express.toJSON u) "password" = false.
Proof.
  eexists. repeat split.
Qed.

(** ** Validation of the list parameters *)

(** C10. The Express user-list operation rejects every request whose page
    is less than 1, or whose page size is less than 1 or greater than 100,
    with a 400 error, and does so before any repository call: the outcome is
    the same exception whatever the table holds, and the table is left as
    it is; through the controller and the global handler the response has
    status 400. The NestJS query DTO accepts an integer page and limit
    exactly when each is at least 1, so no limit is too large for it. *)
Theorem list_parameters_validated {db : Express.Database} :
  (forall p ps search,
      p < 1 \/ ps < 1 \/ ps > 100 ->
      exists e,
        Express_carriedStatus e = 400
        /\ forall t,
            Express.UserService.getAllUsers (Express.Int p) (Express.Int ps) search t
            = (Express.Throw e, t))
  /\ (forall env development q p ps,
         Express.parseInt (if Js.truthyStr (Express.UserController.q_page q)
                           then Express.orElse (Express.UserController.q_page q) ""
                           else "1") = Express.Int p ->
         Express.parseInt (if Js.truthyStr (Express.UserController.q_pageSize q)
                           then Express.orElse (Express.UserController.q_pageSize q) ""
                           else "10") = Express.Int ps ->
         p < 1 \/ ps < 1 \/ ps > 100 ->
         forall t,
           Express_answerStatus
             (fst (Express.serve env development
                     (Express.UserController.getAllUsers env q) t)) = Some 400
           /\ snd (Express.serve env development
                     (Express.UserController.getAllUsers env q) t) = t)
  /\ (forall p l,
         QueryParam.validatePaging (QueryParam.Int p) (QueryParam.Int l) = true
         <-> 1 <= p /\ 1 <= l)
  /\ (forall l, 1 <= l ->
                QueryParam.validatePaging QueryParam.Absent (QueryParam.Int l) = true).
Proof.
  assert (Hservice : forall p ps search,
             p < 1 \/ ps < 1 \/ ps > 100 ->
             exists e,
               Express_carriedStatus e = 400
               /\ Express_appStatus e = 400
               /\ forall t,
                   Express.UserService.getAllUsers (Express.Int p) (Express.Int ps) search t
                   = (Express.Throw e, t)).
  { intros p ps search H. unfold Express.UserService.getAllUsers, Express.lt.
    destruct (p <? 1) eqn:Hp.
    - eexists. split; [|split; [|intros t; reflexivity]]; reflexivity.
    - apply Z.ltb_ge in Hp.
      assert (Hps : ((ps <? 1) || (100 <? ps))%bool = true).
      { apply orb_true_iff. destruct H as [H | [H | H]]; [lia | left | right];
          apply Z.ltb_lt; lia. }
      rewrite Hps. eexists. split; [|split; [|intros t; reflexivity]]; reflexivity. }
  split; [|split; [|split]].
  - intros p ps search H.
    destruct (Hservice p ps search H) as (e & He & _ & Hall). eauto.
  - intros env development q p ps Hpage Hsize H t.
    destruct (Hservice p ps (Express.UserController.q_search q) H)
      as (e & He & Happ & Hall).
    unfold Express.serve, Express.UserController.getAllUsers.
    rewrite Hpage, Hsize, Express_bind_Ok, (Hall t). simpl.
    destruct (Express_errorHandler_response env development e)
      as (message & code & details & Hr).
    rewrite Hr, Happ. split; reflexivity.
  - intros p l. unfold QueryParam.validatePaging, QueryParam.isIntMin1.
    rewrite andb_true_iff, !Z.leb_le. tauto.
  - intros l Hl. unfold QueryParam.validatePaging, QueryParam.isIntMin1.
    simpl. now apply Z.leb_le.
Qed.

(** [GET /api/users?page=0] and [?pageSize=101] against a table with Ann. *)
Lemma list_parameters_witness :
  Express.serve xenv60 false
    (Express.UserController.getAllUsers (db := sampleDatabase) xenv60
       (Express.UserController.mkQuery (Some "0") None None)) [xann]
  = (Express.errorResponse xenv60 "Page must be greater than 0" 400
       "INTERNAL_SERVER_ERROR" Js.Undefined, [xann])
  /\ Express_answerStatus
       (fst (Express.serve xenv60 false
               (Express.UserController.getAllUsers (db := sampleDatabase) xenv60
                  (Express.UserController.mkQuery None (Some "101") None)) [xann]))
     = Some 400
  /\ QueryParam.validatePaging QueryParam.Absent (QueryParam.Int 1000000) = true.
Proof.
  pose proof (@list_parameters_validated sampleDatabase) as [_ [Hc [_ Hn]]].
  split; [reflexivity|]. split.
  - exact (proj1 (Hc xenv60 false
                    (Express.UserController.mkQuery None (Some "101") None)
                    1 101 eq_refl eq_refl ltac:(lia) [xann])).
  - apply Hn. lia.
Defined.

(** * Further properties of the code *)

(** ** The exception filter *)

Lemma friendly_server_message status :
  500 <= status ->
  Nest.getUserFriendlyMessage status = "Something went wrong. Please try again later".
Proof.
  intros H. unfold Nest.getUserFriendlyMessage.
  assert (Hlt : (status <? 500) = false) by (apply Z.ltb_ge; lia).
  now rewrite Hlt, andb_false_r.
Qed.

Lemma bodyless_server status : 500 <= status -> Js.bodyless status = false.
Proof.
  intros H. unfold Js.bodyless.
  assert (H1 : (status <=? 199) = false) by (apply Z.leb_gt; lia).
  assert (H2 : (status =? 204) = false) by (apply Z.eqb_neq; lia).
  assert (H3 : (status =? 304) = false) by (apply Z.eqb_neq; lia).
  now rewrite H1, H2, H3, andb_false_r.
Qed.

(** X1. Outside debug mode the filter hides every server error: whatever
    exception carries a status of 500 or more, or none at all, the body is
    exactly [{ success: false, message: "Something went wrong. Please try
    again later" }], without [errors], and the status is the exception's
    own, as long as that is a status Node sends (at most 999); with a
    larger one, setting the status throws. The exceptions the filter does
    not get that far with are those whose response is [null] or whose
    message array holds a [null]: it throws on reading a property of
    [null]. *)
Theorem server_errors_hidden (e : Nest.Exception) :
  500 <= Nest_carriedStatus e ->
  (Nest_classifyThrows e = None ->
   Nest.catch false e
   = if Nest_carriedStatus e <=? 999
     then Nest.Ok (Nest.mkResponse (Nest_carriedStatus e)
                     (Some (Js.Obj [("success", Js.Bool false);
                                    ("message",
                                     Js.Str "Something went wrong. Please try again later")])))
     else Nest.Throw (Nest.invalidStatusCode (Nest_carriedStatus e)))
  /\ (forall err, Nest_classifyThrows e = Some err ->
                  Nest.catch false e = Nest.Throw err).
Proof.
  intros H. split; [|apply catch_throws].
  intros Hnone.
  destruct (classify_cases false e) as [[_ [r Hr]] | (err & Hn & _)]; [|congruence].
  pose proof (classify_status false e r Hr) as Hs.
  unfold Nest.catch. rewrite Hr. destruct r as [[status message] errors].
  cbn [fst] in Hs. subst status.
  assert (Hge : (500 <=? Nest_carriedStatus e) = true) by (apply Z.leb_le; exact H).
  assert (Hlo : (100 <=? Nest_carriedStatus e) = true) by (apply Z.leb_le; lia).
  rewrite Hge. cbn [negb andb Js.truthy app]. unfold Nest.json, Js.validStatus.
  rewrite Hlo, (bodyless_server _ H), (friendly_server_message _ H). reflexivity.
Qed.

(** A failed query and a [502] from a service, outside debug mode. *)
Lemma server_errors_hidden_witness :
  Nest.catch false (Nest.QueryFailedError (Some "Key (email) already exists") "duplicate key")
  = Nest.Ok (Nest.mkResponse 500
               (Some (Js.Obj [("success", Js.Bool false);
                              ("message",
                               Js.Str "Something went wrong. Please try again later")])))
  /\ Nest.catch false (Nest.httpError 502 "Bad Gateway" "upstream at 10.0.0.7 is down")
     = Nest.Ok (Nest.mkResponse 502
                  (Some (Js.Obj [("success", Js.Bool false);
                                 ("message",
                                  Js.Str "Something went wrong. Please try again later")]))).
Proof.
  split.
  - apply (server_errors_hidden (Nest.QueryFailedError _ _)); [simpl; lia | reflexivity].
  - apply (server_errors_hidden (Nest.httpError 502 "Bad Gateway" _));
      [simpl; lia | reflexivity].
Defined.

Lemma formatValidationErrors_each msgs : forall formatted,
  Nest.formatValidationErrors msgs = Nest.Ok formatted ->
  Forall2 (fun m f => Nest.formatValidationError m = Nest.Ok f) msgs formatted.
Proof.
  induction msgs as [|m rest IH]; cbn [Nest.formatValidationErrors]; intros formatted H.
  - injection H as <-. constructor.
  - destruct (Nest.formatValidationError m) as [f|e] eqn:Hm; [|discriminate].
    destruct (Nest.formatValidationErrors rest) as [fs|e]; [|discriminate].
    injection H as <-. constructor; [exact Hm | now apply IH].
Qed.

(** X2. An exception below 500 whose message is an array (the shape of a
    class-validator failure) without a [null] in it is answered, in both
    modes, with the status-based friendly message and an [errors] array
    that has one entry per validation message, in order, each what the
    formatting of that message gives; even an empty array is sent as
    [errors: []]. That body goes to [json] with the exception's status,
    which sends it unless the status is one Node refuses (below 100) or
    one without a body. When the array holds a [null], the filter answers
    nothing: it throws the [TypeError] of reading [null.constraints]. *)
Theorem validation_messages_formatted (debug : bool) (status : Z)
        (fields : list (string * Js.value)) (msgs : list Js.value) :
  Js.get (Js.Obj fields) "message" = Js.Arr msgs ->
  status < 500 ->
  (existsb isNull msgs = false ->
   exists formatted,
     Nest.formatValidationErrors msgs = Nest.Ok formatted
     /\ Forall2 (fun m f => Nest.formatValidationError m = Nest.Ok f) msgs formatted
     /\ List.length formatted = List.length msgs
     /\ Nest.catch debug (Nest.HttpException status (Nest.RObject fields))
        = Nest.json status
            (Js.Obj [("success", Js.Bool false);
                     ("message", Js.Str (Nest.getUserFriendlyMessage status));
                     ("errors", Js.Arr formatted)]))
  /\ (existsb isNull msgs = true ->
      Nest.catch debug (Nest.HttpException status (Nest.RObject fields))
      = Nest.Throw (Nest.nullRead "constraints")).
Proof.
  intros Hm Hs.
  assert (Hge : (500 <=? status) = false) by (apply Z.leb_gt; exact Hs).
  destruct (formatValidationErrors_cases msgs) as [[Hn [l Hl]] | [Hn Hl]]; rewrite Hn;
    split; try discriminate; intros _.
  - exists l. split; [exact Hl|].
    pose proof (formatValidationErrors_each msgs l Hl) as Heach.
    split; [exact Heach|]. split.
    + symmetry. exact (Forall2_length Heach).
    + unfold Nest.catch, Nest.classify. rewrite Hm, Hl, Hge. reflexivity.
  - unfold Nest.catch, Nest.classify. now rewrite Hm, Hl.
Qed.

(** A 400 with one class-validator error object and one plain message. *)
Lemma validation_messages_formatted_witness :
  Nest.catch false
    (Nest.HttpException 400
       (Nest.RObject
          [("message",
            Js.Arr [Js.Obj [("property", Js.Str "email");
                            ("constraints", Js.Obj [("isEmail", Js.Str "email must be an email")])];
                    Js.Str "password must be longer than or equal to 6 characters"]);
           ("error", Js.Str "Bad Request")]))
  = Nest.Ok
      (Nest.mkResponse 400
         (Some
            (Js.Obj [("success", Js.Bool false);
                     ("message", Js.Str "The request data is invalid");
                     ("errors",
                      Js.Arr [Js.Obj [("field", Js.Str "email");
                                      ("errors", Js.Arr [Js.Str "email must be an email"])];
                              Js.Str "password must be longer than or equal to 6 characters"])]))).
Proof.
  destruct (validation_messages_formatted false 400
              [("message",
                Js.Arr [Js.Obj [("property", Js.Str "email");
                                ("constraints",
                                 Js.Obj [("isEmail", Js.Str "email must be an email")])];
                        Js.Str "password must be longer than or equal to 6 characters"]);
               ("error", Js.Str "Bad Request")]
              [Js.Obj [("property", Js.Str "email");
                       ("constraints",
                        Js.Obj [("isEmail", Js.Str "email must be an email")])];
               Js.Str "password must be longer than or equal to 6 characters"]
              eq_refl eq_refl) as [Hok _].
  destruct (Hok eq_refl) as (formatted & Hf & _ & _ & Hcatch).
  injection Hf as <-. exact Hcatch.
Defined.

(** ** The response interceptor *)

(** X3. The interceptor never wraps twice: applied to its own output, for
    any request, it returns that output unchanged. *)
Theorem intercept_idempotent (cleanResource : string -> string)
        (request1 request2 : Nest.Request) (data : Js.value) :
  Nest.intercept cleanResource request2 (Nest.intercept cleanResource request1 data)
  = Nest.intercept cleanResource request1 data.
Proof.
  unfold Nest.intercept.
  destruct (Js.truthy data && Js.hasOwnProperty data "success"
            && Js.hasOwnProperty data "message")%bool eqn:Hc.
  - now rewrite Hc.
  - reflexivity.
Qed.

(** ** The Express bearer and role middleware *)

Lemma append_snoc (a : string) (c : ascii) (b : string) :
  (a ++ String c "") ++ b = a ++ String c b.
Proof. induction a as [|x a IH]; simpl; [reflexivity | now rewrite IH]. Qed.

Lemma append_empty_r (a : string) : a ++ "" = a.
Proof. induction a as [|x a IH]; simpl; [reflexivity | now rewrite IH]. Qed.

Lemma splitOn_without sep s : forall cur,
  occursIn sep s = false -> Express.splitOn sep s cur = [cur ++ s].
Proof.
  induction s as [|c rest IH]; simpl; intros cur H.
  - now rewrite append_empty_r.
  - apply orb_false_iff in H. destruct H as [Hc Hrest].
    rewrite Hc, (IH _ Hrest), append_snoc. reflexivity.
Qed.

Lemma splitOn_nonempty sep s : forall cur, Express.splitOn sep s cur <> [].
Proof.
  induction s as [|c rest IH]; simpl; intros cur; [discriminate|].
  destruct (Ascii.eqb c sep); [discriminate | apply IH].
Qed.

Lemma splitOn_single sep s : forall cur y,
  Express.splitOn sep s cur = [y] -> occursIn sep s = false /\ y = cur ++ s.
Proof.
  induction s as [|c rest IH]; simpl; intros cur y H.
  - injection H as <-. now rewrite append_empty_r.
  - destruct (Ascii.eqb c sep) eqn:Hc.
    + injection H as _ H. now apply splitOn_nonempty in H.
    + destruct (IH _ _ H) as [Hr ->]. simpl. now rewrite append_snoc.
Qed.

Lemma splitOn_first sep a rest : forall cur,
  occursIn sep a = false ->
  Express.splitOn sep (a ++ String sep rest) cur
  = (cur ++ a) :: Express.splitOn sep rest "".
Proof.
  induction a as [|c a IH]; simpl; intros cur H.
  - now rewrite Ascii.eqb_refl, append_empty_r.
  - apply orb_false_iff in H. destruct H as [Hc Ha].
    rewrite Hc, (IH _ Ha), append_snoc. reflexivity.
Qed.

(** Exactly the strings [a sep b] with no separator in [a] or [b] split
    in two. *)
Lemma splitOn_pair sep s : forall cur x y,
  Express.splitOn sep s cur = [x; y] <->
  exists a, occursIn sep a = false /\ occursIn sep y = false
            /\ x = cur ++ a /\ s = a ++ String sep y.
Proof.
  induction s as [|c rest IH]; intros cur x y; simpl.
  - split; [discriminate|].
    intros (a & _ & _ & _ & H). destruct a; discriminate.
  - destruct (Ascii.eqb c sep) eqn:Hc.
    + apply Ascii.eqb_eq in Hc. subst c. split.
      * intros H. injection H as <- H.
        destruct (splitOn_single _ _ _ _ H) as [Hr Hy]. simpl in Hy. subst y.
        exists "". simpl. now rewrite append_empty_r.
      * intros (a & Ha & Hy & -> & Hs). destruct a as [|c a]; simpl in *.
        -- injection Hs as ->. rewrite append_empty_r.
           now rewrite (splitOn_without _ _ "" Hy).
        -- injection Hs as <- _. rewrite Ascii.eqb_refl in Ha. discriminate.
    + rewrite IH. split.
      * intros (a & Ha & Hy & -> & ->). exists (String c a). simpl.
        rewrite Hc, append_snoc. auto.
      * intros (a & Ha & Hy & -> & Hs). destruct a as [|c' a]; simpl in *.
        -- injection Hs as -> _. rewrite Ascii.eqb_refl in Hc. discriminate.
        -- injection Hs as <- ->. apply orb_false_iff in Ha. destruct Ha as [_ Ha].
           exists a. now rewrite append_snoc.
Qed.

(** The headers that split into the scheme [Bearer] and a token. *)
Lemma bearer_header (h token : string) :
  Express.splitOn " " h "" = ["Bearer"; token]
  <-> h = "Bearer " ++ token /\ occursIn " " token = false.
Proof.
  rewrite splitOn_pair. split.
  - intros (a & Ha & Hy & Hx & Hh). simpl in Hx. subst a h. now split.
  - intros [-> Hn]. exists "Bearer". repeat split; auto.
Qed.

Section BearerMiddleware.
Context {jwtService : Express.JWTService}.

Lemma jwtBearer_next (authorization : option string) reqUser :
  Express.jwtBearer authorization = Express.BearerNext reqUser
  <-> exists token,
      authorization = Some ("Bearer " ++ token)
      /\ occursIn " " token = false
      /\ Express.validateUserToken token = Some reqUser.
Proof.
  split.
  - unfold Express.jwtBearer.
    destruct (negb (Js.truthyStr authorization)); [discriminate|].
    destruct authorization as [h|]; unfold Express.orElse.
    + destruct (Express.splitOn " " h "") as [|x [|y [|z l]]] eqn:Hs;
        try discriminate.
      destruct (String.eqb x "Bearer") eqn:Hb; simpl; [|discriminate].
      apply String.eqb_eq in Hb. subst x.
      apply bearer_header in Hs. destruct Hs as [-> Hn].
      destruct (Express.validateUserToken y) as [p|] eqn:Hv; [|discriminate].
      intros H. injection H as <-. exists y. auto.
    + simpl. discriminate.
  - intros (token & -> & Hn & Hv).
    assert (Hs := proj2 (bearer_header _ _) (conj eq_refl Hn)).
    unfold Express.jwtBearer, Express.orElse, Js.truthyStr.
    rewrite Hs, Hv. reflexivity.
Qed.

(** X4. The bearer middleware calls [next()] exactly for an
    [Authorization] header of the form [Bearer <token>], one space and none
    inside the token, whose token the JWT service validates, and then
    [req.user] is the token's payload; every other request is answered
    with 401 and the fixed body
    [{ success: false, message: "Auth Token is missing or invalid" }]. *)
Theorem jwtBearer_decides (authorization : option string) :
  (forall reqUser,
      Express.jwtBearer authorization = Express.BearerNext reqUser
      <-> exists token,
          authorization = Some ("Bearer " ++ token)
          /\ occursIn " " token = false
          /\ Express.validateUserToken token = Some reqUser)
  /\ ((exists reqUser, Express.jwtBearer authorization = Express.BearerNext reqUser)
      \/ Express.jwtBearer authorization
         = Express.BearerRespond
             (Express.mkResponse 401
                (Some (Js.Obj [("success", Js.Bool false);
                               ("message", Js.Str "Auth Token is missing or invalid")])))).
Proof.
  split; [apply jwtBearer_next|].
  unfold Express.jwtBearer.
  destruct (negb (Js.truthyStr authorization)); [now right|].
  destruct (Express.splitOn " " (Express.orElse authorization "") "")
    as [|x [|y [|z l]]]; try (now right).
  destruct (negb (String.eqb x "Bearer")); [now right|].
  destruct (Express.validateUserToken y); [left; eauto | now right].
Qed.

(** The role middleware's own 401 is the bearer middleware's. *)
Lemma roleRequired_unauthorized_iff role authorization lookup :
  Express.roleRequired role authorization lookup = Express.unauthorized
  <-> Express.jwtBearer authorization = Express.bearerUnauthorized.
Proof.
  unfold Express.roleRequired, Express.jwtBearer.
  destruct (negb (Js.truthyStr authorization)); [tauto|].
  destruct (Express.splitOn " " (Express.orElse authorization "") "")
    as [|x [|y [|z l]]]; try tauto.
  destruct (negb (String.eqb x "Bearer")); [tauto|].
  destruct (Express.validateUserToken y) as [p|]; [|tauto].
  split; [|discriminate].
  destruct (lookup (Express.tokenId p)) as [u| |e]; try discriminate.
  destruct (negb (String.eqb (Express.role u) role)); discriminate.
Qed.

Lemma roleRequired_next_bearer role authorization lookup reqUser stateUser :
  Express.roleRequired role authorization lookup = Express.Next reqUser stateUser ->
  Express.jwtBearer authorization = Express.BearerNext reqUser
  /\ lookup (Express.tokenId reqUser) = Express.Found stateUser
  /\ Express.role stateUser = role.
Proof.
  unfold Express.roleRequired, Express.jwtBearer.
  destruct (negb (Js.truthyStr authorization)); [discriminate|].
  destruct (Express.splitOn " " (Express.orElse authorization "") "")
    as [|x [|y [|z l]]]; try discriminate.
  destruct (negb (String.eqb x "Bearer")); [discriminate|].
  destruct (Express.validateUserToken y) as [p|]; [|discriminate].
  destruct (lookup (Express.tokenId p)) as [u| |e] eqn:Hl; try discriminate.
  destruct (String.eqb (Express.role u) role) eqn:Hr; simpl; [|discriminate].
  intros H. injection H as <- <-. apply String.eqb_eq in Hr. auto.
Qed.

End BearerMiddleware.

(** X5. The role middleware repeats the bearer middleware and then looks
    the user up: whatever the bearer middleware answers (401), the role
    middleware answers too; when the bearer middleware would call [next()]
    with a payload, the role middleware looks up the payload's id and calls
    [next()] with the same payload and the stored user iff that user is
    found and its stored role is the required one, and answers 403
    otherwise (user missing, lookup failing, or another role). *)
Theorem roleRequired_extends_jwtBearer
        {jwtService : Express.JWTService}
        (role : string) (authorization : option string)
        (User_findByPk : string -> Express.Lookup) :
  match Express.jwtBearer authorization with
  | Express.BearerRespond r =>
      Express.roleRequired role authorization User_findByPk = Express.Respond r
      /\ Express.statusCode r = 401
  | Express.BearerNext reqUser =>
      match User_findByPk (Express.tokenId reqUser) with
      | Express.Found user =>
          if String.eqb (Express.role user) role
          then Express.roleRequired role authorization User_findByPk
               = Express.Next reqUser user
          else Express.roleRequired role authorization User_findByPk
               = Express.forbidden
      | _ => Express.roleRequired role authorization User_findByPk
             = Express.forbidden
      end
  end.
Proof.
  unfold Express.roleRequired, Express.jwtBearer.
  destruct (negb (Js.truthyStr authorization)); [now split|].
  destruct (Express.splitOn " " (Express.orElse authorization "") "")
    as [|x [|y [|z l]]]; try (now split).
  destruct (negb (String.eqb x "Bearer")); [now split|].
  destruct (Express.validateUserToken y) as [p|]; [|now split].
  destruct (User_findByPk (Express.tokenId p)) as [u| |e]; try reflexivity.
  destruct (String.eqb (Express.role u) role); reflexivity.
Qed.

(** X6. The role middleware never consults the role claim of the token:
    two JWT services that agree on the user id of every token lead to the
    same decision, whatever role claims their payloads carry. Only the
    role stored for the user decides. *)
Theorem role_claim_not_consulted
        (service1 service2 : Express.JWTService)
        (role : string) (authorization : option string)
        (User_findByPk : string -> Express.Lookup) :
  (forall token,
      option_map Express.tokenId (@Express.validateUserToken service1 token)
      = option_map Express.tokenId (@Express.validateUserToken service2 token)) ->
  sameDecision
    (@Express.roleRequired service1 role authorization User_findByPk)
    (@Express.roleRequired service2 role authorization User_findByPk).
Proof.
  intros Hagree. unfold Express.roleRequired.
  destruct (negb (Js.truthyStr authorization)); [reflexivity|].
  destruct (Express.splitOn " " (Express.orElse authorization "") "")
    as [|x [|y [|z l]]]; try reflexivity.
  destruct (negb (String.eqb x "Bearer")); [reflexivity|].
  specialize (Hagree y).
  destruct (@Express.validateUserToken service1 y) as [p1|],
           (@Express.validateUserToken service2 y) as [p2|];
    simpl in Hagree; try discriminate; try reflexivity.
  injection Hagree as ->.
  destruct (User_findByPk (Express.tokenId p2)) as [u| |e]; try reflexivity.
  destruct (negb (String.eqb (Express.role u) role)); reflexivity.
Qed.

Lemma role_claim_not_consulted_witness :
  sameDecision
    (@Express.roleRequired sampleJWTService "user" (Some "Bearer t-ann")
       (Express.lookupIn (db := sampleDatabase) [xann]))
    (@Express.roleRequired sampleJWTServiceAdminClaim "user" (Some "Bearer t-ann")
       (Express.lookupIn (db := sampleDatabase) [xann])).
Proof.
  apply (role_claim_not_consulted sampleJWTService sampleJWTServiceAdminClaim).
  intros token. simpl. destruct (String.eqb token "t-ann"); reflexivity.
Defined.

(** ** The JWT strategy and the authentication service *)

(** X7. [JwtStrategy.validate] puts on the request the entity of the row
    stored now under the token's subject, loaded as every finder loads it,
    so without [password]: it returns a user exactly when the subject is
    read as a uuid under which a row is stored, not soft-deleted and
    active, and what it returns is the entity of that row. A token whose
    user is missing or soft-deleted is answered 404 (the NotFoundException
    of [findOne] passes through), a token of a deactivated user 401, a
    token whose subject is no uuid 500; the table is never changed. *)
Theorem jwt_strategy_validate {pg : Nest.Postgres}
        (payload : Nest.JwtPayload) (t : Nest.Table) :
  snd (Nest.validate payload t) = t
  /\ (forall user,
         fst (Nest.validate payload t) = Nest.Ok user
         <-> exists key row,
             Nest.uuid_in (Nest.sub payload) = Some key
             /\ Nest.findOneById key t = Some row
             /\ Nest.isActive row = true
             /\ user = Nest.loaded row)
  /\ (forall user, fst (Nest.validate payload t) = Nest.Ok user ->
                   Nest.password user = None)
  /\ (forall key,
         Nest.uuid_in (Nest.sub payload) = Some key ->
         Nest.findOneById key t = None ->
         exists e, fst (Nest.validate payload t) = Nest.Throw e
                   /\ Nest_answerStatus (Nest.catch false e) = Some 404)
  /\ (forall key row,
         Nest.uuid_in (Nest.sub payload) = Some key ->
         Nest.findOneById key t = Some row ->
         Nest.isActive row = false ->
         exists e, fst (Nest.validate payload t) = Nest.Throw e
                   /\ Nest_answerStatus (Nest.catch false e) = Some 401)
  /\ (Nest.uuid_in (Nest.sub payload) = None ->
      fst (Nest.validate payload t) = Nest.Throw (Nest.invalidUuid (Nest.sub payload))
      /\ Nest_answerStatus (Nest.catch false (Nest.invalidUuid (Nest.sub payload)))
         = Some 500).
Proof.
  unfold Nest.validate, Nest.bind.
  destruct (Nest_findOne_cases (Nest.sub payload) t)
    as [(k & u & Hk & Hf & H) | [(k & Hk & Hf & H) | [Hk H]]]; rewrite H, Hk.
  - cbn [Nest.loaded Nest.isActive].
    destruct (Nest.isActive u) eqn:Ha; simpl.
    + split; [reflexivity|]. split; [|split; [|split; [|split]]].
      * intros v. split.
        -- intros Hv. injection Hv as <-. exists k, u. auto.
        -- intros (key & row & Hkey & Hrow & _ & ->).
           injection Hkey as <-. rewrite Hf in Hrow. injection Hrow as <-. reflexivity.
      * intros v Hv. injection Hv as <-. reflexivity.
      * intros key Hkey Hnone. injection Hkey as <-. congruence.
      * intros key row Hkey Hrow Hin. injection Hkey as <-.
        rewrite Hf in Hrow. injection Hrow as <-. congruence.
      * discriminate.
    + split; [reflexivity|]. split; [|split; [|split; [|split]]].
      * intros v. split; [discriminate|].
        intros (key & row & Hkey & Hrow & Hact & _). injection Hkey as <-.
        rewrite Hf in Hrow. injection Hrow as <-. congruence.
      * discriminate.
      * intros key Hkey Hnone. injection Hkey as <-. congruence.
      * intros key row _ _ _. eexists. split; [reflexivity|]. now apply catch_httpError.
      * discriminate.
  - simpl. split; [reflexivity|]. split; [|split; [|split; [|split]]].
    + intros v. split; [discriminate|].
      intros (key & row & Hkey & Hrow & _). injection Hkey as <-. congruence.
    + discriminate.
    + intros key _ _. eexists. split; [reflexivity|]. now apply catch_httpError.
    + intros key row Hkey Hrow. injection Hkey as <-. congruence.
    + discriminate.
  - simpl. split; [reflexivity|]. split; [|split; [|split; [|split]]].
    + intros v. split; [discriminate|].
      intros (key & row & Hkey & _). discriminate.
    + discriminate.
    + discriminate.
    + discriminate.
    + intros _. split; reflexivity.
Qed.

Lemma updateLastLoginAt_fresh at_ seen i (t : Nest.Table) :
  (forall v, In v t -> Nest.id v <> i) -> Nest.updateLastLoginAt at_ seen i t = t.
Proof.
  intros H. unfold Nest.updateLastLoginAt.
  induction t as [|v t IH]; simpl; [reflexivity|].
  destruct (String.eqb (Nest.id v) i) eqn:He.
  - apply String.eqb_eq in He. exfalso. apply (H v); [now left | exact He].
  - rewrite IH; [reflexivity|]. intros w Hw. apply H. now right.
Qed.

Lemma updateLastLoginAt_snoc at_ seen (t : Nest.Table) u :
  (forall v, In v t -> Nest.id v <> Nest.id u) ->
  Nest.updateLastLoginAt at_ seen (Nest.id u) (t ++ [u])%list
  = (t ++ [Nest.setLastLogin at_ seen u])%list.
Proof.
  intros H. unfold Nest.updateLastLoginAt. rewrite map_app.
  fold (Nest.updateLastLoginAt at_ seen (Nest.id u) t).
  rewrite (updateLastLoginAt_fresh _ _ _ _ H). simpl.
  now rewrite String.eqb_refl.
Qed.

Section Authentication.
Context {bcrypt : Nest.Bcrypt} {jwt : Nest.JwtService}.
Variable expirationTime : option string.

(** The two ways [register] can end. *)
Lemma register_cases env dto t :
  let u := Nest.newUser env
             (Nest.mkCreate (Nest.r_firstName dto) (Nest.r_lastName dto)
                            (Nest.r_email dto) (Nest.r_password dto) None)
             (Nest.hash (Nest.r_password dto)) in
  (exists e, Nest.register expirationTime env dto t = (Nest.Throw e, t))
  \/ (Nest.findOneByEmail (Nest.r_email dto) t = None
      /\ (forall v, In v t ->
                    Nest.id v <> Nest.uuid env /\ Nest.email v <> Nest.r_email dto)
      /\ Nest.register expirationTime env dto t
         = (Nest.Ok (Nest.generateAuthResponse expirationTime env u),
            (t ++ [Nest.setLastLogin (Nest.later env) (Nest.clock env) u])%list)).
Proof.
  intros u.
  assert (Hreg : Nest.register expirationTime env dto t
                 = match Nest.create env
                           (Nest.mkCreate (Nest.r_firstName dto) (Nest.r_lastName dto)
                              (Nest.r_email dto) (Nest.r_password dto) None) t with
                   | (Nest.Ok a, t') =>
                       (Nest.Ok (Nest.generateAuthResponse expirationTime env a),
                        Nest.updateLastLoginAt (Nest.later env) (Nest.clock env)
                                               (Nest.id a) t')
                   | (Nest.Throw e, t') => (Nest.Throw e, t')
                   end).
  { unfold Nest.register, Nest.bind.
    destruct (Nest.create env _ t) as [[a|e] t']; reflexivity. }
  rewrite Hreg. clear Hreg.
  destruct (Nest_create_cases env
              (Nest.mkCreate (Nest.r_firstName dto) (Nest.r_lastName dto)
                             (Nest.r_email dto) (Nest.r_password dto) None) t)
    as [[_ H] | [[_ H] | [Hn [Hfresh H]]]];
    cbn [Nest.c_password] in H; rewrite H.
  - left. eauto.
  - left. eauto.
  - right. simpl in Hn, Hfresh. split; [exact Hn|]. split; [exact Hfresh|].
    fold u.
    rewrite (updateLastLoginAt_snoc (Nest.later env) (Nest.clock env) t u);
      [reflexivity|].
    intros v Hv. apply (Hfresh v Hv).
Qed.

(** X8. A registration that succeeds appends exactly one row, with a fresh
    id, the role [user], [isActive] true, the bcrypt hash of the submitted
    password and [lastLoginAt] set to what the runtime's clock read during
    the request, and leaves every earlier row as it was. The answer is a Bearer token signed, at
    the signer's clock, over the new id, the email and the role [user]; its
    [user] object is built from the entity as created, so it carries
    [lastLoginAt] null although the stored row has it set. A registration
    that fails changes nothing. *)
Theorem register_outcome (env : Nest.Env) (dto : Nest.RegisterDto) (t : Nest.Table) :
  (forall e t', Nest.register expirationTime env dto t = (Nest.Throw e, t') -> t' = t)
  /\ (forall r t',
         Nest.register expirationTime env dto t = (Nest.Ok r, t') ->
         exists row,
           t' = (t ++ [row])%list
           /\ (forall v, In v t -> Nest.id v <> Nest.id row
                                   /\ Nest.email v <> Nest.email row)
           /\ Nest.id row = Nest.uuid env
           /\ Nest.email row = Nest.r_email dto
           /\ Nest.role row = Nest.roleValue Nest.USER
           /\ Nest.isActive row = true
           /\ Nest.deletedAt row = None
           /\ Nest.password row = Nest.hash (Nest.r_password dto)
           /\ Nest.lastLoginAt row = Some (Nest.clock env)
           /\ Nest.tokenType r = "Bearer"
           /\ Nest.accessToken r
              = Nest.sign (Nest.mkPayload (Nest.uuid env) (Nest.r_email dto)
                                          (Nest.roleValue Nest.USER))
                          (Nest.issuedAt env)
           /\ Js.get (Nest.user r) "lastLoginAt" = Js.Null
           /\ Js.get (Nest.user r) "id" = Js.Str (Nest.uuid env)).
Proof.
  destruct (register_cases env dto t) as [[e0 H] | [Hn [Hfresh H]]]; rewrite H.
  - split; [intros e t' Heq; now injection Heq | discriminate].
  - split; [discriminate|].
    intros r t' Heq. injection Heq as <- <-.
    eexists. split; [reflexivity|]. split; [exact Hfresh|].
    repeat split.
Qed.

(** X9. Registration followed by login: if bcrypt accepts a password
    against its own hash, then right after a successful registration a
    login with the same email and password succeeds; its token is signed
    over the same subject, email and role as the registration's, each at
    the signer's clock of its own request (so the two tokens differ where
    the clock has moved); its [user] object now shows the [lastLoginAt] the
    registration stored, and no row is added or removed. *)
Theorem register_then_login
        (env env' : Nest.Env) (dto : Nest.RegisterDto) (t t1 : Nest.Table)
        (r : Nest.AuthResponseDto) :
  Nest.compare (Nest.r_password dto) (Nest.hash (Nest.r_password dto)) = true ->
  Nest.register expirationTime env dto t = (Nest.Ok r, t1) ->
  exists r' t2,
    Nest.login expirationTime env'
               (Nest.mkLogin (Nest.r_email dto) (Nest.r_password dto)) t1
    = (Nest.Ok r', t2)
    /\ Nest.accessToken r
       = Nest.sign (Nest.mkPayload (Nest.uuid env) (Nest.r_email dto)
                                   (Nest.roleValue Nest.USER))
                   (Nest.issuedAt env)
    /\ Nest.accessToken r'
       = Nest.sign (Nest.mkPayload (Nest.uuid env) (Nest.r_email dto)
                                   (Nest.roleValue Nest.USER))
                   (Nest.issuedAt env')
    /\ Js.get (Nest.user r') "lastLoginAt" = Js.Date (Nest.clock env)
    /\ List.length t2 = List.length t1.
Proof.
  intros Hcmp Hreg.
  destruct (register_cases env dto t) as [[e0 H] | [Hn [Hfresh H]]];
    rewrite H in Hreg; [discriminate|].
  injection Hreg as <- <-.
  set (u := Nest.newUser env
              (Nest.mkCreate (Nest.r_firstName dto) (Nest.r_lastName dto)
                             (Nest.r_email dto) (Nest.r_password dto) None)
              (Nest.hash (Nest.r_password dto))) in *.
  assert (Hfind : Nest.findOneByEmail (Nest.r_email dto)
                    (t ++ [Nest.setLastLogin (Nest.later env) (Nest.clock env) u])%list
                  = Some (Nest.setLastLogin (Nest.later env) (Nest.clock env) u)).
  { unfold Nest.findOneByEmail, Nest.findOneBy in *.
    clear H. induction t as [|v t IH]; simpl.
    - now rewrite String.eqb_refl.
    - simpl in Hn.
      destruct (Nest.live v && String.eqb (Nest.email v) (Nest.r_email dto))%bool;
        [discriminate|].
      apply IH; [exact Hn|]. intros w Hw. apply Hfresh. now right. }
  destruct (login_cases expirationTime env'
              (Nest.mkLogin (Nest.r_email dto) (Nest.r_password dto))
              (t ++ [Nest.setLastLogin (Nest.later env) (Nest.clock env) u])%list)
    as [[Hl _] | [(w & Hl & Ha & _) | [(w & Hl & _ & Hc & _) | (w & Hl & _ & _ & Hlogin)]]];
    cbn [Nest.l_email Nest.l_password] in *; rewrite Hfind in Hl;
    try discriminate; injection Hl as <-.
  - discriminate.
  - simpl in Hc. congruence.
  - rewrite Hlogin. eexists _, _. split; [reflexivity|].
    split; [reflexivity|]. split; [reflexivity|]. split; [reflexivity|].
    unfold Nest.updateLastLoginAt. now rewrite length_map.
Qed.

End Authentication.

Lemma register_then_login_witness :
  exists r' t2,
    @Nest.login sampleBcrypt sampleJwt None (Nest.mkEnv 70 72 71 otherId 73)
                (Nest.mkLogin "cy@example.com" "pass") 
                (snd (@Nest.register sampleBcrypt sampleJwt None env60
                        (Nest.mkRegister "Cy" "Young" "cy@example.com" "pass") [bob]))
    = (Nest.Ok r', t2)
    /\ Nest.accessToken r' = "jwt:0c000000-0000-4000-8000-00000000000c:user:73"
    /\ Js.get (Nest.user r') "lastLoginAt" = Js.Date 61
    /\ List.length t2 = 2%nat.
Proof.
  destruct (@register_then_login sampleBcrypt sampleJwt None env60
              (Nest.mkEnv 70 72 71 otherId 73)
              (Nest.mkRegister "Cy" "Young" "cy@example.com" "pass") [bob] _ _
              eq_refl eq_refl)
    as (r' & t2 & Hlogin & _ & Htoken & Hlast & Hlen).
  exists r', t2. repeat split; assumption.
Defined.

(** ** The users service: what one request leaves for the next *)

Lemma Nest_optZ_eqb_eq a b : Nest.optZ_eqb a b = true -> a = b.
Proof.
  destruct a, b; simpl; intros H; try discriminate; [|reflexivity].
  apply Z.eqb_eq in H. now subst.
Qed.

Lemma Nest_optString_eqb_eq a b : Nest.optString_eqb a b = true -> a = b.
Proof.
  destruct a, b; simpl; intros H; try discriminate; [|reflexivity].
  apply String.eqb_eq in H. now subst.
Qed.

Lemma Nest_Entity_eqb_eq u v : Nest.Entity_eqb u v = true -> u = v.
Proof.
  unfold Nest.Entity_eqb. destruct u, v; simpl. intros H.
  repeat (apply andb_true_iff in H; destruct H as [H ?]).
  repeat match goal with
         | E : String.eqb _ _ = true |- _ => apply String.eqb_eq in E
         | E : Z.eqb _ _ = true |- _ => apply Z.eqb_eq in E
         | E : Nest.optZ_eqb _ _ = true |- _ => apply Nest_optZ_eqb_eq in E
         | E : Nest.optString_eqb _ _ = true |- _ => apply Nest_optString_eqb_eq in E
         | E : Bool.eqb _ _ = true |- _ => apply Bool.eqb_prop in E
         end.
  subst. reflexivity.
Qed.

Lemma Nest_findOneById_snoc i (t : Nest.Table) u :
  (forall v, In v t -> Nest.id v <> i) -> Nest.live u = true -> Nest.id u = i ->
  Nest.findOneById i (t ++ [u])%list = Some u.
Proof.
  intros Hfresh Hl Hi. unfold Nest.findOneById, Nest.findOneBy.
  induction t as [|v t IH]; simpl.
  - now rewrite Hl, Hi, String.eqb_refl.
  - assert (Hv : String.eqb (Nest.id v) i = false).
    { apply String.eqb_neq. apply Hfresh. now left. }
    rewrite Hv, andb_false_r. apply IH. intros w Hw. apply Hfresh. now right.
Qed.

Lemma Nest_findOneByEmail_snoc e (t : Nest.Table) u :
  (forall v, In v t -> Nest.email v <> e) -> Nest.live u = true -> Nest.email u = e ->
  Nest.findOneByEmail e (t ++ [u])%list = Some u.
Proof.
  intros Hfresh Hl Hi. unfold Nest.findOneByEmail, Nest.findOneBy.
  induction t as [|v t IH]; simpl.
  - now rewrite Hl, Hi, String.eqb_refl.
  - assert (Hv : String.eqb (Nest.email v) e = false).
    { apply String.eqb_neq. apply Hfresh. now left. }
    rewrite Hv, andb_false_r. apply IH. intros w Hw. apply Hfresh. now right.
Qed.

(** After a soft delete no finder sees a row with that id. *)
Lemma Nest_softRemove_hides {Password} at_ (u : Nest.UserOf Password) (t : Nest.Table) :
  Nest.findOneById (Nest.id u) (Nest.softRemove at_ u t) = None.
Proof.
  unfold Nest.findOneById, Nest.findOneBy. apply find_none_iff.
  intros v Hv. unfold Nest.softRemove in Hv. apply in_map_iff in Hv.
  destruct Hv as [w [Hw _]].
  destruct (String.eqb (Nest.id w) (Nest.id u)) eqn:He; subst v.
  - reflexivity.
  - rewrite He. apply andb_false_r.
Qed.

Lemma Nest_remove_ok {pg : Nest.Postgres} env i t t1 :
  Nest.remove env i t = (Nest.Ok tt, t1) ->
  exists key u, Nest.uuid_in i = Some key
                /\ Nest.findOneById key t = Some u
                /\ t1 = Nest.softRemove (Nest.now env) u t.
Proof.
  unfold Nest.remove, Nest.bind.
  destruct (Nest_findOne_cases i t) as [(k & u & Hk & Hf & H) | [(k & Hk & Hf & H) | [Hk H]]];
    rewrite H; try discriminate.
  unfold Nest.exec. intros Heq. injection Heq as <-. exists k, u. auto.
Qed.

Section UsersServiceSequences.
Context {bcrypt : Nest.Bcrypt} {pg : Nest.Postgres}.

(** X10. What [create] returns is what the next request finds. After a
    successful [create], whose generated id the database reads back as
    itself, [findOne] on the returned id gives the entity of the created
    row, loaded as every finder loads it, so without [password];
    [findByEmail] on the submitted email, whose query selects the password
    too, gives exactly the created user, whose password is the bcrypt hash
    of the submitted one; and neither lookup changes the table. *)
Theorem create_then_find (env : Nest.Env) (dto : Nest.CreateUserDto)
        (t t1 : Nest.Table) (u : Nest.User) :
  Nest.create env dto t = (Nest.Ok u, t1) ->
  Nest.uuid_in (Nest.uuid env) = Some (Nest.uuid env) ->
  Nest.findOne (Nest.id u) t1 = (Nest.Ok (Nest.loaded u), t1)
  /\ Nest.password (Nest.loaded u) = None
  /\ Nest.findByEmail (Nest.c_email dto) t1 = (Nest.Ok (Some u), t1)
  /\ Nest.password u = Nest.hash (Nest.c_password dto)
  /\ Nest.id u = Nest.uuid env.
Proof.
  intros Hc Hread.
  destruct (Nest_create_cases env dto t) as [[_ H] | [[_ H] | [Hn [Hfresh H]]]];
    rewrite H in Hc; try discriminate.
  injection Hc as <- <-.
  set (u := Nest.newUser env dto (Nest.hash (Nest.c_password dto))).
  split; [|split; [reflexivity|split; [|split; reflexivity]]].
  - unfold Nest.findOne, Nest.bind, Nest.repositoryFindOneById.
    change (Nest.id u) with (Nest.uuid env). rewrite Hread.
    rewrite (Nest_findOneById_snoc (Nest.uuid env) t u); [reflexivity | | reflexivity..].
    intros v Hv. apply (Hfresh v Hv).
  - unfold Nest.findByEmail, Nest.query.
    rewrite (Nest_findOneByEmail_snoc (Nest.c_email dto) t u); [reflexivity | | reflexivity..].
    intros v Hv. apply (Hfresh v Hv).
Qed.

(** X11. After a successful [remove] the user is gone for every later
    request although its row is still stored: [findOne], [update] and a
    second [remove] on the id each raise 404 and change nothing, and a
    token of that user is refused by the JWT strategy with 404. *)
Theorem remove_then_gone (env env' : Nest.Env) (i : string)
        (dto : Nest.UpdateUserDto) (payload : Nest.JwtPayload)
        (t t1 : Nest.Table) :
  Nest.remove env i t = (Nest.Ok tt, t1) ->
  let notFound := Nest.NotFoundException ("User with ID " ++ i ++ " not found") in
  List.length t1 = List.length t
  /\ Nest.findOne i t1 = (Nest.Throw notFound, t1)
  /\ Nest.update env' i dto t1 = (Nest.Throw notFound, t1)
  /\ Nest.remove env' i t1 = (Nest.Throw notFound, t1)
  /\ (Nest.sub payload = i -> Nest.validate payload t1 = (Nest.Throw notFound, t1))
  /\ Nest_answerStatus (Nest.catch false notFound) = Some 404.
Proof.
  intros Hr notFound.
  destruct (Nest_remove_ok _ _ _ _ Hr) as (key & u & Hkey & Hu & ->).
  destruct (Nest_findOneById_Some _ _ _ Hu) as [_ [_ Hid]]. subst key.
  assert (Hfind : Nest.findOne i (Nest.softRemove (Nest.now env) u t)
                  = (Nest.Throw notFound, Nest.softRemove (Nest.now env) u t)).
  { unfold Nest.findOne, Nest.bind, Nest.repositoryFindOneById.
    now rewrite Hkey, Nest_softRemove_hides. }
  split; [unfold Nest.softRemove; apply length_map|].
  split; [exact Hfind|].
  split; [unfold Nest.update; unfold Nest.bind at 1; now rewrite Hfind|].
  split; [unfold Nest.remove, Nest.bind; now rewrite Hfind|].
  split; [|now apply catch_httpError].
  intros Hs. unfold Nest.validate, Nest.bind. rewrite Hs. now rewrite Hfind.
Qed.

(** X12. The email of a removed user stays taken. With the table's
    constraints in force, after a successful [remove] of a user a lookup
    by that user's email finds nobody, so a [create] with that email
    passes the service's own check and is refused by the database's unique
    constraint: it raises the [QueryFailedError], answered 500, not the
    409 conflict, and stores nothing. *)
Theorem removed_email_stays_taken (env env' : Nest.Env) (i key : string)
        (dto : Nest.CreateUserDto) (t t1 : Nest.Table) (u : Nest.User) :
  Nest_constraints t ->
  Nest.uuid_in i = Some key ->
  Nest.findOneById key t = Some u ->
  Nest.remove env i t = (Nest.Ok tt, t1) ->
  Nest.c_email dto = Nest.email u ->
  Nest.findByEmail (Nest.email u) t1 = (Nest.Ok None, t1)
  /\ Nest.create env' dto t1 = (Nest.Throw Nest.constraintError, t1)
  /\ Nest_answerStatus (Nest.catch false Nest.constraintError) = Some 500.
Proof.
  intros [_ Hnd] Hkey Hu Hr Hem.
  destruct (Nest_remove_ok _ _ _ _ Hr) as (key' & u' & Hkey' & Hu' & ->).
  assert (key' = key) by congruence. subst key'.
  rewrite Hu in Hu'. injection Hu' as <-.
  destruct (Nest_findOneById_Some _ _ _ Hu) as [Hin [_ Hid]].
  assert (Hnone : Nest.findOneByEmail (Nest.email u)
                    (Nest.softRemove (Nest.now env) u t) = None).
  { apply Nest_findOneByEmail_None. intros v Hv Hl He.
    unfold Nest.softRemove in Hv. apply in_map_iff in Hv.
    destruct Hv as [w [Hw Hinw]].
    destruct (String.eqb (Nest.id w) (Nest.id u)) eqn:Hiw; subst v.
    - discriminate.
    - assert (w = u) by (apply (NoDup_email_inj _ Nest.email t); auto).
      subst w. rewrite String.eqb_refl in Hiw. discriminate. }
  split; [unfold Nest.findByEmail, Nest.query; now rewrite Hnone|].
  split; [|reflexivity].
  unfold Nest.create, Nest.bind, Nest.query. rewrite Hem, Hnone.
  unfold Nest.insertRow.
  match goal with |- context [existsb ?p ?l] => assert (Hex : existsb p l = true) end.
  { apply existsb_exists. exists (Nest.markDeleted (Nest.now env) u). split.
    - unfold Nest.softRemove. apply in_map_iff. exists u.
      rewrite String.eqb_refl. auto.
    - unfold Nest.newUser. simpl. rewrite Hem, String.eqb_refl. apply orb_true_r. }
  rewrite Hex. reflexivity.
Qed.

(** What a successful [update] stored. *)
Lemma Nest_update_ok env i dto t u' t1 :
  Nest.update env i dto t = (Nest.Ok u', t1) ->
  exists key u,
    Nest.uuid_in i = Some key
    /\ Nest.findOneById key t = Some u
    /\ let entity := Nest.assign (Nest.loaded u) (Nest.hashPassword dto) in
       (u' = Nest.loaded u /\ entity = Nest.loaded u /\ t1 = t)
       \/ (u' = Nest.touch (Nest.now env) entity
           /\ t1 = map (fun v => if String.eqb (Nest.id v) (Nest.id u)
                                 then Nest.written (Nest.now env) entity v else v) t).
Proof.
  unfold Nest.update. unfold Nest.bind at 1.
  destruct (Nest_findOne_cases i t) as [(k & u & Hk & Hu & H) | [(k & Hk & Hu & H) | [Hk H]]];
    rewrite H; try discriminate.
  intros Hupd. exists k, u. split; [exact Hk|]. split; [exact Hu|].
  assert (Hsave : Nest.save (Nest.now env) (Nest.loaded u)
                    (Nest.assign (Nest.loaded u) (Nest.hashPassword dto)) t
                  = (Nest.Ok u', t1)).
  { revert Hupd. unfold Nest.bind at 1.
    destruct (Nest.emailChanges dto (Nest.loaded u)).
    - unfold Nest.bind, Nest.query.
      destruct (Nest.findOneByEmail _ t); simpl; [discriminate | auto].
    - simpl. auto. }
  unfold Nest.save in Hsave.
  destruct (Nest.Entity_eqb (Nest.loaded u) _) eqn:He.
  - apply Nest_Entity_eqb_eq in He. injection Hsave as <- <-. left. auto.
  - unfold Nest.updateRow in Hsave.
    destruct (existsb _ t); [discriminate|].
    injection Hsave as <- <-. right. auto.
Qed.

(** X13. What a successful [update] stores. The id of the request reads
    as a uuid under which a live row was stored; the returned entity has
    that id and shows a row stored afterwards: every column but the
    password is that row's. A submitted non-empty password is stored as
    its bcrypt hash, which the returned entity carries; with none
    submitted the stored hash stays as it was and the returned entity has
    no [password] at all, the finder having loaded none. The role becomes
    whatever the request carries; rows with another id are not touched and
    no row is added or removed. *)
Theorem update_outcome (env : Nest.Env) (i : string) (dto : Nest.UpdateUserDto)
        (t t1 : Nest.Table) (u' : Nest.Entity) :
  Nest.update env i dto t = (Nest.Ok u', t1) ->
  exists key u row',
    Nest.uuid_in i = Some key
    /\ Nest.findOneById key t = Some u
    /\ Nest.id u' = key
    /\ In row' t1
    /\ Nest_shows u' row'
    /\ (forall p, Nest.u_password dto = Some p -> p <> "" ->
                  Nest.password u' = Some (Nest.hash p)
                  /\ Nest.password row' = Nest.hash p)
    /\ (Nest.u_password dto = None ->
        Nest.password u' = None /\ Nest.password row' = Nest.password u)
    /\ Nest.role u' = Nest.orElse (Nest.u_role dto) (Nest.role u)
    /\ Nest.deletedAt u' = None
    /\ (forall v, In v t1 -> Nest.id v <> key -> In v t)
    /\ List.length t1 = List.length t.
Proof.
  intros Hupd. destruct (Nest_update_ok _ _ _ _ _ _ Hupd) as (key & u & Hkey & Hu & Hcases).
  destruct (Nest_findOneById_Some _ _ _ Hu) as [Hin [Hlive Hid]].
  set (entity := Nest.assign (Nest.loaded u) (Nest.hashPassword dto)) in *.
  assert (Hpw : forall p, Nest.u_password dto = Some p -> p <> "" ->
                  Nest.password entity = Some (Nest.hash p)).
  { intros p Hp Hne. unfold entity, Nest.hashPassword, Js.truthyStr. rewrite Hp.
    apply String.eqb_neq in Hne. rewrite Hne. reflexivity. }
  assert (Hnopw : Nest.u_password dto = None -> Nest.password entity = None).
  { intros Hp. unfold entity, Nest.hashPassword, Js.truthyStr. rewrite Hp. simpl.
    rewrite Hp. reflexivity. }
  assert (Hrole : Nest.role entity = Nest.orElse (Nest.u_role dto) (Nest.role u)).
  { unfold entity, Nest.hashPassword.
    destruct (Js.truthyStr (Nest.u_password dto)); reflexivity. }
  assert (Hdel : Nest.deletedAt u = None).
  { unfold Nest.live in Hlive. destruct (Nest.deletedAt u); [discriminate | reflexivity]. }
  cbv zeta in Hcases. destruct Hcases as [(-> & He & ->) | (-> & ->)].
  - exists key, u, u. rewrite He in Hpw, Hnopw, Hrole.
    split; [exact Hkey|]. split; [exact Hu|]. split; [exact Hid|].
    split; [exact Hin|]. split; [split; [reflexivity | left; reflexivity]|].
    split; [intros p Hp Hne; specialize (Hpw p Hp Hne); discriminate|].
    split; [intros _; split; reflexivity|].
    split; [exact Hrole|]. split; [exact Hdel|]. split; [auto | reflexivity].
  - exists key, u, (Nest.written (Nest.now env) entity u).
    split; [exact Hkey|]. split; [exact Hu|]. split; [exact Hid|]. split.
    { apply in_map_iff. exists u. split; [|exact Hin]. now rewrite String.eqb_refl. }
    split.
    { split; [reflexivity|]. cbn [Nest.touch Nest.written Nest.password].
      destruct (Nest.password entity); [right | left]; reflexivity. }
    split.
    { intros p Hp Hne. cbn [Nest.touch Nest.written Nest.password].
      rewrite (Hpw p Hp Hne). split; reflexivity. }
    split.
    { intros Hp. cbn [Nest.touch Nest.written Nest.password].
      rewrite (Hnopw Hp). split; reflexivity. }
    split; [exact Hrole|]. split; [exact Hdel|]. split; [|apply length_map].
    intros v Hv Hne. apply in_map_iff in Hv. destruct Hv as [w [Hw Hinw]].
    destruct (String.eqb (Nest.id w) (Nest.id u)) eqn:Hiw.
    + subst v. cbn [Nest.written Nest.id] in Hne. unfold entity in Hne.
      cbn [Nest.assign Nest.loaded Nest.id] in Hne. congruence.
    + now subst v.
Qed.

End UsersServiceSequences.

Lemma create_then_find_witness :
  Nest.findOne (pg := samplePostgres) newId
               ([bob] ++ [Nest.newUser env60 annDto "$2b$10$secret"])%list
  = (Nest.Ok (Nest.loaded (Nest.newUser env60 annDto "$2b$10$secret")),
     ([bob] ++ [Nest.newUser env60 annDto "$2b$10$secret"])%list)
  /\ Nest.password (Nest.loaded (Nest.newUser env60 annDto "$2b$10$secret")) = None.
Proof.
  destruct (@create_then_find sampleBcrypt samplePostgres env60 annDto [bob] _ _
              eq_refl eq_refl) as (Hfind & Hpw & _).
  split; [exact Hfind | exact Hpw].
Defined.

Lemma remove_then_gone_witness :
  Nest.findOne (pg := samplePostgres) annId
               (snd (Nest.remove (pg := samplePostgres) env60 annId [ann; bob]))
  = (Nest.Throw (Nest.NotFoundException ("User with ID " ++ annId ++ " not found")),
     snd (Nest.remove (pg := samplePostgres) env60 annId [ann; bob])).
Proof.
  exact (proj1 (proj2 (@remove_then_gone sampleBcrypt samplePostgres env60 env60 annId
                         (Nest.mkUpdate None None None None None None)
                         (Nest.mkPayload annId "ann@example.com" "user")
                         [ann; bob] _ eq_refl))).
Defined.

Lemma removed_email_stays_taken_witness :
  @Nest.create sampleBcrypt (Nest.mkEnv 70 72 71 otherId 73) annDto
               (snd (Nest.remove (pg := samplePostgres) env60 annId [ann; bob]))
  = (Nest.Throw Nest.constraintError,
     snd (Nest.remove (pg := samplePostgres) env60 annId [ann; bob])).
Proof.
  refine (proj1 (proj2 (@removed_email_stays_taken sampleBcrypt samplePostgres env60
                          (Nest.mkEnv 70 72 71 otherId 73) annId annId annDto
                          [ann; bob] _ ann _ eq_refl eq_refl eq_refl eq_refl))).
  split; simpl; repeat constructor; simpl; intuition discriminate.
Defined.

(** Ann changes her password and becomes an admin, at time 60: the
    returned entity carries the new hash, and so does the stored row. *)
Lemma update_outcome_witness :
  exists key u row',
    Nest.uuid_in (Postgres := samplePostgres) annId = Some key
    /\ Nest.findOneById key [ann; bob] = Some u
    /\ Nest.id annUpdated = key
    /\ In row' [annUpdatedRow; bob]
    /\ Nest_shows annUpdated row'
    /\ (forall p, Nest.u_password annUpdate = Some p -> p <> "" ->
                  Nest.password annUpdated = Some (Nest.hash (Bcrypt := sampleBcrypt) p)
                  /\ Nest.password row' = Nest.hash (Bcrypt := sampleBcrypt) p)
    /\ (Nest.u_password annUpdate = None ->
        Nest.password annUpdated = None /\ Nest.password row' = Nest.password u)
    /\ Nest.role annUpdated = Nest.orElse (Nest.u_role annUpdate) (Nest.role u)
    /\ Nest.deletedAt annUpdated = None
    /\ (forall v, In v [annUpdatedRow; bob] -> Nest.id v <> key -> In v [ann; bob])
    /\ List.length [annUpdatedRow; bob] = List.length [ann; bob].
Proof.
  exact (@update_outcome sampleBcrypt samplePostgres env60 annId annUpdate
           [ann; bob] [annUpdatedRow; bob] annUpdated eq_refl).
Defined.

(** ** The Express repository: deletes, purges and error translation *)

Lemma Express_destroy_hides at_ saved_ u (t : Express.Table) :
  Express.findByPk (Express.id u)
    (map (fun v => if String.eqb (Express.id v) (Express.id u)
                   then Express.destroyed at_ saved_ v else v) t) = None.
Proof.
  unfold Express.findByPk. apply find_none_iff.
  intros v Hv. apply in_map_iff in Hv. destruct Hv as [w [Hw _]].
  destruct (String.eqb (Express.id w) (Express.id u)) eqn:He; subst v.
  - reflexivity.
  - rewrite He. apply andb_false_r.
Qed.

Lemma Express_delete_ok {db : Express.Database} env i t t1 :
  Express.UserRepository.delete env i t = (Express.Ok tt, t1) ->
  exists key u,
    Express.uuid_in i = Some key
    /\ Express.findByPk key t = Some u
    /\ t1 = map (fun v => if String.eqb (Express.id v) (Express.id u)
                          then Express.destroyed (Express.now env) (Express.later env) v
                          else v) t.
Proof.
  unfold Express.UserRepository.delete, Express.bind.
  destruct (Express_findById_cases i t)
    as [(k & u & Hk & Hf & H) | [(k & Hk & Hf & H) | [Hk H]]]; rewrite H;
    try discriminate.
  unfold Express.instance_destroy. intros Heq. injection Heq as <-.
  exists k, u. auto.
Qed.

Lemma roleRequired_missing {jwtService : Express.JWTService}
      role authorization lookup reqUser :
  Express.jwtBearer authorization = Express.BearerNext reqUser ->
  lookup (Express.tokenId reqUser) = Express.Missing ->
  Express.roleRequired role authorization lookup = Express.forbidden.
Proof.
  unfold Express.roleRequired, Express.jwtBearer.
  destruct (negb (Js.truthyStr authorization)); [discriminate|].
  destruct (Express.splitOn " " (Express.orElse authorization "") "")
    as [|x [|y [|z l]]]; try discriminate.
  destruct (negb (String.eqb x "Bearer")); [discriminate|].
  destruct (Express.validateUserToken y) as [p|]; [|discriminate].
  intros H. injection H as ->. intros ->. reflexivity.
Qed.

(** Dropping rows keeps a column free of duplicates. *)
Lemma column_NoDup_filter {Row : Type} (col : Row -> string) (keep : Row -> bool)
      (t : list Row) :
  NoDup (map col t) -> NoDup (map col (filter keep t)).
Proof.
  induction t as [|v rest IH]; simpl; intros Hnd; [constructor|].
  inversion Hnd as [|? ? Hfresh Hrest]; subst.
  destruct (keep v); simpl; [|now apply IH].
  constructor; [|now apply IH].
  intros Hin. apply Hfresh. apply in_map_iff in Hin.
  destruct Hin as [w [Hw Hkept]]. apply filter_In in Hkept.
  apply in_map_iff. exists w. tauto.
Qed.

Section ExpressRepository.
Context {db : Express.Database}.

(** X14. After a successful delete the user is gone for every later
    request although its row is still stored: [findById], [update],
    [delete] and [hardDelete] on the id each raise the 404 NotFoundError
    and change nothing, so a soft-deleted row can never be purged through
    the repository. A token of the deleted user still passes the bearer
    middleware, which never looks at the table, but is answered 403 by the
    role middleware. *)
Theorem express_delete_then_gone
        {jwtService : Express.JWTService}
        (env env' : Express.Env) (i : string) (data : Express.UpdateUserDto)
        (t t1 : Express.Table) :
  Express.UserRepository.delete env i t = (Express.Ok tt, t1) ->
  let notFound := Express.NotFoundError "User" i in
  List.length t1 = List.length t
  /\ Express.UserRepository.findById i t1 = (Express.Throw notFound, t1)
  /\ Express.UserRepository.update env' i data t1 = (Express.Throw notFound, t1)
  /\ Express.UserRepository.delete env' i t1 = (Express.Throw notFound, t1)
  /\ Express.UserRepository.hardDelete i t1 = (Express.Throw notFound, t1)
  /\ Express_carriedStatus notFound = 404
  /\ (forall role authorization reqUser,
         Express.jwtBearer authorization = Express.BearerNext reqUser ->
         Express.tokenId reqUser = i ->
         Express.roleRequired role authorization (Express.lookupIn t1)
         = Express.forbidden).
Proof.
  intros Hd notFound.
  destruct (Express_delete_ok _ _ _ _ Hd) as (key & u & Hkey & Hu & ->).
  destruct (Express_findByPk_Some _ _ _ Hu) as [_ [_ Hid]]. subst key.
  set (t1 := map _ t).
  assert (Hnone : Express.findByPk (Express.id u) t1 = None)
    by apply Express_destroy_hides.
  assert (Hfind : Express.UserRepository.findById i t1
                  = (Express.Throw notFound, t1)).
  { unfold Express.UserRepository.findById, Express.bind,
      Express.UserRepository.Model_findByPk.
    now rewrite Hkey, Hnone. }
  split; [apply length_map|]. split; [exact Hfind|].
  split.
  { unfold Express.UserRepository.update, Express.tryCatch.
    unfold Express.bind. rewrite Hfind. reflexivity. }
  split; [unfold Express.UserRepository.delete, Express.bind; now rewrite Hfind|].
  split; [unfold Express.UserRepository.hardDelete, Express.bind; now rewrite Hfind|].
  split; [reflexivity|].
  intros role authorization reqUser Hb Ht.
  apply (roleRequired_missing _ _ _ _ Hb).
  unfold Express.lookupIn. rewrite Ht, Hkey. now rewrite Hnone.
Qed.

(** X15. The email of a soft-deleted user stays taken. With the table's
    constraints in force, after a successful delete of a user a
    [createUser] with that user's email passes the service's own lookup
    (which skips soft-deleted rows) and is refused by the unique index:
    the repository turns that into the DatabaseError "Email already
    exists", status 500, not the service's 409, and nothing is stored. *)
Theorem express_deleted_email_stays_taken
        (env env' : Express.Env) (i key : string) (data : Express.CreateUserDto)
        (t t1 : Express.Table) (u : Express.User) :
  Express_constraints t ->
  Express.uuid_in i = Some key ->
  Express.findByPk key t = Some u ->
  Express.UserRepository.delete env i t = (Express.Ok tt, t1) ->
  Express.c_email data = Express.email u ->
  Express.isEmail (Express.email u) = true ->
  Express.UserService.createUser env' data t1
  = (Express.Throw (Express.DatabaseError "Email already exists"), t1)
  /\ Express_carriedStatus (Express.DatabaseError "Email already exists") = 500.
Proof.
  intros [_ Hnd] Hkey Hu Hd Hem Hvalid.
  destruct (Express_delete_ok _ _ _ _ Hd) as (key' & u' & Hkey' & Hu' & ->).
  assert (key' = key) by congruence. subst key'.
  rewrite Hu in Hu'. injection Hu' as <-.
  destruct (Express_findByPk_Some _ _ _ Hu) as [Hin [_ Hid]].
  set (t1 := map _ t).
  assert (Hnone : Express.findOneByEmail (Express.email u) t1 = None).
  { unfold Express.findOneByEmail. apply find_none_iff. intros v Hv.
    apply in_map_iff in Hv. destruct Hv as [w [Hw Hinw]].
    destruct (String.eqb (Express.id w) (Express.id u)) eqn:Hiw; subst v.
    - reflexivity.
    - destruct (String.eqb (Express.email w) (Express.email u)) eqn:Hew;
        [|apply andb_false_r].
      apply String.eqb_eq in Hew.
      assert (w = u) by (apply (NoDup_email_inj _ Express.email t); auto).
      subst w. rewrite String.eqb_refl in Hiw. discriminate. }
  split; [|reflexivity].
  unfold Express.UserService.createUser, Express.UserRepository.findByEmail,
    Express.bind, Express.query.
  rewrite Hem, Hnone.
  unfold Express.UserRepository.create, Express.tryCatch, Express.Model_create.
  rewrite Hem, Hvalid. simpl negb. cbv iota.
  match goal with |- context [existsb ?p t1] => assert (Hex : existsb p t1 = true) end.
  { apply existsb_exists.
    exists (Express.destroyed (Express.now env) (Express.later env) u). split.
    - apply in_map_iff. exists u. rewrite String.eqb_refl. auto.
    - simpl. rewrite String.eqb_refl. apply orb_true_r. }
  rewrite Hex. reflexivity.
Qed.

(** X16. A successful [hardDelete] purges: the rows with the uuid the
    request names are gone and every other row is kept, in order; the
    table's constraints still hold; no stored row holds the purged user's
    email any more, so the email is free for a new user. *)
Theorem hardDelete_purges (i : string) (t t1 : Express.Table) :
  Express_constraints t ->
  Express.UserRepository.hardDelete i t = (Express.Ok tt, t1) ->
  exists key u,
    Express.uuid_in i = Some key
    /\ Express.findByPk key t = Some u
    /\ t1 = filter (fun v => negb (String.eqb (Express.id v) key)) t
    /\ (forall v, In v t1 <-> In v t /\ Express.id v <> key)
    /\ Express_constraints t1
    /\ (forall v, In v t1 -> Express.email v <> Express.email u)
    /\ Express.findOneByEmail (Express.email u) t1 = None.
Proof.
  intros [Hid Hem]. unfold Express.UserRepository.hardDelete, Express.bind.
  destruct (Express_findById_cases i t)
    as [(key & u & Hkey & Hf & H) | [(key & Hkey & Hf & H) | [Hkey H]]]; rewrite H;
    try discriminate.
  unfold Express.instance_destroy_force. intros Heq. injection Heq as <-.
  destruct (Express_findByPk_Some _ _ _ Hf) as [Hin [_ Hi]]. subst key.
  exists (Express.id u), u. split; [exact Hkey|]. split; [exact Hf|].
  split; [reflexivity|].
  assert (Hmem : forall v,
             In v (filter (fun v => negb (String.eqb (Express.id v) (Express.id u))) t)
             <-> In v t /\ Express.id v <> Express.id u).
  { intros v. rewrite filter_In, negb_true_iff, String.eqb_neq. tauto. }
  assert (Hfree : forall v,
             In v (filter (fun v => negb (String.eqb (Express.id v) (Express.id u))) t)
             -> Express.email v <> Express.email u).
  { intros v Hv He. apply Hmem in Hv. destruct Hv as [Hv Hne].
    apply Hne. f_equal. apply (NoDup_email_inj _ Express.email t); auto. }
  split; [exact Hmem|].
  split; [split; now apply column_NoDup_filter|].
  split; [exact Hfree|].
  unfold Express.findOneByEmail. apply find_none_iff. intros v Hv.
  apply Hfree in Hv. apply String.eqb_neq in Hv. rewrite Hv. apply andb_false_r.
Qed.

(** X17. The repository translates every failure of the statements it
    wraps in try/catch: [create] raises nothing but the DatabaseError
    "Email already exists" or "Failed to create user", [findAll] nothing
    but "Failed to fetch users", [update] nothing but the NotFoundError of
    the id or the DatabaseError "Email already exists" or "Failed to
    update user". A rejected email address (the model's isEmail check)
    therefore comes back as status 500, not 400; and a request that fails
    stores nothing. *)
Theorem repository_translates_errors
        (env : Express.Env) (data : Express.CreateUserDto)
        (i : string) (changes : Express.UpdateUserDto)
        (page pageSize : Express.number) (search : option string)
        (t : Express.Table) :
  (forall e, fst (Express.UserRepository.create env data t) = Express.Throw e ->
             (e = Express.DatabaseError "Email already exists"
              \/ e = Express.DatabaseError "Failed to create user")
             /\ snd (Express.UserRepository.create env data t) = t)
  /\ (Express.isEmail (Express.c_email data) = false ->
      Express.UserRepository.create env data t
      = (Express.Throw (Express.DatabaseError "Failed to create user"), t))
  /\ (forall e, fst (Express.UserRepository.findAll page pageSize search t)
                = Express.Throw e ->
                e = Express.DatabaseError "Failed to fetch users"
                /\ snd (Express.UserRepository.findAll page pageSize search t) = t)
  /\ (forall e, fst (Express.UserRepository.update env i changes t) = Express.Throw e ->
                (e = Express.NotFoundError "User" i
                 \/ e = Express.DatabaseError "Email already exists"
                 \/ e = Express.DatabaseError "Failed to update user")
                /\ snd (Express.UserRepository.update env i changes t) = t).
Proof.
  split; [|split; [|split]].
  - intros e. unfold Express.UserRepository.create, Express.tryCatch.
    destruct (Express_Model_create_cases env (Express.c_email data)
                (Express.c_password data) (Express.c_firstName data)
                (Express.c_lastName data) t) as [[err H] | [u [H _]]]; rewrite H.
    + destruct (Express.UserRepository.isUniqueConstraintError err);
        simpl; intros Heq; injection Heq as <-; auto.
    + discriminate.
  - intros Hbad. unfold Express.UserRepository.create, Express.tryCatch,
      Express.Model_create. rewrite Hbad. reflexivity.
  - intros e. unfold Express.UserRepository.findAll, Express.tryCatch,
      Express.UserRepository.findAndCountAll.
    destruct pageSize as [ps|]; [destruct page as [p|]|]; simpl.
    + destruct ((ps <? 0) || (Express.UserRepository.offsetOf p ps <? 0)
                || (Express.BIGINT_MAX <? ps)
                || (Express.BIGINT_MAX <? Express.UserRepository.offsetOf p ps))%bool;
        simpl.
      * intros Heq. injection Heq as <-. auto.
      * discriminate.
    + intros Heq. injection Heq as <-. auto.
    + intros Heq. injection Heq as <-. auto.
  - intros e. unfold Express.UserRepository.update, Express.tryCatch.
    unfold Express.bind.
    destruct (Express_findById_cases i t)
      as [(key & u & Hkey & Hf & H) | [(key & Hkey & Hf & H) | [Hkey H]]]; rewrite H.
    + unfold Express.instance_update.
      destruct (Express.User_eqb u _); [discriminate|].
      destruct (Express.isEmail _); simpl.
      * destruct (existsb _ t); simpl; [|discriminate].
        intros Heq. injection Heq as <-. auto.
      * intros Heq. injection Heq as <-. auto.
    + simpl. intros Heq. injection Heq as <-. auto.
    + simpl. intros Heq. injection Heq as <-. auto.
Qed.

End ExpressRepository.

Lemma express_delete_then_gone_witness :
  Express.UserRepository.findById (db := sampleDatabase) annId
    (snd (Express.UserRepository.delete (db := sampleDatabase) xenv60 annId [xann]))
  = (Express.Throw (Express.NotFoundError "User" annId),
     snd (Express.UserRepository.delete (db := sampleDatabase) xenv60 annId [xann])).
Proof.
  exact (proj1 (proj2 (@express_delete_then_gone sampleDatabase sampleJWTService
                         xenv60 xenv60 annId
                         (Express.mkUpdate None None None None None)
                         [xann] _ eq_refl))).
Defined.

Lemma express_deleted_email_stays_taken_witness :
  @Express.UserService.createUser sampleDatabase (Express.mkEnv 70 71 72 otherId)
     (Express.mkCreate "ann@example.com" "secret2" "Ann" "Lee")
     (snd (Express.UserRepository.delete (db := sampleDatabase) xenv60 annId [xann]))
  = (Express.Throw (Express.DatabaseError "Email already exists"),
     snd (Express.UserRepository.delete (db := sampleDatabase) xenv60 annId [xann])).
Proof.
  refine (proj1 (@express_deleted_email_stays_taken sampleDatabase xenv60
                   (Express.mkEnv 70 71 72 otherId) annId annId
                   (Express.mkCreate "ann@example.com" "secret2" "Ann" "Lee")
                   [xann] _ xann _ eq_refl eq_refl eq_refl eq_refl eq_refl)).
  split; simpl; repeat constructor; simpl; intuition discriminate.
Defined.

Lemma hardDelete_purges_witness :
  exists key u,
    Express.uuid_in (Database := sampleDatabase) annId = Some key
    /\ Express.findByPk key [xann] = Some u
    /\ snd (Express.UserRepository.hardDelete (db := sampleDatabase) annId [xann]) = [].
Proof.
  assert (Hc : Express_constraints [xann]).
  { split; simpl; repeat constructor; simpl; intuition discriminate. }
  destruct (@hardDelete_purges sampleDatabase annId [xann] _ Hc eq_refl)
    as (key & u & Hkey & Hu & Ht & _).
  exists key, u. split; [exact Hkey|]. split; [exact Hu | reflexivity].
Defined.

(** ** Request validation *)

(** X18. The Express validation middleware in front of a route: when
    class-validator reports errors for the transformed body, the client
    gets status 400 with the code VALIDATION_ERROR, the message
    "Validation failed" and, in production, one detail per reported error
    naming its property, in order; the route handler is not run and the
    table is unchanged. When it reports none, the handler runs on the
    transformed DTO, not on the raw body. *)
Theorem validation_middleware_gate
        (plainToClass : Js.value -> Js.value)
        (validateObject : Js.value -> list Express.ClassValidatorError)
        (env : Express.Env) (handler : Js.value -> Express.M Express.HttpResponse)
        (body : Js.value) (t : Express.Table) :
  let errors := validateObject (plainToClass body) in
  (errors <> [] ->
   Express.validatedRoute plainToClass validateObject env false handler body t
   = (Express.errorResponse env "Validation failed" 400 "VALIDATION_ERROR"
        (Js.Arr (map Express.ValidationErrorDetail errors)), t)
   /\ map (fun d => Js.get d "field") (map Express.ValidationErrorDetail errors)
      = map (fun e => Js.Str (Express.cv_property e)) errors)
  /\ (errors = [] ->
      forall development,
        Express.validatedRoute plainToClass validateObject env development handler body t
        = Express.serve env development (handler (plainToClass body)) t).
Proof.
  intros errors. unfold Express.validatedRoute, Express.validate. fold errors.
  split.
  - intros Hne. destruct errors as [|e rest] eqn:He; [contradiction|].
    split; [reflexivity|].
    rewrite map_map. apply map_ext. reflexivity.
  - intros ->. reflexivity.
Qed.

(** X19. The NestJS validation pipe under the exception filter: a value
    whose metatype is absent or one of the native constructors is passed
    on as it came, unvalidated; for a DTO class whose validation reports
    errors the client gets status 400 and exactly
    [{ success: false, message: "Validation failed", errors }], with one
    entry per reported error carrying its property, its constraints and
    the rejected value itself, in debug mode or not. *)
Theorem pipe_rejection_response
        (toInstance : Js.value -> Js.value)
        (classValidate : Js.value -> list Nest.PipeValidationError)
        (value : Js.value) (debug : bool) :
  (forall metatype, metatype = None
                    \/ (exists m, metatype = Some m /\ m <> Nest.DtoClass) ->
                    Nest.transform toInstance classValidate value metatype
                    = Nest.Ok value)
  /\ (classValidate (toInstance value) = [] ->
      Nest.transform toInstance classValidate value (Some Nest.DtoClass)
      = Nest.Ok (toInstance value))
  /\ (classValidate (toInstance value) <> [] ->
      exists e,
        Nest.transform toInstance classValidate value (Some Nest.DtoClass)
        = Nest.Throw e
        /\ Nest.catch debug e
           = Nest.Ok
               (Nest.mkResponse 400
                  (Some
                     (Js.Obj [("success", Js.Bool false);
                              ("message", Js.Str "Validation failed");
                              ("errors",
                               Js.Arr (map (fun error =>
                                              Js.Obj [("field", Js.Str (Nest.pe_property error));
                                                      ("constraints", Nest.pe_constraints error);
                                                      ("value", Nest.pe_value error)])
                                           (classValidate (toInstance value))))])))).
Proof.
  split; [|split].
  - intros metatype [-> | [m [-> Hm]]]; [reflexivity|].
    destruct m; try reflexivity. contradiction.
  - intros He. unfold Nest.transform. simpl. now rewrite He.
  - intros Hne. unfold Nest.transform. simpl.
    destruct (classValidate (toInstance value)) as [|e rest]; [contradiction|].
    eexists. split; [reflexivity|]. destruct debug; reflexivity.
Qed.

(** ** The users controller's routes and the seeder *)

(** Under the primary key, a rewrite of the rows with one id leaves that
    id with the rewritten row. *)
Lemma Nest_findOneById_rewritten i (t : Nest.Table) u (f : Nest.User -> Nest.User) :
  NoDup (map Nest.id t) -> In u t -> Nest.id u = i ->
  Nest.live (f u) = true -> Nest.id (f u) = i ->
  Nest.findOneById i (map (fun v => if String.eqb (Nest.id v) i then f v else v) t)
  = Some (f u).
Proof.
  intros Hnd Hin Hu Hl Hr. unfold Nest.findOneById, Nest.findOneBy.
  induction t as [|v t IH]; [contradiction|]. simpl.
  inversion Hnd as [|? ? Hfresh Hrest]; subst.
  destruct (String.eqb (Nest.id v) (Nest.id u)) eqn:He.
  - apply String.eqb_eq in He.
    assert (v = u).
    { destruct Hin as [Hv | Hin]; [exact Hv|].
      exfalso. apply Hfresh. rewrite He. now apply in_map. }
    subst v. now rewrite Hl, Hr, String.eqb_refl.
  - rewrite He, andb_false_r. apply IH; [exact Hrest|].
    destruct Hin as [-> | Hin]; [|exact Hin].
    rewrite String.eqb_refl in He. discriminate.
Qed.

Section UsersRoutes.
Context {bcrypt : Nest.Bcrypt} {pg : Nest.Postgres}.

(** X20. The update route carries no [@Roles]: the roles guard lets every
    authenticated user through, whatever the role and whoever the target.
    With the table's constraints in force, a user who sends
    [{ role: "admin" }] for the id of an existing user gets the entity
    back with the role admin, the next lookup of that id returns this
    entity, and with it as [request.user] the guard of the admin-only
    create and remove routes is passed. *)
Theorem update_route_not_role_gated
        (env : Nest.Env) (caller : Nest.Entity) (target : Nest.User)
        (i key : string) (t : Nest.Table) :
  Nest_constraints t ->
  Nest.uuid_in i = Some key ->
  Nest.findOneById key t = Some target ->
  let dto := Nest.mkUpdate None None None None (Some (Nest.roleValue Nest.ADMIN)) None in
  exists u' t1,
    Nest.guardedBy (Nest.rolesOf Nest.HUpdate) (Some caller) (Nest.update env i dto) t
    = (Nest.Ok u', t1)
    /\ Nest.role u' = Nest.roleValue Nest.ADMIN
    /\ Nest.findOne i t1 = (Nest.Ok u', t1)
    /\ Nest.canActivate (Nest.rolesOf Nest.HCreate) (Some u') = Nest.Ok true
    /\ Nest.canActivate (Nest.rolesOf Nest.HRemove) (Some u') = Nest.Ok true.
Proof.
  intros [Hpk Hnd] Hkey Hf dto.
  destruct (Nest_findOneById_Some _ _ _ Hf) as [Hin [Hlive Hid]].
  assert (Hdel : Nest.deletedAt target = None).
  { unfold Nest.live in Hlive. destruct (Nest.deletedAt target); [discriminate | reflexivity]. }
  assert (Hone : Nest.findOne i t = (Nest.Ok (Nest.loaded target), t)).
  { unfold Nest.findOne, Nest.bind, Nest.repositoryFindOneById. now rewrite Hkey, Hf. }
  change (Nest.guardedBy (Nest.rolesOf Nest.HUpdate) (Some caller) (Nest.update env i dto) t)
    with (Nest.update env i dto t).
  unfold Nest.update. unfold Nest.bind at 1. rewrite Hone.
  unfold Nest.bind at 1. change (Nest.emailChanges dto (Nest.loaded target)) with false.
  cbv iota. unfold Nest.ret at 1.
  set (entity := Nest.assign (Nest.loaded target) (Nest.hashPassword dto)).
  assert (Hrole : Nest.role entity = Nest.roleValue Nest.ADMIN) by reflexivity.
  unfold Nest.save. destruct (Nest.Entity_eqb (Nest.loaded target) entity) eqn:He.
  - apply Nest_Entity_eqb_eq in He. exists entity, t.
    split; [reflexivity|]. split; [exact Hrole|].
    split; [now rewrite <- He|].
    split; reflexivity.
  - unfold Nest.updateRow.
    match goal with |- context [existsb ?p t] => assert (Hex : existsb p t = false) end.
    { apply existsb_false_forall. intros v Hv.
      destruct (String.eqb (Nest.id v) (Nest.id entity)) eqn:Hiv; [reflexivity|].
      simpl. apply String.eqb_neq. intros Hem.
      assert (v = target) by (apply (NoDup_email_inj _ Nest.email t); auto).
      subst v. change (Nest.id entity) with (Nest.id target) in Hiv.
      rewrite String.eqb_refl in Hiv. discriminate. }
    rewrite Hex. eexists _, _. split; [reflexivity|].
    split; [reflexivity|]. split.
    + unfold Nest.findOne, Nest.bind, Nest.repositoryFindOneById. rewrite Hkey.
      change (Nest.id entity) with (Nest.id target). rewrite Hid.
      rewrite (Nest_findOneById_rewritten key t target
                 (Nest.written (Nest.now env) entity));
        [reflexivity | exact Hpk | exact Hin | exact Hid | | exact Hid].
      unfold Nest.live. cbn [Nest.written Nest.deletedAt]. unfold entity.
      cbn [Nest.assign Nest.loaded Nest.deletedAt]. now rewrite Hdel.
    + split; reflexivity.
Qed.






End UsersRoutes.

Lemma validation_middleware_gate_witness :
  Express_answerStatus
    (fst (Express.validatedRoute (fun v => v)
            (fun _ => [Express.mkClassError "email"
                         (Some [("isEmail", "email must be an email")])
                         (Js.Str "nope")])
            xenv60 false (fun _ => Express.respond (Express.health xenv60 "test"))
            (Js.Obj [("email", Js.Str "nope")]) [xann]))
  = Some 400.
Proof.
  refine (f_equal (fun r => Express_answerStatus (fst r))
            (proj1 (proj1 (validation_middleware_gate (fun v => v)
               (fun _ => [Express.mkClassError "email"
                            (Some [("isEmail", "email must be an email")])
                            (Js.Str "nope")])
               xenv60 (fun _ => Express.respond (Express.health xenv60 "test"))
               (Js.Obj [("email", Js.Str "nope")]) [xann]) _))).
  discriminate.
Defined.

Lemma update_route_not_role_gated_witness :
  exists u' t1,
    Nest.guardedBy (Nest.rolesOf Nest.HUpdate) (Some (Nest.loaded ann))
      (@Nest.update sampleBcrypt samplePostgres env60 annId
         (Nest.mkUpdate None None None None (Some "admin") None)) [ann; bob]
    = (Nest.Ok u', t1)
    /\ Nest.role u' = "admin"
    /\ Nest.findOne (pg := samplePostgres) annId t1 = (Nest.Ok u', t1).
Proof.
  assert (Hc : Nest_constraints [ann; bob]).
  { split; simpl; repeat constructor; simpl; intuition discriminate. }
  destruct (@update_route_not_role_gated sampleBcrypt samplePostgres env60
              (Nest.loaded ann) ann annId annId [ann; bob] Hc eq_refl eq_refl)
    as (u' & t1 & H & Hr & Hnext & _).
  exists u', t1. split; [exact H|]. split; [exact Hr | exact Hnext].
Defined.


(** ** What the list queries select *)

Lemma In_page {A} (n m : nat) (l : list A) (x : A) :
  In x (firstn n (skipn m l)) -> In x l.
Proof.
  intros H.
  rewrite <- (firstn_skipn m l). apply in_or_app. right.
  rewrite <- (firstn_skipn n (skipn m l)). apply in_or_app. now left.
Qed.

(** The sample sort only reorders. *)
Lemma In_insertBy {Row : Type} (before : Row -> Row -> bool) (x u : Row) (l : list Row) :
  In u (insertBy before x l) -> u = x \/ In u l.
Proof.
  induction l as [|y rest IH]; simpl.
  - intros [<- | []]. now left.
  - destruct (before x y); simpl.
    + intros [<- | H]; [now left | now right].
    + intros [<- | H]; [right; now left|].
      destruct (IH H) as [-> | Hin]; [now left | right; now right].
Qed.

Lemma In_sortRows {Row : Type} (before : Row -> Row -> bool) (u : Row) (l : list Row) :
  In u (sortRows before l) -> In u l.
Proof.
  unfold sortRows. induction l as [|y rest IH]; simpl; [auto|].
  intros H. apply In_insertBy in H. destruct H as [-> | H]; [now left | right; auto].
Qed.




(** X23. The Express list query only reads, and, provided the ORDER BY
    only reorders the rows it is given, every row it returns is a stored
    row that is not soft-deleted and, when a search text is given, matches
    it on email, first name or last name; a soft-deleted user is never
    listed. *)
Theorem express_findAll_selects {db : Express.Database}
        (page pageSize : Express.number) (search : option string)
        (t t' : Express.Table) (rows : list Express.User) (total : Z) :
  (forall l u, In u (Express.orderByCreatedAtDesc l) -> In u l) ->
  Express.UserRepository.findAll page pageSize search t = (Express.Ok (rows, total), t') ->
  t' = t
  /\ forall u, In u rows ->
               In u t
               /\ Express.deletedAt u = None
               /\ (forall s, search = Some s -> s <> "" ->
                             (Express.iLike (Express.email u) ("%" ++ s ++ "%")
                              || Express.iLike (Express.firstName u) ("%" ++ s ++ "%")
                              || Express.iLike (Express.lastName u) ("%" ++ s ++ "%"))%bool
                             = true).
Proof.
  intros Hsort. unfold Express.UserRepository.findAll, Express.tryCatch,
    Express.UserRepository.findAndCountAll.
  destruct pageSize as [ps|]; [destruct page as [p|]|]; simpl; try discriminate.
  destruct ((ps <? 0) || (Express.UserRepository.offsetOf p ps <? 0)
            || (Express.BIGINT_MAX <? ps)
            || (Express.BIGINT_MAX <? Express.UserRepository.offsetOf p ps))%bool;
    simpl; [discriminate|].
  unfold Express.query. intros H. injection H as <- _ <-. split; [reflexivity|].
  intros u Hu. apply In_page in Hu. apply Hsort in Hu.
  apply filter_In in Hu. destruct Hu as [Hin Hm].
  apply andb_true_iff in Hm. destruct Hm as [Hl Hw].
  split; [exact Hin|]. split.
  - unfold Express.live in Hl. destruct (Express.deletedAt u); [discriminate | reflexivity].
  - intros s -> Hne. unfold Express.UserRepository.whereClause in Hw. simpl in Hw.
    apply String.eqb_neq in Hne. rewrite Hne in Hw. simpl in Hw. exact Hw.
Qed.

(** A search for [lee] in a table with Ann Lee, deleted or not. *)
Lemma express_findAll_selects_witness :
  Express.UserRepository.findAll (db := sampleDatabase)
    (Express.Int 1) (Express.Int 10) (Some "lee") [xannDeleted; xann]
  = (Express.Ok ([xann], 1), [xannDeleted; xann])
  /\ In xann [xannDeleted; xann]
  /\ Express.deletedAt xann = None
  /\ sampleILike (Express.lastName xann) "%lee%" = true.
Proof.
  assert (Hu : In xann [xann]) by now left.
  destruct (@express_findAll_selects sampleDatabase (Express.Int 1) (Express.Int 10)
              (Some "lee") [xannDeleted; xann] _ _ _
              (fun l u => In_sortRows _ u l) eq_refl)
    as [_ Hall].
  destruct (Hall xann Hu) as (Hin & Hd & Hs).
  split; [reflexivity|]. split; [exact Hin|]. split; [exact Hd|]. reflexivity.
Defined.
